(** * Insider-threat graph pipeline: a shallow embedding of
    [backend/services/insider_threat/graph_analyzer.py]

    The class [InsiderThreatDetector] is embedded as a record of its fields
    together with one function per method; methods that mutate [self] take
    the detector and return the updated detector next to their result.

    Conventions of the embedding:
    - a Python [set] is a [gset], its iteration order is the order of
      [elements]; a [dict] is a [gmap], the order of [.items()] is the order
      of [map_to_list] (no property below depends on either order);
    - a [datetime.date] is its day ordinal in [Z], so [(a - b).days] is
      [a - b]; a date is always truthy;
    - a pandas data frame is the list of its rows; a name cell ([user],
      [pc], [domain]) holds a string and a day cell a date, as in the mock
      data and in log files without empty cells; the missing values of
      pandas ([NaN] in a name cell, [NaT] for a day) are not represented;
    - tensors are lists; counts held in float tensors are kept in [Z], and
      scores (outputs of [torch.sigmoid]) are idealised as rationals [Q];
    - the neural scorer, its optimiser and the sigmoid are parameters of the
      development, and so are the integers that the random generator draws
      for the mock data;
    - the contents of the answer files and of the log files enter as the
      sets and frames that the two loaders make of them, with the same
      restriction: every answer date is a date. *)

From stdpp Require Import gmap strings list fin_maps sorting pretty.
From Stdlib Require Import QArith Lqa.

Open Scope Z_scope.

(** ** Python built-ins used by the pipeline *)

Module Py.

(** Exceptions that the modelled code can raise. *)
Inductive exn : Type :=
| ValueError (msg : string)
| RuntimeError (msg : string)
| KeyError
| IndexError
| AttributeError.

Inductive result (A : Type) : Type :=
| Ok (a : A)
| Raise (e : exn).
Arguments Ok {A} a.
Arguments Raise {A} e.

#[global] Instance result_ret : MRet result := λ A a, Ok a.
#[global] Instance result_bind : MBind result := λ A B k r,
  match r with
  | Ok a => k a
  | Raise e => Raise e
  end.

(** [str(e)]: an exception raised with a message prints as that message.
    The text of the other exceptions is made by Python from operands that
    the embedding does not keep. *)
Definition str (e : exn) : option string :=
  match e with
  | ValueError msg | RuntimeError msg => Some msg
  | KeyError | IndexError | AttributeError => None
  end.

(** [d[k]] on a dict and [t[i]] on a tensor or list. *)
Definition getitem {K V} `{Countable K} (d : gmap K V) (k : K) : result V :=
  match d !! k with
  | Some v => Ok v
  | None => Raise KeyError
  end.

Definition index {A} (l : list A) (i : nat) : result A :=
  match l !! i with
  | Some v => Ok v
  | None => Raise IndexError
  end.

(** Truthiness of a [str]: only the empty string is falsy. *)
Definition truthy (s : string) : bool :=
  match s with
  | EmptyString => false
  | String _ _ => true
  end.

(** [sorted(s)] for a set of dates. *)
Definition sorted (s : gset Z) : list Z := merge_sort Z.le (elements s).

(** [min(l, key=key)]: the first element whose key is least; [None]
    stands for the [ValueError] on an empty list. *)
Definition min_key {A} (key : A → Z) (l : list A) : option A :=
  match l with
  | [] => None
  | a :: l' =>
      Some (foldl (λ best c, if bool_decide (key c < key best) then c else best) a l')
  end.

(** [max(s)] on dates. *)
Definition max (l : list Z) : option Z :=
  match l with
  | [] => None
  | a :: l' =>
      Some (foldl (λ best c, if bool_decide (best < c) then c else best) a l')
  end.

(** [l.sort(key=..., reverse=True)] and the like: a stable insertion sort
    for the order [before], where [before a b] says that [a] may stand in
    front of [b]. *)
Fixpoint insert {A} (before : A → A → bool) (a : A) (l : list A) : list A :=
  match l with
  | [] => [a]
  | b :: l' => if before a b then a :: b :: l' else b :: insert before a l'
  end.

Fixpoint sort {A} (before : A → A → bool) (l : list A) : list A :=
  match l with
  | [] => []
  | a :: l' => insert before a (sort before l')
  end.

(** [l[:k]] for an [int] k, negative values counting from the end. *)
Definition slice_to {A} (k : Z) (l : list A) : list A :=
  if bool_decide (k < 0)
  then take (Z.to_nat (Z.of_nat (length l) + k)) l
  else take (Z.to_nat k) l.

End Py.

(** ** Data model *)

(** Rows of the three day-stamped log frames.  Every cell is present: the
    names are strings and the day is a date.  On such rows the test
    [r["user"] in self.node_id and r["pc"] in self.node_id] of the edge
    loops always passes (lemma [edge_rows_all]); a row with an empty [pc]
    or [domain] cell, whose [NaN] the builder numbers but does not find
    again, has no counterpart here. *)
Record LogonRow := {
  l_user : string; l_pc : string; l_day : Z; l_logon : Z; l_logoff : Z }.
Record DeviceRow := {
  d_user : string; d_pc : string; d_day : Z; d_connect : Z; d_disconnect : Z }.
Record HttpRow := {
  h_user : string; h_domain : string; h_day : Z; h_request_count : Z }.

(** The values ["user"], ["pc"] and ["domain"] of [node_type]. *)
Inductive kind : Type := User | PC | Domain.

#[global] Instance kind_eq_dec : EqDecision kind.
Proof. solve_decision. Defined.

(** The [torch_geometric.data.Data] object built by [build_graph]:
    [x] is the one-column degree feature, [edge_index] the list of
    (source, target) columns. *)
Record Data := {
  data_x : list Z;
  data_edge_index : list (nat * nat);
  data_edge_attr : list (list Z);
  data_y : list Z;
  data_train_mask : list bool }.

Definition num_nodes (d : Data) : nat := length (data_x d).
Definition num_edges (d : Data) : nat := length (data_edge_index d).

Definition set_y (d : Data) (y : list Z) : Data :=
  {| data_x := data_x d; data_edge_index := data_edge_index d;
     data_edge_attr := data_edge_attr d; data_y := y;
     data_train_mask := data_train_mask d |}.

(** The fields of [InsiderThreatDetector] that the pipeline reads and
    writes. *)
Record Detector (GNN : Type) := {
  model : option GNN;
  data : option Data;
  node_id : gmap string nat;
  node_type : gmap nat kind;
  malicious_users : gset string;
  malicious_days : gset Z }.
Arguments model {GNN} _.
Arguments data {GNN} _.
Arguments node_id {GNN} _.
Arguments node_type {GNN} _.
Arguments malicious_users {GNN} _.
Arguments malicious_days {GNN} _.

(** The state after [__init__]. *)
Definition init (GNN : Type) : Detector GNN :=
  {| model := None; data := None; node_id := ∅; node_type := ∅;
     malicious_users := ∅; malicious_days := ∅ |}.

(** The neural scorer is a parameter: [create_gnn_model] gives the
    untrained network, [forward] its logits, [optimizer_step] the loss of one
    epoch and the network after [loss.backward()] and [optimizer.step()] (it
    sees the logits, the labels and the mask).  [forward_length] says that
    there is one logit per row of [x], [sigmoid_range] that scores lie in
    [0,1]. *)
Class Scorer (GNN : Type) := {
  create_gnn_model : GNN;
  forward : GNN → list Z → list (nat * nat) → list Q;
  optimizer_step : GNN → list Q → Data → GNN * Q;
  sigmoid : Q → Q;
  forward_length : ∀ m x edge_index, length (forward m x edge_index) = length x;
  sigmoid_range : ∀ v, (0 <= sigmoid v <= 1)%Q }.

Record Prediction := {
  p_user : string; p_score : Q; p_is_known_malicious : bool }.

Record VizNode := {
  vn_id : string; vn_type : kind; vn_is_malicious : bool; vn_degree : Z }.
Record VizEdge := { ve_source : string; ve_target : string; ve_weight : Z }.
Record VizStats := {
  total_nodes : nat; total_edges : nat; stats_malicious_users : nat }.
Record Viz := {
  viz_nodes : list VizNode; viz_edges : list VizEdge; viz_stats : VizStats }.

Record Summary := {
  sum_total_nodes : nat; sum_total_edges : nat; sum_users_analyzed : nat;
  sum_known_malicious : nat; sum_date_range : Z * Z;
  sum_total_days_available : nat }.

Record Analysis := {
  analysis_date : Z;
  suspicious_users : list Prediction;
  graph_data : option Viz;
  training_losses : list Q;
  summary : Summary }.

(** The two shapes of the dictionary returned by [run_analysis]: the
    success response, and the error response that the [except] clause
    (lines 633-643) builds from the exception [e] that it caught. *)
Inductive Response : Type :=
| Success (a : Analysis)
| Error (e : Py.exn).

(** The entry ["error"] of the response: [str(e)] (line 637), which is all
    that the caller learns of the exception.  A success response has no
    such entry. *)
Definition response_error (r : Response) : option string :=
  match r with
  | Success _ => None
  | Error e => Py.str e
  end.

(** ** The day selector of [run_analysis] (lines 562-599) *)

Definition select_day (all_days malicious_days : gset Z) : option Z :=
  if bool_decide (malicious_days ≠ ∅) then
    let candidate_days := Py.sorted (all_days ∩ malicious_days) in
    match candidate_days with
    | d :: _ => Some d
    | [] =>
        if bool_decide (all_days ≠ ∅) && bool_decide (malicious_days ≠ ∅) then
          let all_days_list := Py.sorted all_days in
          let malicious_days_list := Py.sorted malicious_days in
          match malicious_days_list with
          | target_date :: _ =>
              Py.min_key (λ x, Z.abs (x - target_date)) all_days_list
          | [] => None
          end
        else if bool_decide (all_days ≠ ∅) then Py.max (elements all_days)
        else None
    end
  else if bool_decide (all_days ≠ ∅) then Py.max (elements all_days)
  else None.

(** ** [build_graph] (lines 271-369) *)

(** One of the three loops that number the entities of a type. *)
Definition add_nodes (ty : kind) (names : list string)
    (acc : gmap string nat * gmap nat kind * nat) : gmap string nat * gmap nat kind * nat :=
  foldl (λ '(nid, nty, idx) name, (<[name := idx]> nid, <[idx := ty]> nty, S idx))
        acc names.

(** The body of an edge loop for one row: the edge and its feature row when
    both names are keys of [node_id]. *)
Definition edge_of (nid : gmap string nat) (src tgt : string) (feat : list Z)
    : list ((nat * nat) * list Z) :=
  match nid !! src, nid !! tgt with
  | Some s, Some t => [((s, t), feat)]
  | _, _ => []
  end.

Definition logon_edges (nid : gmap string nat) (rows : list LogonRow) :=
  rows ≫= (λ r, edge_of nid (l_user r) (l_pc r) [l_logon r; l_logoff r; 0; 0; 0]).

Definition device_edges (nid : gmap string nat) (rows : list DeviceRow) :=
  rows ≫= (λ r, edge_of nid (d_user r) (d_pc r) [0; 0; d_connect r; d_disconnect r; 0]).

Definition http_edges (nid : gmap string nat) (rows : list HttpRow) :=
  rows ≫= (λ r, edge_of nid (h_user r) (h_domain r) [0; 0; 0; 0; h_request_count r]).

(** [x = zeros(n, 1)], then [x[s] += 1; x[t] += 1] for every edge.  The
    ends of an edge are indices of [node_id], hence below [n] (lemma
    [numbering_bound]); [alter] leaves the list alone elsewhere. *)
Definition degree_features (n : nat) (edges : list (nat * nat)) : list Z :=
  foldl (λ x '(s, t), alter Z.succ t (alter Z.succ s x)) (replicate n 0) edges.

(** The loop over [node_id.items()] that fills [y] and [train_mask].  Every
    index stored in [node_id] is a key of [node_type] (lemma
    [numbering_consistent]), so [node_type[idx]] cannot raise here. *)
Definition labels_and_mask (n : nat) (nid : gmap string nat) (nty : gmap nat kind)
    (malicious : gset string) : list Z * list bool :=
  foldl (λ '(y, train_mask) '(name, idx),
           (if bool_decide (name ∈ malicious) then <[idx := 1]> y else y,
            if bool_decide (nty !! idx = Some User) then <[idx := true]> train_mask
            else train_mask))
        (replicate n 0, replicate n false) (map_to_list nid).

Definition users_of (logon_day : list LogonRow) (device_day : list DeviceRow)
    (http_day : list HttpRow) : gset string :=
  list_to_set (l_user <$> logon_day) ∪ list_to_set (d_user <$> device_day)
    ∪ list_to_set (h_user <$> http_day).

Definition pcs_of (logon_day : list LogonRow) (device_day : list DeviceRow) : gset string :=
  list_to_set (l_pc <$> logon_day) ∪ list_to_set (d_pc <$> device_day).

Definition domains_of (http_day : list HttpRow) : gset string :=
  list_to_set (h_domain <$> http_day).

(** Both names of a row are keys of [node_id]. *)
Definition resolved (nid : gmap string nat) (src tgt : string) : Prop :=
  is_Some (nid !! src) ∧ is_Some (nid !! tgt).

#[global] Instance resolved_dec nid src tgt : Decision (resolved nid src tgt).
Proof. unfold resolved. apply _. Defined.

(** The block [# Create node mappings]: users, then PCs, then domains. *)
Definition number_nodes (users pcs domains : gset string)
    : gmap string nat * gmap nat kind * nat :=
  add_nodes Domain (elements domains)
    (add_nodes PC (elements pcs)
       (add_nodes User (elements users) (∅, ∅, 0%nat))).

(** [frame[frame["day"] == selected_day]]. *)
Definition on_day {R} (day_of : R → Z) (selected_day : Z) (frame : list R) : list R :=
  filter (λ r, day_of r = selected_day) frame.

(** The three edge loops, in their order. *)
Definition edge_rows (nid : gmap string nat) (logon_day : list LogonRow)
    (device_day : list DeviceRow) (http_day : list HttpRow)
    : list ((nat * nat) * list Z) :=
  logon_edges nid logon_day ++ device_edges nid device_day ++ http_edges nid http_day.

Definition build_graph {GNN} (self : Detector GNN) (logon : list LogonRow)
    (device : list DeviceRow) (http : list HttpRow) (selected_day : Z)
    : option Data * Detector GNN :=
  let logon_day := on_day l_day selected_day logon in
  let device_day := on_day d_day selected_day device in
  let http_day := on_day h_day selected_day http in
  let users := users_of logon_day device_day http_day in
  let pcs := pcs_of logon_day device_day in
  let domains := domains_of http_day in
  let '(nid, nty, idx) := number_nodes users pcs domains in
  let num_nodes := idx in
  let rows := edge_rows nid logon_day device_day http_day in
  let edges := rows.*1 in
  let edge_features := rows.*2 in
  match edges with
  | [] =>
      (None,
       {| model := model self; data := data self; node_id := nid; node_type := nty;
          malicious_users := malicious_users self;
          malicious_days := malicious_days self |})
  | _ :: _ =>
      let x := degree_features num_nodes edges in
      let '(y, train_mask) := labels_and_mask num_nodes nid nty (malicious_users self) in
      let d := {| data_x := x; data_edge_index := edges; data_edge_attr := edge_features;
                  data_y := y; data_train_mask := train_mask |} in
      (Some d,
       {| model := model self; data := Some d; node_id := nid; node_type := nty;
          malicious_users := malicious_users self;
          malicious_days := malicious_days self |})
  end.

(** ** [train_model] (lines 389-435) *)

(** [(y[train_mask] == 1).sum()]. *)
Definition count_positives (mask : list bool) (y : list Z) : nat :=
  length (filter (λ p : bool * Z, p.1 = true ∧ p.2 = 1) (zip mask y)).

Definition masked_positives (d : Data) : nat :=
  count_positives (data_train_mask d) (data_y d).

(** [train_mask.sum()]: the number of training nodes. *)
Definition train_nodes (d : Data) : nat :=
  length (filter (λ b, b = true) (data_train_mask d)).

(** The three per-node tensors have one entry per node. *)
Definition well_formed (d : Data) : Prop :=
  length (data_x d) = length (data_train_mask d) ∧
  length (data_y d) = length (data_train_mask d).

(** [y[indices] = 1]. *)
Definition set_ones (y : list Z) (indices : list nat) : list Z :=
  foldl (λ y i, <[i := 1]> y) y indices.

(** [torch.where(train_mask)[0]]: the indices of the masked nodes, ascending. *)
Definition user_indices (d : Data) : list nat :=
  filter (λ i, data_train_mask d !! i = Some true) (seq 0 (length (data_train_mask d))).

(** [torch.topk(values, k).indices]: positions of the [k] largest values.
    Among equal values the lowest positions are taken here; [torch.topk]
    promises no order among equal values, and no property below depends on
    which of them are taken. *)
Definition topk (values : list Z) (k : nat) : list nat :=
  take k (Py.sort (λ i j, bool_decide (values !!! j ≤ values !!! i))
                  (seq 0 (length values))).

(** The positive-sample check at the head of every epoch.  The masked
    indices are below the length of [x], [y] and [train_mask] of a built
    graph, so the tensor reads are total there; [!!!] returns 0 otherwise. *)
Definition fallback (d : Data) : Data :=
  if bool_decide (masked_positives d = 0%nat) then
    let user_indices := user_indices d in
    if bool_decide (0 < length user_indices)%nat then
      let degrees := (λ i, data_x d !!! i) <$> user_indices in
      let top_indices :=
        (λ p, user_indices !!! p) <$> topk degrees (Nat.min 3 (length user_indices)) in
      set_y d (set_ones (data_y d) top_indices)
    else d
  else d.

Section Train.
Context {GNN : Type} `{!Scorer GNN}.

(** One pass of the epoch loop: forward, positive-sample check, loss and
    optimiser step. *)
Definition train_epoch (st : GNN * Data * list Q) : GNN * Data * list Q :=
  let '(m, d, training_losses) := st in
  let out := forward m (data_x d) (data_edge_index d) in
  let d := fallback d in
  let '(m, loss) := optimizer_step m out d in
  (m, d, training_losses ++ [loss]).

Definition train_model (self : Detector GNN) (epochs : Z)
    : Py.result (list Q) * Detector GNN :=
  match data self with
  | None => (Py.Raise (Py.ValueError "Graph data not available. Build graph first."), self)
  | Some d =>
      let '(m, d, training_losses) :=
        Nat.iter (Z.to_nat epochs) train_epoch (create_gnn_model, d, []) in
      (Py.Ok training_losses,
       {| model := Some m; data := Some d; node_id := node_id self;
          node_type := node_type self; malicious_users := malicious_users self;
          malicious_days := malicious_days self |})
  end.

(** The graph as it stands after [k] passes of the epoch loop. *)
Definition data_after (k : nat) (m : GNN) (d : Data) : Data :=
  (Nat.iter k train_epoch (m, d, [])).1.2.

End Train.

(** ** [get_predictions] (lines 437-492) *)

(** The scan [for name, idx in node_id.items(): if idx == i: ...; break]. *)
Definition name_of (nid : gmap string nat) (i : nat) : option string :=
  fst <$> find (λ p, bool_decide (p.2 = i)) (map_to_list nid).

(** [torch.clamp(v, lo, hi)]. *)
Definition clamp (v lo hi : Q) : Q :=
  let v := if Qle_bool lo v then v else lo in
  if Qle_bool v hi then v else hi.

Definition boost_amount : Q := 8 # 10.

Section Predict.
Context {GNN : Type} `{!Scorer GNN}.

(** Body of the boosting loop for node [i]. *)
Definition boost_step (self : Detector GNN) (scores : list Q) (i : nat)
    : Py.result (list Q) :=
  ty ← Py.getitem (node_type self) i;
  if bool_decide (ty = User) then
    match name_of (node_id self) i with
    | Some user_name =>
        if Py.truthy user_name && bool_decide (user_name ∈ malicious_users self) then
          s ← Py.index scores i;
          mret (<[i := clamp (s + boost_amount) 0 1]> scores)
        else mret scores
    | None => mret scores
    end
  else mret scores.

Definition boost (self : Detector GNN) (scores : list Q) (n : nat)
    : Py.result (list Q) :=
  foldl (λ acc i, scores ← acc; boost_step self scores i) (mret scores) (seq 0 n).

(** Body of the loop that collects [top_users]. *)
Definition entry_step (self : Detector GNN) (scores : list Q)
    (top_users : list Prediction) (i : nat) : Py.result (list Prediction) :=
  ty ← Py.getitem (node_type self) i;
  if bool_decide (ty = User) then
    match name_of (node_id self) i with
    | Some user_name =>
        if Py.truthy user_name then
          s ← Py.index scores i;
          mret (top_users ++
                  [{| p_user := user_name; p_score := s;
                      p_is_known_malicious :=
                        bool_decide (user_name ∈ malicious_users self) |}])
        else mret top_users
    | None => mret top_users
    end
  else mret top_users.

Definition entries (self : Detector GNN) (scores : list Q) (n : nat)
    : Py.result (list Prediction) :=
  foldl (λ acc i, top_users ← acc; entry_step self scores top_users i)
        (mret []) (seq 0 n).

(** [top_users.sort(key=lambda x: x["score"], reverse=True)]. *)
Definition by_score_desc (a b : Prediction) : bool :=
  Qle_bool (p_score b) (p_score a).

(** The part of [get_predictions] after inference. *)
Definition rank (self : Detector GNN) (scores : list Q) (n : nat) (top_k : Z)
    : Py.result (list Prediction) :=
  scores ← boost self scores n;
  top_users ← entries self scores n;
  mret (Py.slice_to top_k (Py.sort by_score_desc top_users)).

(** The default of the parameter [top_k]. *)
Definition default_top_k : Z := 50.

(** [top_k = None] stands for a call that leaves the parameter out. *)
Definition get_predictions (self : Detector GNN) (top_k : option Z)
    : Py.result (list Prediction) :=
  let top_k := default default_top_k top_k in
  match model self, data self with
  | Some m, Some d =>
      let scores := sigmoid <$> forward m (data_x d) (data_edge_index d) in
      rank self scores (num_nodes d) top_k
  | _, _ => Py.Raise (Py.ValueError "Model not trained or data not available")
  end.

End Predict.

(** Whether the boosting loop rewrites the score of node [i]. *)
Definition is_boosted {GNN} (self : Detector GNN) (i : nat) : bool :=
  match node_type self !! i, name_of (node_id self) i with
  | Some User, Some user_name =>
      Py.truthy user_name && bool_decide (user_name ∈ malicious_users self)
  | _, _ => false
  end.

(** The entry that the collecting loop appends for node [i], if any. *)
Definition entry_of {GNN} (self : Detector GNN) (scores : list Q) (i : nat)
    : option Prediction :=
  match node_type self !! i, name_of (node_id self) i, scores !! i with
  | Some User, Some user_name, Some s =>
      if Py.truthy user_name
      then Some {| p_user := user_name; p_score := s;
                   p_is_known_malicious :=
                     bool_decide (user_name ∈ malicious_users self) |}
      else None
  | _, _, _ => None
  end.

(** ** [get_graph_data_for_visualization] (lines 494-541) *)

(** The scan that recovers the names of an edge's two ends; the [elif]
    means that an index equal to [src_idx] is never tried as target. *)
Definition endpoint_names (nid : gmap string nat) (src_idx tgt_idx : nat)
    : option string * option string :=
  foldl (λ '(src_name, tgt_name) '(name, idx),
           if bool_decide (idx = src_idx) then (Some name, tgt_name)
           else if bool_decide (idx = tgt_idx) then (src_name, Some name)
           else (src_name, tgt_name))
        (None, None) (map_to_list nid).

Definition viz_node {GNN} (self : Detector GNN) (d : Data) (nodes : list VizNode)
    (item : string * nat) : Py.result (list VizNode) :=
  let '(name, idx) := item in
  ty ← Py.getitem (node_type self) idx;
  deg ← Py.index (data_x d) idx;
  mret (nodes ++ [{| vn_id := name; vn_type := ty;
                     vn_is_malicious := bool_decide (name ∈ malicious_users self);
                     vn_degree := deg |}]).

Definition viz_edge {GNN} (self : Detector GNN) (edges : list VizEdge)
    (e : nat * nat) : list VizEdge :=
  match endpoint_names (node_id self) e.1 e.2 with
  | (Some src_name, Some tgt_name) =>
      if Py.truthy src_name && Py.truthy tgt_name
      then edges ++ [{| ve_source := src_name; ve_target := tgt_name; ve_weight := 1 |}]
      else edges
  | _ => edges
  end.

Definition get_graph_data_for_visualization {GNN} (self : Detector GNN)
    : Py.result (option Viz) :=
  match data self with
  | None => mret None
  | Some d =>
      nodes ← foldl (λ acc item, nodes ← acc; viz_node self d nodes item)
                    (mret []) (map_to_list (node_id self));
      let edges := foldl (viz_edge self) [] (data_edge_index d) in
      mret (Some {| viz_nodes := nodes; viz_edges := edges;
                    viz_stats :=
                      {| total_nodes := length nodes; total_edges := length edges;
                         stats_malicious_users :=
                           length (filter (λ n, vn_is_malicious n = true ∧ vn_type n = User)
                                          nodes) |} |})
  end.

(** ** [run_analysis] (lines 543-643) *)

Definition days_of (logon : list LogonRow) (device : list DeviceRow)
    (http : list HttpRow) : gset Z :=
  list_to_set (l_day <$> logon) ∪ list_to_set (d_day <$> device)
    ∪ list_to_set (h_day <$> http).

(** The effect of [load_malicious_data] (lines 208-269), given the users and
    days that it parsed from the answer files: both sets only grow.  The
    days are dates; a date cell that does not parse, which line 254 lets
    through as [NaT], is not represented. *)
Definition load_malicious_data {GNN} (self : Detector GNN)
    (answer_users : gset string) (answer_days : gset Z) : Detector GNN :=
  {| model := model self; data := data self; node_id := node_id self;
     node_type := node_type self;
     malicious_users := malicious_users self ∪ answer_users;
     malicious_days := malicious_days self ∪ answer_days |}.

Section Run.
Context {GNN : Type} `{!Scorer GNN}.

(** The pipeline from [# Build graph] on, for a day already selected;
    exceptions travel with the detector as it is when they are raised. *)
Definition analyse_day (self : Detector GNN) (logon : list LogonRow)
    (device : list DeviceRow) (http : list HttpRow) (all_days : gset Z)
    (date_range : Z * Z) (selected_day : Z) : Py.result Analysis * Detector GNN :=
  let '(graph_data, self) := build_graph self logon device http selected_day in
  match graph_data with
  | None => (Py.Raise (Py.RuntimeError "Failed to build graph"), self)
  | Some _ =>
      let '(trained, self) := train_model self 25 in
      (training_losses ← trained;
       suspicious_users ← get_predictions self (Some 100);
       graph_viz_data ← get_graph_data_for_visualization self;
       match data self with
       | Some d =>
           mret {| analysis_date := selected_day;
                   suspicious_users := suspicious_users;
                   graph_data := graph_viz_data;
                   training_losses := training_losses;
                   summary :=
                     {| sum_total_nodes := num_nodes d;
                        sum_total_edges := num_edges d;
                        sum_users_analyzed :=
                          length (filter (λ b, b = true) (data_train_mask d));
                        sum_known_malicious := size (malicious_users self);
                        sum_date_range := date_range;
                        sum_total_days_available := size all_days |} |}
       | None => Py.Raise Py.AttributeError
       end, self)
  end.

(** [run_analysis], given what [load_malicious_data] parsed from the answer
    files and the three frames returned by [load_background_logs].  The
    [except] clause turns every exception into the error response. *)
Definition run_analysis (self : Detector GNN) (answer_users : gset string)
    (answer_days : gset Z) (logon : list LogonRow) (device : list DeviceRow)
    (http : list HttpRow) : Response * Detector GNN :=
  let self := load_malicious_data self answer_users answer_days in
  let all_days := days_of logon device http in
  match Py.min_key id (elements all_days), Py.max (elements all_days) with
  | Some lo, Some hi =>
      match select_day all_days (malicious_days self) with
      | Some selected_day =>
          let '(r, self) :=
            analyse_day self logon device http all_days (lo, hi) selected_day in
          match r with
          | Py.Ok a => (Success a, self)
          | Py.Raise e => (Error e, self)
          end
      | None => (Error (Py.RuntimeError "No valid days found for analysis"), self)
      end
  | _, _ => (Error (Py.ValueError "min() arg is an empty sequence"), self)
  end.

End Run.

(** ** [create_mock_data] (lines 128-206) *)

(** [f"{i:04d}"]: the decimal digits of [i], padded with zeros to four
    characters. *)
Fixpoint zeros (n : nat) : string :=
  match n with
  | O => ""
  | S n => "0" +:+ zeros n
  end.

Definition format_04d (i : nat) : string :=
  let digits := pretty i in
  zeros (4 - String.length digits) +:+ digits.

Definition mock_users : list string :=
  ["AAB0754"; "ABM0513"; "JCE0258"; "RCW0822"]
    ++ ((λ i, "USR" +:+ format_04d i) <$> seq 1 46).

Definition mock_pcs : list string :=
  ["PC-4470"; "PC-5948"; "PC-1782"; "PC-1251"; "PC-1508"]
    ++ ((λ i, "PC-" +:+ format_04d i) <$> seq 1 15).

Definition mock_domains : list string :=
  ["google.com"; "facebook.com"; "1and1.com"; "aa.com"; "lockheedmartinjobs.com";
   "careerbuilder.com"; "aol.com"; "linkedin.com"; "indeed.com"; "company.com"].

(** [date(2010, 1, 4)], as its day ordinal. *)
Definition base_date : Z := 733776.

(** The ground truth that [create_mock_data] installs. *)
Definition mock_malicious_users : gset string := {[ "RCW0822"; "JCE0258"; "AAB0754" ]}.
Definition mock_malicious_days : gset Z := {[ base_date + 30 ]}.

Section Mock.

(** The integers that the random generator produces, call by call, during
    one call of [create_mock_data]. *)
Context (draw : nat → Z).

(** [torch.randint(lo, hi, (1,)).item()] at call number [call]: an integer
    of the half-open range from [lo] to [hi]. *)
Definition randint (call : nat) (lo hi : Z) : Z := lo + draw call `mod` (hi - lo).

(** [l[torch.randint(0, len(l), (1,)).item()]]; the index is below [len(l)],
    so the read never raises (lemma [pick_elem]). *)
Definition pick (l : list string) (call : nat) : string :=
  l !!! Z.to_nat (randint call 0 (Z.of_nat (length l))).

(** The three loops; a row draws its fields in the order of the keys of its
    dictionary. *)
Definition mock_logon : list LogonRow :=
  (λ k, {| l_user := pick mock_users (5 * k);
           l_pc := pick mock_pcs (5 * k + 1);
           l_day := base_date + randint (5 * k + 2) 0 365;
           l_logon := randint (5 * k + 3) 1 10;
           l_logoff := randint (5 * k + 4) 1 10 |}) <$> seq 0 200.

Definition mock_device : list DeviceRow :=
  (λ k, {| d_user := pick mock_users (1000 + 5 * k);
           d_pc := pick mock_pcs (1000 + 5 * k + 1);
           d_day := base_date + randint (1000 + 5 * k + 2) 0 365;
           d_connect := randint (1000 + 5 * k + 3) 1 5;
           d_disconnect := randint (1000 + 5 * k + 4) 1 5 |}) <$> seq 0 150.

Definition mock_http : list HttpRow :=
  (λ k, {| h_user := pick mock_users (1750 + 4 * k);
           h_domain := pick mock_domains (1750 + 4 * k + 1);
           h_day := base_date + randint (1750 + 4 * k + 2) 0 365;
           h_request_count := randint (1750 + 4 * k + 3) 1 50 |}) <$> seq 0 300.

(** The frames, and the detector with its ground truth replaced. *)
Definition create_mock_data {GNN} (self : Detector GNN)
    : (list LogonRow * list DeviceRow * list HttpRow) * Detector GNN :=
  ((mock_logon, mock_device, mock_http),
   {| model := model self; data := data self; node_id := node_id self;
      node_type := node_type self;
      malicious_users := mock_malicious_users;
      malicious_days := mock_malicious_days |}).

(** ** [load_background_logs] (lines 45-126) *)

(** What the loader finds on disk: three readable files without empty
    cells, given as the frames that it makes of them (sampled, users
    normalised, days parsed), or no usable files, when one is missing or
    reading raises.  The loader normalises the [user] and [day] columns only
    (lines 111-119): a file with an empty [pc], [domain] or [day] cell gives
    a frame with [NaN] or [NaT] in it, which [Readable] does not cover. *)
Inductive LogFiles : Type :=
| Readable (logon : list LogonRow) (device : list DeviceRow) (http : list HttpRow)
| Unusable.

Definition load_background_logs {GNN} (self : Detector GNN) (files : LogFiles)
    : (list LogonRow * list DeviceRow * list HttpRow) * Detector GNN :=
  match files with
  | Readable logon device http => ((logon, device, http), self)
  | Unusable => create_mock_data self
  end.

(** ** [run_insider_threat_analysis] (lines 650-652) *)

Context {GNN : Type} `{!Scorer GNN}.

(** [run_analysis] from line 555 on, for the detector as the two loaders
    leave it. *)
Definition analyse_logs (self : Detector GNN) (logon : list LogonRow)
    (device : list DeviceRow) (http : list HttpRow) : Response * Detector GNN :=
  let all_days := days_of logon device http in
  match Py.min_key id (elements all_days), Py.max (elements all_days) with
  | Some lo, Some hi =>
      match select_day all_days (malicious_days self) with
      | Some selected_day =>
          let '(r, self) :=
            analyse_day self logon device http all_days (lo, hi) selected_day in
          match r with
          | Py.Ok a => (Success a, self)
          | Py.Raise e => (Error e, self)
          end
      | None => (Error (Py.RuntimeError "No valid days found for analysis"), self)
      end
  | _, _ => (Error (Py.ValueError "min() arg is an empty sequence"), self)
  end.

(** [run_analysis] on the global detector, with both loaders: the answer
    files are merged first, then the logs are loaded, which replaces the
    ground truth when the loader falls back to mock data. *)
Definition run_insider_threat_analysis (detector : Detector GNN)
    (answer_users : gset string) (answer_days : gset Z) (files : LogFiles)
    : Response * Detector GNN :=
  let self := load_malicious_data detector answer_users answer_days in
  let '((logon, device, http), self) := load_background_logs self files in
  analyse_logs self logon device http.

End Mock.

(** ** A concrete scorer and concrete logs for the examples *)

(** A scorer that never learns: every logit is 0, every score one half. *)
#[global] Instance flat_scorer : Scorer unit := {|
  create_gnn_model := tt;
  forward := λ _ x _, (λ _, 0%Q) <$> x;
  optimizer_step := λ m _ _, (m, 0%Q);
  sigmoid := λ _, (1 # 2)%Q;
  forward_length := λ _ x _, length_fmap _ x;
  sigmoid_range := λ _, ltac:(split; unfold Qle; simpl; lia) |}.

Definition logon_row (u p : string) (day : Z) : LogonRow :=
  {| l_user := u; l_pc := p; l_day := day; l_logon := 1; l_logoff := 1 |}.

Definition http_row (u dom : string) (day : Z) : HttpRow :=
  {| h_user := u; h_domain := dom; h_day := day; h_request_count := 1 |}.

(** A detector that knows the malicious users [mal] and nothing else. *)
Definition knowing (mal : gset string) : Detector unit :=
  {| model := None; data := None; node_id := ∅; node_type := ∅;
     malicious_users := mal; malicious_days := ∅ |}.

(** The scenario of the specification: users A, B, C with A malicious. *)
Definition scenario_logon : list LogonRow :=
  [logon_row "A" "PC1" 7; logon_row "B" "PC1" 7; logon_row "Z" "PC9" 8].
Definition scenario_http : list HttpRow :=
  [http_row "A" "domain1" 7; http_row "C" "domain1" 7].
(** The detector and the graph of the scenario after [build_graph], and the
    detector after training. *)
Definition scenario_built : Detector unit :=
  (build_graph (knowing {["A"]}) scenario_logon [] scenario_http 7).2.

Definition scenario_data : Data :=
  {| data_x := [1; 2; 1; 2; 2];
     data_edge_index := [(1, 3); (2, 3); (1, 4); (0, 4)]%nat;
     data_edge_attr := [[1; 1; 0; 0; 0]; [1; 1; 0; 0; 0]; [0; 0; 0; 0; 1]; [0; 0; 0; 0; 1]];
     data_y := [0; 1; 0; 0; 0];
     data_train_mask := [true; true; true; false; false] |}.

Definition scenario_trained : Detector unit := (train_model scenario_built 25).2.

(** The same graph when nobody is known to be malicious. *)
Definition quiet_data : Data := set_y scenario_data [0; 0; 0; 0; 0].

(** A day on which the device carries the name of a known malicious user. *)
Definition device_named_malicious : option Data * Detector unit :=
  build_graph (knowing {["PC1"]}) [logon_row "A" "PC1" 7] [] [] 7.

(** A day whose only user has the empty name, which is known malicious. *)
Definition blank_user : Detector unit :=
  (build_graph (knowing {[""]}) [logon_row "" "PC1" 7] [] [] 7).2.

(** A day on which a user and a device share the name X. *)
Definition name_clash : option Data * Detector unit :=
  build_graph (knowing ∅) [logon_row "X" "X" 7] [] [] 7.

(** A day with 51 users on one device, built and trained for one epoch. *)
Definition crowd_logon : list LogonRow :=
  (λ i, logon_row (String (Ascii.ascii_of_nat (48 + i)) EmptyString) "PC1" 7)
    <$> seq 0 51.

Definition crowd : Detector unit :=
  (train_model (build_graph (knowing ∅) crowd_logon [] [] 7).2 1).2.

(** ** Auxiliary definitions of the proofs *)

(** What the three numbering loops establish: the type of every index, and
    the index of every name, a later group overriding an earlier one on a
    shared name. *)
Definition numbering (users pcs domains : gset string)
    (nid : gmap string nat) (nty : gmap nat kind) : Prop :=
  (∀ i, nty !! i
        = if bool_decide (i < size users)%nat then Some User
          else if bool_decide (i < size users + size pcs)%nat then Some PC
          else if bool_decide (i < size users + size pcs + size domains)%nat
               then Some Domain
          else None) ∧
  (∀ name i, nid !! name = Some i ↔
     (∃ p, elements domains !! p = Some name ∧ i = (size users + size pcs + p)%nat) ∨
     ((name ∉ domains) ∧
        (∃ p, elements pcs !! p = Some name ∧ i = (size users + p)%nat)) ∨
     ((name ∉ domains) ∧ (name ∉ pcs) ∧ elements users !! i = Some name)).

(** One turn of the loop of [labels_and_mask]. *)
Definition label_step (malicious : gset string) (nty : gmap nat kind)
    (acc : list Z * list bool) (item : string * nat) : list Z * list bool :=
  (if bool_decide (item.1 ∈ malicious) then <[item.2 := 1]> acc.1 else acc.1,
   if bool_decide (nty !! item.2 = Some User) then <[item.2 := true]> acc.2 else acc.2).

(** The detector after [build_graph], with its [data] field as given. *)
Definition rebuilt {GNN} (self : Detector GNN) (nid : gmap string nat)
    (nty : gmap nat kind) (d : option Data) : Detector GNN :=
  {| model := model self; data := d; node_id := nid; node_type := nty;
     malicious_users := malicious_users self; malicious_days := malicious_days self |}.

(** One turn of the scan of [endpoint_names]. *)
Definition names_step (src_idx tgt_idx : nat)
    (acc : option string * option string) (item : string * nat)
    : option string * option string :=
  if bool_decide (item.2 = src_idx) then (Some item.1, acc.2)
  else if bool_decide (item.2 = tgt_idx) then (acc.1, Some item.1)
  else acc.

(** The number of times node [i] is an end of an edge, as source or as
    target. *)
Definition endpoint_count (i : nat) (edges : list (nat * nat)) : Z :=
  Z.of_nat (length (filter (λ e, e.1 = i) edges)
            + length (filter (λ e, e.2 = i) edges)).

(** The sum of a tensor of counts. *)
Definition Zsum (l : list Z) : Z := foldr Z.add 0 l.

(** Whether the collecting loop of [get_predictions] lists node [i]. *)
Definition is_listed {GNN} (self : Detector GNN) (i : nat) : bool :=
  match node_type self !! i, name_of (node_id self) i with
  | Some User, Some user_name => Py.truthy user_name
  | _, _ => false
  end.

(** * Properties

    ** The built-ins and the day selector *)

Section PyFacts.

Lemma sorted_perm (s : gset Z) : Py.sorted s ≡ₚ elements s.
Proof. apply merge_sort_Permutation. Qed.

Lemma elem_of_sorted (s : gset Z) (d : Z) : d ∈ Py.sorted s ↔ d ∈ s.
Proof. rewrite sorted_perm. apply elem_of_elements. Qed.

Lemma sorted_strongly (s : gset Z) : StronglySorted Z.le (Py.sorted s).
Proof.
  apply StronglySorted_merge_sort.
  - intros a b c; lia.
  - intros a b; lia.
Qed.

Lemma sorted_nil (s : gset Z) : Py.sorted s = [] ↔ s = ∅.
Proof.
  split; intros E.
  - apply leibniz_equiv, elements_empty_inv.
    pose proof (sorted_perm s) as P. rewrite E in P.
    by apply Permutation_nil_l in P.
  - apply Permutation_nil_r. rewrite sorted_perm, E. by rewrite elements_empty.
Qed.

Lemma sorted_head (s : gset Z) (d : Z) (l : list Z) :
  Py.sorted s = d :: l → d ∈ s ∧ ∀ c, c ∈ s → d ≤ c.
Proof.
  intros E. split.
  - apply elem_of_sorted. rewrite E. left.
  - intros c Hc. apply elem_of_sorted in Hc.
    pose proof (sorted_strongly s) as S. rewrite E in S, Hc.
    apply StronglySorted_inv in S as [_ S].
    apply elem_of_cons in Hc as [->|Hc]; [lia|].
    by eapply Forall_forall in S.
Qed.

(** The scan of [min] with a key over an ascending list: the result has
    the least key, and among equal keys it is the smallest element. *)
Lemma min_key_scan (key : Z → Z) (l : list Z) (a : Z) :
  StronglySorted Z.le (a :: l) →
  let r := foldl (λ best c, if bool_decide (key c < key best) then c else best) a l in
  r ∈ a :: l ∧ ∀ c, c ∈ a :: l → key r ≤ key c ∧ (key c = key r → r ≤ c).
Proof.
  revert a. induction l as [|c0 l IH]; intros a S; simpl.
  - split; [left|]. intros c ->%list_elem_of_singleton. lia.
  - apply StronglySorted_inv in S as [S Ha].
    apply Forall_cons in Ha as [Hac0 Hal].
    case_bool_decide as Hlt.
    + destruct (IH c0 S) as [Hin Hmin]. split; [by right|].
      intros c [->|Hc]%elem_of_cons.
      * specialize (Hmin c0 ltac:(left)). lia.
      * by apply Hmin.
    + assert (StronglySorted Z.le (a :: l)) as S'.
      { constructor; [|done]. by apply StronglySorted_inv in S as [? _]. }
      destruct (IH a S') as [Hin Hmin]. split.
      * apply elem_of_cons in Hin as [->|Hin]; [left|right; by right].
      * intros c [->|[->|Hc]%elem_of_cons]%elem_of_cons.
        -- apply Hmin. left.
        -- specialize (Hmin a ltac:(left)). lia.
        -- apply Hmin. by right.
Qed.

Lemma max_scan (l : list Z) (a : Z) :
  let r := foldl (λ best c, if bool_decide (best < c) then c else best) a l in
  r ∈ a :: l ∧ ∀ c, c ∈ a :: l → c ≤ r.
Proof.
  revert a. induction l as [|c0 l IH]; intros a; simpl.
  - split; [left|]. intros c ->%list_elem_of_singleton. lia.
  - case_bool_decide as Hlt.
    + destruct (IH c0) as [Hin Hmax]. split; [by right|].
      intros c [->|Hc]%elem_of_cons; [|by apply Hmax].
      specialize (Hmax c0 ltac:(left)). lia.
    + destruct (IH a) as [Hin Hmax]. split.
      * apply elem_of_cons in Hin as [->|Hin]; [left|right; by right].
      * intros c [->|[->|Hc]%elem_of_cons]%elem_of_cons.
        -- apply Hmax. left.
        -- specialize (Hmax a ltac:(left)). lia.
        -- apply Hmax. by right.
Qed.

Lemma max_elements (s : gset Z) :
  s ≠ ∅ → ∃ d, Py.max (elements s) = Some d ∧ d ∈ s ∧ ∀ c, c ∈ s → c ≤ d.
Proof.
  intros Hne. destruct (elements s) as [|a l] eqn:E.
  - apply elements_empty_inv, leibniz_equiv in E. done.
  - eexists; split; [done|]. destruct (max_scan l a) as [Hin Hmax].
    rewrite <- E in Hin, Hmax. setoid_rewrite elem_of_elements in Hmax.
    apply elem_of_elements in Hin. done.
Qed.

End PyFacts.

(** C1. For a non-empty set of available days the day selector returns a
    member of the available days: the earliest day that is both available
    and malicious when there is one; otherwise, when malicious days exist,
    the available day nearest to the earliest malicious day, the earlier day
    winning a tie; otherwise the latest available day. *)
Theorem select_day_spec (all_days malicious_days : gset Z) :
  all_days ≠ ∅ →
  ∃ d, select_day all_days malicious_days = Some d ∧ d ∈ all_days ∧
    (all_days ∩ malicious_days ≠ ∅ →
       d ∈ all_days ∩ malicious_days ∧ ∀ c, c ∈ all_days ∩ malicious_days → d ≤ c) ∧
    (all_days ∩ malicious_days = ∅ → malicious_days ≠ ∅ →
       ∃ t, t ∈ malicious_days ∧ (∀ m, m ∈ malicious_days → t ≤ m) ∧
         ∀ c, c ∈ all_days →
           Z.abs (d - t) ≤ Z.abs (c - t) ∧ (Z.abs (c - t) = Z.abs (d - t) → d ≤ c)) ∧
    (malicious_days = ∅ → ∀ c, c ∈ all_days → c ≤ d).
Proof.
  intros Hall. unfold select_day.
  rewrite (bool_decide_eq_true_2 (all_days ≠ ∅)) by done.
  case_bool_decide as Hmal.
  - destruct (Py.sorted (all_days ∩ malicious_days)) as [|d cand] eqn:Ecand.
    + apply sorted_nil in Ecand. simpl.
      destruct (Py.sorted malicious_days) as [|t ml] eqn:Eml.
      { by apply sorted_nil in Eml. }
      destruct (Py.sorted all_days) as [|a al] eqn:Eal.
      { by apply sorted_nil in Eal. }
      pose proof (sorted_strongly all_days) as S. rewrite Eal in S.
      destruct (min_key_scan (λ x, Z.abs (x - t)) al a S) as [Hin Hmin].
      simpl. eexists; split; [done|].
      setoid_rewrite <- Eal in Hmin. rewrite <- Eal in Hin.
      setoid_rewrite elem_of_sorted in Hmin. apply elem_of_sorted in Hin.
      split; [done|]. split; [done|]. split; [|done].
      intros _ _. exists t. apply sorted_head in Eml as [Ht Hle]. done.
    + apply sorted_head in Ecand as [Hd Hle].
      exists d. split; [done|]. split; [set_solver|].
      split; [done|]. split; [|done]. intros E. set_solver.
  - destruct (max_elements all_days Hall) as (d & -> & Hd & Hmax).
    exists d. split; [done|]. split; [done|].
    split; [set_solver|]. split; [done|]. done.
Qed.

Lemma select_day_spec_witness :
  ∃ d, select_day {[ 10; 14; 21 ]} {[ 17; 30 ]} = Some d ∧ d ∈ ({[ 10; 14; 21 ]} : gset Z).
Proof.
  destruct (select_day_spec {[ 10; 14; 21 ]} {[ 17; 30 ]}) as (d & E & Hd & _).
  - apply (bool_decide_unpack _). vm_compute. exact I.
  - exists d. split; assumption.
Defined.

(** ** Node numbering *)

Section Numbering.

Implicit Types (nid : gmap string nat) (nty : gmap nat kind) (idx : nat).

Lemma add_nodes_cons ty name names nid nty idx :
  add_nodes ty (name :: names) (nid, nty, idx)
  = add_nodes ty names (<[name := idx]> nid, <[idx := ty]> nty, S idx).
Proof. reflexivity. Qed.

(** Numbering a duplicate-free list of names from [idx] on. *)
Lemma add_nodes_spec ty names nid nty idx :
  NoDup names →
  ∃ nid' nty',
    add_nodes ty names (nid, nty, idx) = (nid', nty', (idx + length names)%nat) ∧
    (∀ i, nty' !! i
          = if bool_decide (idx ≤ i < idx + length names)%nat then Some ty else nty !! i) ∧
    (∀ name, name ∉ names → nid' !! name = nid !! name) ∧
    (∀ p name, names !! p = Some name → nid' !! name = Some (idx + p)%nat).
Proof.
  intros ND. revert nid nty idx.
  induction ND as [|a l Ha ND IH]; intros nid nty idx.
  - exists nid, nty. simpl. rewrite Nat.add_0_r. split; [done|].
    split; [|done]. intros i. case_bool_decide; [lia|done].
  - rewrite add_nodes_cons.
    destruct (IH (<[a := idx]> nid) (<[idx := ty]> nty) (S idx))
      as (nid' & nty' & E & Hty & Hout & Hin).
    exists nid', nty'. simpl length.
    replace (idx + S (length l))%nat with (S idx + length l)%nat by lia.
    split; [done|]. split; [|split].
    + intros i. rewrite Hty.
      destruct (decide (i = idx)) as [->|Hne].
      * rewrite lookup_insert_eq. repeat case_bool_decide; (done || lia).
      * rewrite lookup_insert_ne by done. repeat case_bool_decide; (done || lia).
    + intros name [Hne Hl]%not_elem_of_cons.
      rewrite Hout by done. by rewrite lookup_insert_ne.
    + intros [|p] name Hp; simpl in Hp.
      * injection Hp as ->. rewrite Hout by done.
        rewrite lookup_insert_eq. f_equal. lia.
      * rewrite (Hin p name Hp). f_equal. lia.
Qed.

Lemma number_nodes_spec (users pcs domains : gset string) :
  ∃ nid nty,
    number_nodes users pcs domains
    = (nid, nty, (size users + size pcs + size domains)%nat) ∧
    numbering users pcs domains nid nty.
Proof.
  unfold number_nodes.
  destruct (add_nodes_spec User (elements users) ∅ ∅ 0 (NoDup_elements users))
    as (nid1 & nty1 & -> & Hty1 & Hout1 & Hin1).
  destruct (add_nodes_spec PC (elements pcs) nid1 nty1
              (0 + length (elements users)) (NoDup_elements pcs))
    as (nid2 & nty2 & -> & Hty2 & Hout2 & Hin2).
  destruct (add_nodes_spec Domain (elements domains) nid2 nty2
              (0 + length (elements users) + length (elements pcs))
              (NoDup_elements domains))
    as (nid3 & nty3 & -> & Hty3 & Hout3 & Hin3).
  change (length (elements users)) with (size users) in *.
  change (length (elements pcs)) with (size pcs) in *.
  change (length (elements domains)) with (size domains) in *.
  simpl in *.
  exists nid3, nty3. split; [done|]. split.
  - intros i. rewrite Hty3, Hty2, Hty1, lookup_empty.
    repeat case_bool_decide; (done || lia).
  - intros name i.
    destruct (decide (name ∈ domains)) as [HD|HD].
    { pose proof HD as HD'. apply elem_of_elements, list_elem_of_lookup in HD' as [p Hp].
      rewrite (Hin3 p name Hp). split.
      - intros [= <-]. left. by exists p.
      - intros [(q & Hq & ->)|[[? _]|[? _]]]; [|done..].
        by rewrite (NoDup_lookup _ _ _ _ (NoDup_elements domains) Hp Hq). }
    rewrite Hout3 by by rewrite elem_of_elements.
    destruct (decide (name ∈ pcs)) as [HP|HP].
    { pose proof HP as HP'. apply elem_of_elements, list_elem_of_lookup in HP' as [p Hp].
      rewrite (Hin2 p name Hp). split.
      - intros [= <-]. right; left. split; [done|]. by exists p.
      - intros [(q & Hq & _)|[(_ & q & Hq & ->)|(_ & ? & _)]]; [|..|done].
        + apply list_elem_of_lookup_2, elem_of_elements in Hq. done.
        + by rewrite (NoDup_lookup _ _ _ _ (NoDup_elements pcs) Hp Hq). }
    rewrite Hout2 by by rewrite elem_of_elements.
    destruct (decide (name ∈ users)) as [HU|HU].
    { pose proof HU as HU'. apply elem_of_elements, list_elem_of_lookup in HU' as [p Hp].
      rewrite (Hin1 p name Hp). simpl. split.
      - intros [= <-]. right; right. done.
      - intros [(q & Hq & _)|[(_ & q & Hq & _)|(_ & _ & Hq)]].
        + apply list_elem_of_lookup_2, elem_of_elements in Hq. done.
        + apply list_elem_of_lookup_2, elem_of_elements in Hq. done.
        + by rewrite (NoDup_lookup _ _ _ _ (NoDup_elements users) Hp Hq). }
    rewrite Hout1 by by rewrite elem_of_elements.
    rewrite lookup_empty. split; [done|].
    intros [(q & Hq & _)|[(_ & q & Hq & _)|(_ & _ & Hq)]];
      apply list_elem_of_lookup_2, elem_of_elements in Hq; done.
Qed.

Context (users pcs domains : gset string) nid nty
        (Hnum : numbering users pcs domains nid nty).

Lemma numbering_bound name i :
  nid !! name = Some i → (i < size users + size pcs + size domains)%nat.
Proof.
  intros [(p & Hp & ->)|[(_ & p & Hp & ->)|(_ & _ & Hp)]]%(proj2 Hnum);
    apply lookup_lt_Some in Hp; unfold size, set_size in *; simpl in *; lia.
Qed.

Lemma numbering_dom name :
  is_Some (nid !! name) ↔ name ∈ users ∪ pcs ∪ domains.
Proof.
  split.
  - intros [i [(p & Hp & _)|[(_ & p & Hp & _)|(_ & _ & Hp)]]%(proj2 Hnum)];
      apply list_elem_of_lookup_2, elem_of_elements in Hp; set_solver.
  - intros Hin.
    destruct (decide (name ∈ domains)) as [HD|HD].
    { apply elem_of_elements, list_elem_of_lookup in HD as [p Hp].
      eexists. apply (proj2 Hnum). left. by exists p. }
    destruct (decide (name ∈ pcs)) as [HP|HP].
    { apply elem_of_elements, list_elem_of_lookup in HP as [p Hp].
      eexists. apply (proj2 Hnum). right; left. split; [done|]. by exists p. }
    assert (name ∈ users) as HU by set_solver.
    apply elem_of_elements, list_elem_of_lookup in HU as [p Hp].
    exists p. apply (proj2 Hnum). right; right. done.
Qed.

(** Distinct names never share an index. *)
Lemma numbering_inj a b i : nid !! a = Some i → nid !! b = Some i → a = b.
Proof.
  intros Ha Hb. apply (proj2 Hnum) in Ha, Hb.
  assert (∀ (X : gset string) p, is_Some (elements X !! p) → (p < size X)%nat) as Hlt.
  { intros X p [? Hp]. by apply lookup_lt_Some in Hp. }
  destruct Ha as [(p & Hp & ->)|[(_ & p & Hp & ->)|(_ & _ & Hp)]];
    destruct Hb as [(q & Hq & E)|[(_ & q & Hq & E)|(_ & _ & Hq)]];
    try (pose proof (Hlt _ _ (mk_is_Some _ _ Hp));
         pose proof (Hlt _ _ (mk_is_Some _ _ Hq)); lia).
  - assert (p = q) as -> by lia. congruence.
  - assert (p = q) as -> by lia. congruence.
  - congruence.
Qed.

Lemma numbering_consistent name i : nid !! name = Some i → is_Some (nty !! i).
Proof.
  intros Hi%numbering_bound. rewrite (proj1 Hnum).
  repeat case_bool_decide; first [lia | done].
Qed.

Lemma numbering_type_total i :
  is_Some (nty !! i) ↔ (i < size users + size pcs + size domains)%nat.
Proof.
  rewrite (proj1 Hnum). split.
  - repeat case_bool_decide; try lia. by intros [? ?].
  - intros. repeat case_bool_decide; first [lia | done].
Qed.

(** When no name is shared between two groups, the map has one key per
    index, and a name's index lies in the range of its own group. *)
Lemma numbering_size :
  users ## pcs → users ## domains → pcs ## domains →
  size nid = (size users + size pcs + size domains)%nat.
Proof.
  intros H1 H2 H3.
  rewrite <- size_dom.
  assert (dom nid = users ∪ pcs ∪ domains) as ->.
  { apply set_eq. intros name. rewrite elem_of_dom. apply numbering_dom. }
  rewrite !size_union by set_solver. done.
Qed.

End Numbering.

(** ** Edges, degrees, labels *)

Section Tensors.

Implicit Types (nid : gmap string nat) (nty : gmap nat kind).

Lemma edge_of_resolved nid src tgt feat s t :
  nid !! src = Some s → nid !! tgt = Some t →
  edge_of nid src tgt feat = [((s, t), feat)].
Proof. intros Hs Ht. unfold edge_of. by rewrite Hs, Ht. Qed.

Lemma edge_of_length nid src tgt feat :
  length (edge_of nid src tgt feat)
  = if bool_decide (resolved nid src tgt) then 1%nat else 0%nat.
Proof.
  unfold edge_of, resolved. case_bool_decide as H.
  - destruct H as [[s ->] [t ->]]. done.
  - destruct (nid !! src) as [s|] eqn:Es; [|done].
    destruct (nid !! tgt) as [t|] eqn:Et; [|done].
    destruct H. split; by eexists.
Qed.

(** One edge per row whose two names are keys of [node_id]. *)
Lemma bind_edges_length {R} nid (src tgt : R → string) (feat : R → list Z)
    (rows : list R) :
  length (rows ≫= (λ r, edge_of nid (src r) (tgt r) (feat r)))
  = length (filter (λ r, resolved nid (src r) (tgt r)) rows).
Proof.
  induction rows as [|r rows IH]; [done|].
  rewrite bind_cons, length_app, edge_of_length, IH.
  rewrite filter_cons. case_decide; case_bool_decide; done.
Qed.

Lemma filter_all {A} (P : A → Prop) `{∀ a, Decision (P a)} (l : list A) :
  (∀ a, a ∈ l → P a) → filter P l = l.
Proof.
  induction l as [|a l IH]; intros Hall; [done|].
  rewrite filter_cons_True by (apply Hall; left).
  f_equal. apply IH. intros b Hb. apply Hall. by right.
Qed.

(** Every endpoint stored in an edge is the index of its name. *)
Lemma elem_of_bind_edges {R} nid (src tgt : R → string) (feat : R → list Z)
    (rows : list R) (e : (nat * nat) * list Z) :
  e ∈ rows ≫= (λ r, edge_of nid (src r) (tgt r) (feat r)) →
  ∃ r, r ∈ rows ∧ nid !! src r = Some e.1.1 ∧ nid !! tgt r = Some e.1.2.
Proof.
  intros (r & He & Hr)%list_elem_of_bind. exists r. split; [done|].
  unfold edge_of in He.
  destruct (nid !! src r) as [s|]; [|by apply elem_of_nil in He].
  destruct (nid !! tgt r) as [t|]; [|by apply elem_of_nil in He].
  apply list_elem_of_singleton in He as ->. done.
Qed.

Lemma degree_features_length n edges : length (degree_features n edges) = n.
Proof.
  unfold degree_features.
  assert (∀ x0 : list Z,
    length (foldl (λ x '(s, t), alter Z.succ t (alter Z.succ s x)) x0 edges)
    = length x0) as H.
  { induction edges as [|[s t] edges IH]; intros x0; [done|].
    simpl. rewrite IH. by rewrite !length_alter. }
  rewrite H. apply length_replicate.
Qed.

Lemma labels_and_mask_fold n nid nty malicious :
  labels_and_mask n nid nty malicious
  = foldl (label_step malicious nty) (replicate n 0, replicate n false)
          (map_to_list nid).
Proof.
  unfold labels_and_mask. generalize (replicate n 0, replicate n false).
  induction (map_to_list nid) as [|[name idx] items IH]; intros [y tm]; [done|].
  simpl. rewrite <- IH. done.
Qed.

Lemma named_malicious_dec (malicious : gset string) (items : list (string * nat)) i :
  Decision (∃ name, (name, i) ∈ items ∧ name ∈ malicious).
Proof.
  refine (cast_if (decide (Exists (λ p, p.2 = i ∧ p.1 ∈ malicious) items)));
    rewrite Exists_exists in *.
  - destruct e as ([nm j] & Hin & <- & Hm). eauto.
  - intros (nm & Hin & Hm). apply n. exists (nm, i). done.
Qed.

Lemma named_dec (items : list (string * nat)) i :
  Decision (∃ name : string, (name, i) ∈ items).
Proof.
  refine (cast_if (decide (Exists (λ p : string * nat, p.2 = i) items)));
    rewrite Exists_exists in *.
  - destruct e as ([nm j] & Hin & <-). eauto.
  - intros (nm & Hin). apply n. exists (nm, i). done.
Qed.

Lemma label_fold_spec malicious nty (items : list (string * nat)) y0 tm0 :
  ∃ y tm, foldl (label_step malicious nty) (y0, tm0) items = (y, tm) ∧
    length y = length y0 ∧ length tm = length tm0 ∧
    (∀ i, (i < length y0)%nat →
          (∃ name, (name, i) ∈ items ∧ name ∈ malicious) → y !! i = Some 1) ∧
    (∀ i, ¬ (∃ name, (name, i) ∈ items ∧ name ∈ malicious) → y !! i = y0 !! i) ∧
    (∀ i, (i < length tm0)%nat → nty !! i = Some User →
          (∃ name, (name, i) ∈ items) → tm !! i = Some true) ∧
    (∀ i, ¬ (nty !! i = Some User ∧ ∃ name, (name, i) ∈ items) → tm !! i = tm0 !! i).
Proof.
  revert y0 tm0. induction items as [|[name idx] items IH]; intros y0 tm0.
  - exists y0, tm0. repeat split; try done.
    + intros i _ (? & []%elem_of_nil & _).
    + intros i _ _ (? & []%elem_of_nil).
  - simpl foldl.
    set (y1 := if bool_decide (name ∈ malicious) then <[idx:=1]> y0 else y0).
    set (tm1 := if bool_decide (nty !! idx = Some User) then <[idx:=true]> tm0 else tm0).
    change (label_step malicious nty (y0, tm0) (name, idx)) with (y1, tm1).
    assert (length y1 = length y0) as Ely.
    { subst y1. case_bool_decide; [apply length_insert|done]. }
    assert (length tm1 = length tm0) as Eltm.
    { subst tm1. case_bool_decide; [apply length_insert|done]. }
    assert (name ∈ malicious → (idx < length y0)%nat → y1 !! idx = Some 1) as Hy1a.
    { intros Hm Hi. subst y1. rewrite bool_decide_eq_true_2 by done.
      by apply list_lookup_insert_eq. }
    assert (∀ i, i ≠ idx ∨ name ∉ malicious → y1 !! i = y0 !! i) as Hy1b.
    { intros i Hi. subst y1. case_bool_decide as Hm; [|done].
      destruct Hi as [Hi|Hi]; [|done]. by apply list_lookup_insert_ne. }
    assert (nty !! idx = Some User → (idx < length tm0)%nat → tm1 !! idx = Some true)
      as Ht1a.
    { intros Hm Hi. subst tm1. rewrite bool_decide_eq_true_2 by done.
      by apply list_lookup_insert_eq. }
    assert (∀ i, i ≠ idx ∨ nty !! idx ≠ Some User → tm1 !! i = tm0 !! i) as Ht1b.
    { intros i Hi. subst tm1. case_bool_decide as Hm; [|done].
      destruct Hi as [Hi|Hi]; [|done]. by apply list_lookup_insert_ne. }
    clearbody y1 tm1.
    destruct (IH y1 tm1) as (y & tm & E & Hly & Hltm & Hy1 & Hy0 & Ht1 & Ht0).
    exists y, tm. split; [done|].
    rewrite Ely in *. rewrite Eltm in *.
    split; [done|]. split; [done|]. split; [|split; [|split]].
    + intros i Hi (nm & Hin & Hmal).
      destruct (named_malicious_dec malicious items i) as [Hex|Hnex];
        [by apply Hy1|].
      rewrite Hy0 by done.
      apply elem_of_cons in Hin as [[= -> ->]|Hin]; [|destruct Hnex; eauto].
      by apply Hy1a.
    + intros i Hnex. rewrite Hy0.
      * apply Hy1b. destruct (decide (i = idx)) as [->|]; [|by left].
        right. intros Hm. apply Hnex. exists name. split; [left|done].
      * intros (nm & Hin & Hmal). apply Hnex. exists nm. split; [by right|done].
    + intros i Hi Hty (nm & Hin).
      destruct (named_dec items i) as [Hex|Hnex];
        [by apply Ht1|].
      rewrite Ht0 by (intros [_ ?]; done).
      apply elem_of_cons in Hin as [[= -> ->]|Hin]; [|destruct Hnex; eauto].
      by apply Ht1a.
    + intros i Hnex. rewrite Ht0.
      * apply Ht1b. destruct (decide (i = idx)) as [->|]; [|by left].
        right. intros Hm. apply Hnex. split; [done|]. exists name. left.
      * intros (Hty & nm & Hin). apply Hnex. split; [done|]. exists nm. by right.
Qed.

End Tensors.

(** ** The graph builder *)

Section Builder.

Context {GNN : Type}.
Implicit Types (self : Detector GNN) (nid : gmap string nat) (nty : gmap nat kind).

Lemma labels_and_mask_spec n nid nty (malicious : gset string) :
  ∃ y tm, labels_and_mask n nid nty malicious = (y, tm) ∧
    length y = n ∧ length tm = n ∧
    (∀ i, (i < n)%nat →
       (∃ name, nid !! name = Some i ∧ name ∈ malicious) → y !! i = Some 1) ∧
    (∀ i, (i < n)%nat →
       ¬ (∃ name, nid !! name = Some i ∧ name ∈ malicious) → y !! i = Some 0) ∧
    (∀ i, (i < n)%nat → nty !! i = Some User →
       (∃ name, nid !! name = Some i) → tm !! i = Some true) ∧
    (∀ i, (i < n)%nat →
       ¬ (nty !! i = Some User ∧ ∃ name, nid !! name = Some i) → tm !! i = Some false).
Proof.
  rewrite labels_and_mask_fold.
  destruct (label_fold_spec malicious nty (map_to_list nid)
              (replicate n 0) (replicate n false))
    as (y & tm & E & Hly & Hltm & Hy1 & Hy0 & Ht1 & Ht0).
  rewrite length_replicate in Hly. rewrite length_replicate in Hltm.
  setoid_rewrite length_replicate in Hy1. setoid_rewrite length_replicate in Ht1.
  exists y, tm. split; [done|]. split; [done|]. split; [done|].
  split; [|split; [|split]].
  - intros i Hi (name & Hn & Hm). apply Hy1; [done|].
    exists name. by rewrite elem_of_map_to_list.
  - intros i Hi Hno. rewrite Hy0.
    + by apply lookup_replicate_2.
    + intros (name & Hn & Hm). apply Hno. exists name.
      by rewrite <- elem_of_map_to_list.
  - intros i Hi Hty (name & Hn). apply Ht1; [done..|].
    exists name. by rewrite elem_of_map_to_list.
  - intros i Hi Hno. rewrite Ht0.
    + by apply lookup_replicate_2.
    + intros (Hty & name & Hn). apply Hno. split; [done|]. exists name.
      by rewrite <- elem_of_map_to_list.
Qed.

(** [build_graph] unfolded once and for all. *)
Lemma build_graph_inv self logon device http day :
  let logon_day := on_day l_day day logon in
  let device_day := on_day d_day day device in
  let http_day := on_day h_day day http in
  let users := users_of logon_day device_day http_day in
  let pcs := pcs_of logon_day device_day in
  let domains := domains_of http_day in
  let n := (size users + size pcs + size domains)%nat in
  ∃ nid nty y tm,
    numbering users pcs domains nid nty ∧
    labels_and_mask n nid nty (malicious_users self) = (y, tm) ∧
    let rows := edge_rows nid logon_day device_day http_day in
    build_graph self logon device http day =
      match rows with
      | [] => (None, rebuilt self nid nty (data self))
      | _ :: _ =>
          let d := {| data_x := degree_features n rows.*1; data_edge_index := rows.*1;
                      data_edge_attr := rows.*2; data_y := y; data_train_mask := tm |} in
          (Some d, rebuilt self nid nty (Some d))
      end.
Proof.
  intros. unfold build_graph.
  fold logon_day device_day http_day. fold users pcs domains.
  destruct (number_nodes_spec users pcs domains) as (nid & nty & -> & Hnum).
  fold n.
  destruct (labels_and_mask_spec n nid nty (malicious_users self))
    as (y & tm & E & _).
  exists nid, nty, y, tm. split; [done|]. split; [done|].
  rewrite E. simpl.
  destruct (edge_rows nid logon_day device_day http_day) as [|e rows]; done.
Qed.

(** Every row of the day contributes its edge: its names were numbered. *)
Lemma edge_rows_all (logon_day : list LogonRow) (device_day : list DeviceRow)
    (http_day : list HttpRow) nid nty :
  numbering (users_of logon_day device_day http_day) (pcs_of logon_day device_day)
            (domains_of http_day) nid nty →
  (∀ r, r ∈ logon_day → resolved nid (l_user r) (l_pc r)) ∧
  (∀ r, r ∈ device_day → resolved nid (d_user r) (d_pc r)) ∧
  (∀ r, r ∈ http_day → resolved nid (h_user r) (h_domain r)).
Proof.
  intros Hnum. unfold resolved.
  repeat split; intros; eapply numbering_dom; try done;
    unfold users_of, pcs_of, domains_of;
    rewrite !elem_of_union, !elem_of_list_to_set, !list_elem_of_fmap; eauto 8.
Qed.

Lemma edge_rows_length nid (logon_day : list LogonRow) (device_day : list DeviceRow)
    (http_day : list HttpRow) :
  length (edge_rows nid logon_day device_day http_day)
  = (length (filter (λ r, resolved nid (l_user r) (l_pc r)) logon_day)
     + length (filter (λ r, resolved nid (d_user r) (d_pc r)) device_day)
     + length (filter (λ r, resolved nid (h_user r) (h_domain r)) http_day))%nat.
Proof.
  unfold edge_rows, logon_edges, device_edges, http_edges.
  rewrite !length_app, !bind_edges_length. lia.
Qed.

End Builder.

Section BuilderClaims.

Context {GNN : Type}.
Implicit Types (self : Detector GNN) (nid : gmap string nat) (nty : gmap nat kind).

Lemma bind_edges_map {R} nid (src tgt : R → string) (feat : R → list Z)
    (rows : list R) :
  (∀ r, r ∈ rows → resolved nid (src r) (tgt r)) →
  (rows ≫= (λ r, edge_of nid (src r) (tgt r) (feat r))).*1
  = (λ r, (nid !!! src r, nid !!! tgt r)) <$> rows.
Proof.
  induction rows as [|r rows IH]; intros Hall; [done|].
  rewrite bind_cons, fmap_app, IH by (intros; apply Hall; by right).
  destruct (Hall r ltac:(left)) as [[s Hs] [t Ht]].
  rewrite (edge_of_resolved _ _ _ _ _ _ Hs Ht). simpl.
  by rewrite (lookup_total_correct _ _ _ Hs), (lookup_total_correct _ _ _ Ht).
Qed.

Lemma build_graph_some_inv self logon device http day d self' :
  build_graph self logon device http day = (Some d, self') →
  let logon_day := on_day l_day day logon in
  let device_day := on_day d_day day device in
  let http_day := on_day h_day day http in
  let users := users_of logon_day device_day http_day in
  let pcs := pcs_of logon_day device_day in
  let domains := domains_of http_day in
  let n := (size users + size pcs + size domains)%nat in
  ∃ nid nty,
    numbering users pcs domains nid nty ∧
    self' = rebuilt self nid nty (Some d) ∧
    data_x d = degree_features n (data_edge_index d) ∧
    data_edge_index d = (edge_rows nid logon_day device_day http_day).*1 ∧
    labels_and_mask n nid nty (malicious_users self) = (data_y d, data_train_mask d).
Proof.
  intros E. intros.
  destruct (build_graph_inv self logon device http day)
    as (nid & nty & y & tm & Hnum & Hlab & Hb).
  rewrite E in Hb. exists nid, nty. split; [done|].
  fold logon_day device_day http_day in Hb, Hlab.
  fold users pcs domains in Hlab, Hb. fold n in Hb, Hlab.
  destruct (edge_rows nid logon_day device_day http_day) as [|e rows]; [done|].
  simpl in Hb. injection Hb as -> ->. done.
Qed.

(** The edges of one loop are those of its rows whose two names are keys
    of [node_id], in row order. *)
Lemma bind_edges_filter {R} nid (src tgt : R → string) (feat : R → list Z)
    (rows : list R) :
  (rows ≫= (λ r, edge_of nid (src r) (tgt r) (feat r))).*1
  = (λ r, (nid !!! src r, nid !!! tgt r))
      <$> filter (λ r, resolved nid (src r) (tgt r)) rows.
Proof.
  induction rows as [|r rows IH]; [done|].
  rewrite bind_cons, fmap_app, IH, filter_cons.
  case_decide as Hr.
  - destruct Hr as [[s Hs] [t Ht]].
    rewrite (edge_of_resolved _ _ _ _ _ _ Hs Ht). simpl.
    by rewrite (lookup_total_correct _ _ _ Hs), (lookup_total_correct _ _ _ Ht).
  - assert (edge_of nid (src r) (tgt r) (feat r) = []) as ->; [|done].
    apply length_zero_iff_nil. rewrite edge_of_length.
    by rewrite bool_decide_eq_false_2.
Qed.

(** C6. The built graph has one node per distinct user, device and domain
    of the day, numbered 0..N-1 group after group: the users fill the
    first block of indices, the devices the next and the domains the last,
    each group in the order in which its set is iterated, and a name keeps
    the index of the last group that holds it.  Distinct names never share
    an index, the type stored for the index of a name is a group of that
    name, and when no name belongs to two groups every index below N is the
    index of a name.  The graph has one edge per row of the day whose two
    names are keys of [node_id], in row order and without merging. *)
Theorem build_graph_counts self logon device http day d self' :
  build_graph self logon device http day = (Some d, self') →
  let logon_day := on_day l_day day logon in
  let device_day := on_day d_day day device in
  let http_day := on_day h_day day http in
  let users := users_of logon_day device_day http_day in
  let pcs := pcs_of logon_day device_day in
  let domains := domains_of http_day in
  let nid := node_id self' in
  num_nodes d = (size users + size pcs + size domains)%nat ∧
  (∀ i, node_type self' !! i
        = if bool_decide (i < size users)%nat then Some User
          else if bool_decide (i < size users + size pcs)%nat then Some PC
          else if bool_decide (i < num_nodes d)%nat then Some Domain
          else None) ∧
  (∀ name i, nid !! name = Some i ↔
     (∃ p, elements domains !! p = Some name ∧ i = (size users + size pcs + p)%nat) ∨
     ((name ∉ domains) ∧
        (∃ p, elements pcs !! p = Some name ∧ i = (size users + p)%nat)) ∨
     ((name ∉ domains) ∧ (name ∉ pcs) ∧ elements users !! i = Some name)) ∧
  (∀ name, name ∈ users ∪ pcs ∪ domains ↔ ∃ i, nid !! name = Some i) ∧
  (∀ name i, nid !! name = Some i → (i < num_nodes d)%nat) ∧
  (∀ a b i, nid !! a = Some i → nid !! b = Some i → a = b) ∧
  (∀ name i, nid !! name = Some i →
     match node_type self' !! i with
     | Some User => name ∈ users
     | Some PC => name ∈ pcs
     | Some Domain => name ∈ domains
     | None => False
     end) ∧
  (users ## pcs → users ## domains → pcs ## domains →
     ∀ i, (i < num_nodes d)%nat → ∃ name, nid !! name = Some i) ∧
  num_edges d
  = (length (filter (λ r, resolved nid (l_user r) (l_pc r)) logon_day)
     + length (filter (λ r, resolved nid (d_user r) (d_pc r)) device_day)
     + length (filter (λ r, resolved nid (h_user r) (h_domain r)) http_day))%nat ∧
  data_edge_index d
  = ((λ r, (nid !!! l_user r, nid !!! l_pc r))
       <$> filter (λ r, resolved nid (l_user r) (l_pc r)) logon_day)
      ++ ((λ r, (nid !!! d_user r, nid !!! d_pc r))
            <$> filter (λ r, resolved nid (d_user r) (d_pc r)) device_day)
      ++ ((λ r, (nid !!! h_user r, nid !!! h_domain r))
            <$> filter (λ r, resolved nid (h_user r) (h_domain r)) http_day).
Proof.
  intros E. intros.
  destruct (build_graph_some_inv _ _ _ _ _ _ _ E)
    as (nid' & nty & Hnum & -> & Hx & He & Hlab).
  simpl in nid. subst nid. simpl node_type.
  fold logon_day device_day http_day in Hnum, Hx, He, Hlab.
  fold users pcs domains in Hnum, Hx, Hlab.
  assert (num_nodes d = (size users + size pcs + size domains)%nat) as Hn.
  { unfold num_nodes. rewrite Hx. apply degree_features_length. }
  assert (∀ (X : gset string) p name,
            elements X !! p = Some name → name ∈ X ∧ (p < size X)%nat) as Hel.
  { intros X p name Hp. split.
    - apply elem_of_elements. by eapply list_elem_of_lookup_2.
    - by apply lookup_lt_Some in Hp. }
  split; [done|]. repeat apply conj.
  - intros i. rewrite Hn. apply Hnum.
  - apply Hnum.
  - intros name. rewrite <- (numbering_dom _ _ _ _ _ Hnum). done.
  - intros name i Hi. rewrite Hn. by eapply numbering_bound.
  - intros a b i. by apply (numbering_inj _ _ _ _ _ Hnum).
  - intros name i Hi. rewrite (proj1 Hnum).
    apply (proj2 Hnum) in Hi.
    destruct Hi as [(p & Hp & ->)|[(_ & p & Hp & ->)|(_ & _ & Hp)]];
      destruct (Hel _ _ _ Hp) as [Hin Hlt];
      repeat case_bool_decide; first [done | lia].
  - intros H1 H2 H3 i Hi. rewrite Hn in Hi.
    assert (∀ (X Y : gset string) name, X ## Y → name ∈ X → name ∉ Y) as Hdis.
    { intros X Y name HXY HX HY. exact (proj1 (elem_of_disjoint X Y) HXY name HX HY). }
    destruct (decide (i < size users)%nat) as [Hu|Hu].
    { destruct (lookup_lt_is_Some_2 (elements users) i Hu) as [name Hp].
      destruct (Hel _ _ _ Hp) as [Hin _].
      exists name. apply (proj2 Hnum). right; right.
      split; [exact (Hdis _ _ _ H2 Hin)|]. split; [exact (Hdis _ _ _ H1 Hin)|done]. }
    destruct (decide (i < size users + size pcs)%nat) as [Hp|Hp].
    { destruct (lookup_lt_is_Some_2 (elements pcs) (i - size users)) as [name Hq].
      { change (length (elements pcs)) with (size pcs). lia. }
      destruct (Hel _ _ _ Hq) as [Hin _].
      exists name. apply (proj2 Hnum). right; left.
      split; [exact (Hdis _ _ _ H3 Hin)|].
      exists (i - size users)%nat. split; [done|lia]. }
    destruct (lookup_lt_is_Some_2 (elements domains) (i - size users - size pcs))
      as [name Hq].
    { change (length (elements domains)) with (size domains). lia. }
    exists name. apply (proj2 Hnum). left.
    exists (i - size users - size pcs)%nat. split; [done|lia].
  - unfold num_edges. rewrite He, length_fmap. apply edge_rows_length.
  - rewrite He. unfold edge_rows, logon_edges, device_edges, http_edges.
    rewrite !fmap_app. by rewrite !bind_edges_filter.
Qed.

(** C2, as the code has it.  In a built graph every label is 0 or 1, and the
    label of index [i] is 1 exactly when the name that [node_id] maps to [i]
    is a known malicious user, whatever the type of the node. *)
Theorem build_graph_labels self logon device http day d self' :
  build_graph self logon device http day = (Some d, self') →
  ∀ i, (i < num_nodes d)%nat →
    ∃ l, data_y d !! i = Some l ∧ (l = 0 ∨ l = 1) ∧
      (l = 1 ↔ ∃ name, node_id self' !! name = Some i ∧ name ∈ malicious_users self).
Proof.
  intros E i Hi.
  destruct (build_graph_some_inv _ _ _ _ _ _ _ E)
    as (nid & nty & Hnum & -> & Hx & He & Hlab).
  simpl node_id.
  set (n := (size _ + size _ + size _)%nat) in *.
  assert (num_nodes d = n) as Hn.
  { unfold num_nodes. rewrite Hx. apply degree_features_length. }
  destruct (labels_and_mask_spec n nid nty (malicious_users self))
    as (y & tm & E' & _ & _ & Hy1 & Hy0 & _).
  rewrite Hlab in E'. injection E' as <- <-.
  destruct (named_malicious_dec (malicious_users self) (map_to_list nid) i)
    as [(name & Hin & Hm)|Hno].
  - apply elem_of_map_to_list in Hin.
    exists 1. split; [apply Hy1; [lia|eauto]|]. split; [by right|]. split; [eauto|done].
  - assert (¬ ∃ name, nid !! name = Some i ∧ name ∈ malicious_users self) as Hno'.
    { intros (name & Hin & Hm). apply Hno. exists name.
      by rewrite elem_of_map_to_list. }
    exists 0. split; [apply Hy0; [lia|done]|]. split; [by left|]. split; [done|].
    intros ?. done.
Qed.

(** The failed build of a day without rows resets both index maps. *)
Lemma number_nodes_empty : number_nodes ∅ ∅ ∅ = (∅, ∅, 0%nat).
Proof. unfold number_nodes. by rewrite elements_empty. Qed.

Lemma edge_rows_nil nid nty (logon_day : list LogonRow) (device_day : list DeviceRow)
    (http_day : list HttpRow) :
  numbering (users_of logon_day device_day http_day) (pcs_of logon_day device_day)
            (domains_of http_day) nid nty →
  edge_rows nid logon_day device_day http_day = [] ↔
  logon_day = [] ∧ device_day = [] ∧ http_day = [].
Proof.
  intros Hnum. destruct (edge_rows_all _ _ _ _ _ Hnum) as (Hl & Hd & Hh).
  rewrite <- !length_zero_iff_nil, edge_rows_length, !filter_all by done. lia.
Qed.

Lemma build_graph_none self logon device http day :
  (build_graph self logon device http day).1 = None ↔
  on_day l_day day logon = [] ∧ on_day d_day day device = []
    ∧ on_day h_day day http = [].
Proof.
  destruct (build_graph_inv self logon device http day)
    as (nid & nty & y & tm & Hnum & Hlab & ->).
  rewrite <- (edge_rows_nil _ _ _ _ _ Hnum).
  destruct (edge_rows nid _ _ _); simpl; split; done.
Qed.

(** C9. A build whose edge loops find no edge returns [None] and keeps
    the stored graph, the model and the ground truth, but has already
    replaced both index maps by the numbering of the entities of the failed
    day: the graph of the earlier build is still there, next to the maps of
    another day. *)
Theorem build_graph_failure_frame self logon device http day :
  let self' := (build_graph self logon device http day).2 in
  let logon_day := on_day l_day day logon in
  let device_day := on_day d_day day device in
  let http_day := on_day h_day day http in
  edge_rows (node_id self') logon_day device_day http_day = [] →
  (build_graph self logon device http day).1 = None ∧
  data self' = data self ∧ model self' = model self ∧
  malicious_users self' = malicious_users self ∧
  malicious_days self' = malicious_days self ∧
  (node_id self', node_type self')
  = (number_nodes (users_of logon_day device_day http_day)
                  (pcs_of logon_day device_day) (domains_of http_day)).1.
Proof.
  intros self' logon_day device_day http_day. subst self'.
  unfold build_graph. fold logon_day device_day http_day.
  destruct (number_nodes _ _ _) as [[nid nty] idx].
  destruct (labels_and_mask _ _ _ _) as [y tm].
  destruct (edge_rows nid logon_day device_day http_day) as [|e rows] eqn:Er;
    simpl; rewrite Er; [done|discriminate].
Qed.

End BuilderClaims.

(** ** The run *)

Section RunClaims.

Context {GNN : Type} `{!Scorer GNN}.
Implicit Types (self : Detector GNN).



End RunClaims.

(** ** Sorting and top-k *)

Section Sorting.

Context {A : Type} (before : A → A → bool).
Hypothesis before_total : ∀ a b, before a b = true ∨ before b a = true.
Hypothesis before_trans :
  ∀ a b c, before a b = true → before b c = true → before a c = true.

Lemma insert_perm a l : Py.insert before a l ≡ₚ a :: l.
Proof.
  induction l as [|b l IH]; simpl; [done|].
  destruct (before a b); [done|]. rewrite IH. apply perm_swap.
Qed.

Lemma sort_perm l : Py.sort before l ≡ₚ l.
Proof.
  induction l as [|a l IH]; simpl; [done|]. by rewrite insert_perm, IH.
Qed.

Lemma insert_sorted a l :
  StronglySorted (λ x y, before x y = true) l →
  StronglySorted (λ x y, before x y = true) (Py.insert before a l).
Proof.
  induction l as [|b l IH]; intros S; simpl.
  - repeat constructor.
  - apply StronglySorted_inv in S as [S Hb].
    destruct (before a b) eqn:Eab.
    + constructor; [by constructor|]. constructor; [done|].
      eapply Forall_impl; [exact Hb|]. intros x Hx. by eapply before_trans.
    + constructor; [by apply IH|].
      rewrite insert_perm. constructor; [|done].
      destruct (before_total a b) as [H|H]; [congruence|done].
Qed.

Lemma sort_sorted l : StronglySorted (λ x y, before x y = true) (Py.sort before l).
Proof.
  induction l as [|a l IH]; simpl; [constructor|]. by apply insert_sorted.
Qed.

(** In a sorted list an entry may stand in front of its successor. *)
Lemma sorted_consecutive l i a b :
  StronglySorted (λ x y, before x y = true) l →
  l !! i = Some a → l !! S i = Some b → before a b = true.
Proof.
  intros S. revert i. induction S as [|c l S IH Hc]; intros i Ha Hb; [done|].
  destruct i as [|i]; simpl in *.
  - injection Ha as ->. eapply Forall_forall in Hc; [done|].
    eapply list_elem_of_lookup_2. exact Hb.
  - by eapply IH.
Qed.

Lemma sorted_take k l :
  StronglySorted (λ x y, before x y = true) l →
  StronglySorted (λ x y, before x y = true) (take k l).
Proof.
  intros S. rewrite <- (take_drop k l) in S.
  by apply StronglySorted_app in S as (_ & S & _).
Qed.

End Sorting.

Section TopK.

Implicit Types (values : list Z).

Lemma topk_spec values k :
  NoDup (topk values k) ∧
  length (topk values k) = Nat.min k (length values) ∧
  (∀ p, p ∈ topk values k → (p < length values)%nat) ∧
  (∀ p q, p ∈ topk values k → (q < length values)%nat → q ∉ topk values k →
          values !!! q ≤ values !!! p).
Proof.
  unfold topk.
  set (cmp := λ i j : nat, bool_decide (values !!! j ≤ values !!! i)).
  set (order := Py.sort cmp (seq 0 (length values))).
  assert (order ≡ₚ seq 0 (length values)) as Hperm by apply sort_perm.
  assert (StronglySorted (λ i j, cmp i j = true) order) as Hsorted.
  { apply sort_sorted; unfold cmp; intros.
    - rewrite !bool_decide_eq_true. lia.
    - rewrite !bool_decide_eq_true in *. lia. }
  assert (NoDup order) as Hnd by (rewrite Hperm; apply NoDup_seq).
  assert (∀ p, p ∈ order ↔ (p < length values)%nat) as Hin.
  { intros p. rewrite Hperm, elem_of_seq. lia. }
  rewrite <- (take_drop k order) in Hnd, Hsorted.
  split; [|split; [|split]].
  - by apply NoDup_app in Hnd as (? & _).
  - rewrite length_take. f_equal. by rewrite Hperm, length_seq.
  - intros p Hp. apply Hin. rewrite <- (take_drop k order).
    apply elem_of_app. by left.
  - intros p q Hp Hq Hnq.
    assert (q ∈ drop k order) as Hq'.
    { apply Hin in Hq. rewrite <- (take_drop k order) in Hq.
      apply elem_of_app in Hq as [?|?]; done. }
    pose proof (StronglySorted_app_1_elem_of _ _ _ _ _ Hsorted Hp Hq') as H.
    unfold cmp in H. by apply bool_decide_eq_true in H.
Qed.

End TopK.

(** ** The positive-sample fallback *)

Section Fallback.

Implicit Types (mask : list bool) (y : list Z) (d : Data).

Lemma filter_ext_in {A} (P Q : A → Prop) `{∀ a, Decision (P a)} `{∀ a, Decision (Q a)}
    (l : list A) :
  (∀ a, a ∈ l → P a ↔ Q a) → filter P l = filter Q l.
Proof.
  induction l as [|a l IH]; intros Hext; [done|].
  rewrite !filter_cons. rewrite IH by (intros; apply Hext; by right).
  pose proof (Hext a ltac:(left)). repeat case_decide; tauto.
Qed.

Lemma masked_indices_length mask :
  length (filter (λ i, mask !! i = Some true) (seq 0 (length mask)))
  = length (filter (λ b, b = true) mask).
Proof.
  induction mask as [|b mask IH] using rev_ind; [done|].
  rewrite length_app, seq_app, !filter_app, !length_app. simpl seq. simpl length.
  rewrite <- IH. f_equal.
  - f_equal. apply filter_ext_in. intros i Hi%elem_of_seq.
    by rewrite lookup_app_l by lia.
  - rewrite !filter_cons, !filter_nil.
    rewrite lookup_app_r, Nat.sub_diag by lia. simpl.
    destruct b; repeat case_decide; done.
Qed.

Lemma user_indices_spec d :
  NoDup (user_indices d) ∧
  length (user_indices d) = train_nodes d ∧
  ∀ i, i ∈ user_indices d ↔ data_train_mask d !! i = Some true.
Proof.
  unfold user_indices, train_nodes. split; [|split].
  - apply NoDup_filter, NoDup_seq.
  - apply masked_indices_length.
  - intros i. rewrite list_elem_of_filter, elem_of_seq. split; [tauto|].
    intros Hi. split; [done|]. apply lookup_lt_Some in Hi. lia.
Qed.

Lemma set_ones_length y l : length (set_ones y l) = length y.
Proof.
  unfold set_ones. revert y. induction l as [|a l IH]; intros y; [done|].
  simpl. rewrite IH. apply length_insert.
Qed.

Lemma set_ones_lookup y l j :
  set_ones y l !! j
  = if bool_decide (j ∈ l ∧ (j < length y)%nat) then Some 1 else y !! j.
Proof.
  unfold set_ones. revert y. induction l as [|a l IH]; intros y.
  - rewrite bool_decide_eq_false_2; [done|]. by intros [?%elem_of_nil _].
  - cbn [foldl]. rewrite IH, length_insert.
    destruct (decide (j = a)) as [->|Hne].
    + case_bool_decide as H1; case_bool_decide as H2; try done.
      * destruct H2. split; [left|]. tauto.
      * destruct H2 as [_ H2]. by rewrite list_lookup_insert_eq.
      * rewrite list_insert_ge; [done|].
        assert (¬ (a < length y)%nat) by (intros ?; apply H2; split; [left|done]). lia.
    + rewrite list_lookup_insert_ne by done.
      case_bool_decide as H1; case_bool_decide as H2; try done.
      * destruct H2. split; [right|]; tauto.
      * destruct H1. destruct H2 as [[?|?]%elem_of_cons ?]; done.
Qed.

Lemma mp_zero mask y i :
  count_positives mask y = 0%nat → mask !! i = Some true → y !! i ≠ Some 1.
Proof.
  unfold count_positives. revert y i. induction mask as [|b mask IH]; intros y i H Hi; [done|].
  destruct y as [|v y]; [done|]. simpl zip in H. rewrite filter_cons in H.
  case_decide as Hp; [done|]. destruct i as [|i]; simpl in *.
  - injection Hi as ->. intros [= ->]. by apply Hp.
  - by eapply IH.
Qed.

Lemma mp_insert mask y i :
  mask !! i = Some true → (i < length y)%nat → y !! i ≠ Some 1 →
  count_positives mask (<[i := 1]> y) = S (count_positives mask y).
Proof.
  unfold count_positives. revert y i. induction mask as [|b mask IH]; intros y i Hi Hlt Hy; [done|].
  destruct y as [|v y]; [simpl in Hlt; lia|].
  destruct i as [|i]; simpl in *.
  - injection Hi as ->. rewrite filter_cons_True by done.
    rewrite filter_cons_False; [done|]. simpl. intros [_ ->]. done.
  - rewrite !filter_cons. specialize (IH y i Hi ltac:(lia) Hy).
    case_decide; simpl; by rewrite IH.
Qed.

Lemma mp_set_ones mask y l :
  NoDup l →
  (∀ i, i ∈ l → mask !! i = Some true ∧ (i < length y)%nat ∧ y !! i ≠ Some 1) →
  count_positives mask (set_ones y l) = (count_positives mask y + length l)%nat.
Proof.
  unfold set_ones. intros ND. revert y.
  induction ND as [|a l Ha ND IH]; intros y Hall; simpl; [lia|].
  rewrite IH.
  - destruct (Hall a ltac:(left)) as (? & ? & ?). rewrite mp_insert by done. lia.
  - intros i Hi. destruct (Hall i ltac:(by right)) as (? & ? & ?).
    rewrite length_insert, list_lookup_insert_ne by (intros ->; done). done.
Qed.

Lemma set_y_same d : set_y d (data_y d) = d.
Proof. by destruct d. Qed.

(** What the fallback does when it fires. *)
Lemma fallback_fires d :
  well_formed d → masked_positives d = 0%nat →
  ∃ top,
    fallback d = set_y d (set_ones (data_y d) top) ∧
    NoDup top ∧ length top = Nat.min 3 (train_nodes d) ∧
    (∀ i, i ∈ top → data_train_mask d !! i = Some true) ∧
    (∀ i j, i ∈ top → data_train_mask d !! j = Some true → j ∉ top →
            data_x d !!! j ≤ data_x d !!! i).
Proof.
  intros [Hx Hy] Hz. unfold fallback. rewrite bool_decide_eq_true_2 by done.
  destruct (user_indices_spec d) as (Hnd & Hlen & Hin).
  set (ui := user_indices d) in *.
  case_bool_decide as Hpos.
  2: { exists []. assert (train_nodes d = 0%nat) as -> by lia.
       unfold set_ones. simpl. rewrite set_y_same.
       split; [done|]. split; [apply NoDup_nil_2|]. split; [done|].
       split; [intros i ?%elem_of_nil; done|intros i j ?%elem_of_nil; done]. }
  set (degrees := (λ i, data_x d !!! i) <$> ui).
  set (k := Nat.min 3 (length ui)).
  destruct (topk_spec degrees k) as (Tnd & Tlen & Tlt & Ttop).
  assert (length degrees = length ui) as Hdl by apply length_fmap.
  rewrite Hdl in *.
  assert (∀ p, (p < length ui)%nat → degrees !!! p = data_x d !!! (ui !!! p)) as Hdeg.
  { intros p Hp. apply list_lookup_total_correct. unfold degrees.
    rewrite list_lookup_fmap, (list_lookup_lookup_total_lt ui p) by done. done. }
  assert (∀ p, (p < length ui)%nat → ui !!! p ∈ ui) as Hmem.
  { intros p Hp. eapply list_elem_of_lookup_2, list_lookup_lookup_total_lt, Hp. }
  eexists. split; [reflexivity|]. split; [|split; [|split]].
  - apply NoDup_fmap_2_strong; [|done].
    intros p q Hp%Tlt Hq%Tlt E.
    eapply NoDup_lookup; [exact Hnd|..].
    + by apply list_lookup_lookup_total_lt.
    + rewrite E. by apply list_lookup_lookup_total_lt.
  - rewrite length_fmap, Tlen. subst k. lia.
  - intros i (p & -> & Hp)%list_elem_of_fmap. apply Hin, Hmem, Tlt, Hp.
  - intros i j (p & -> & Hp)%list_elem_of_fmap Hj Hnj.
    apply Hin, list_elem_of_lookup in Hj as [q Hq].
    pose proof (lookup_lt_Some _ _ _ Hq) as Hql.
    assert (q ∉ topk degrees k) as Hnq.
    { intros Hq'. apply Hnj, list_elem_of_fmap. exists q. split; [|done].
      symmetry. by apply list_lookup_total_correct. }
    pose proof (Ttop p q Hp Hql Hnq) as Hle.
    rewrite !Hdeg in Hle by (done || by apply Tlt).
    by rewrite (list_lookup_total_correct _ _ _ Hq) in Hle.
Qed.

Lemma fallback_idle d : masked_positives d ≠ 0%nat → fallback d = d.
Proof. intros H. unfold fallback. by rewrite bool_decide_eq_false_2. Qed.

Lemma fallback_well_formed d : well_formed d → well_formed (fallback d).
Proof.
  intros Hwf. destruct (decide (masked_positives d = 0%nat)) as [Hz|Hnz].
  - destruct (fallback_fires d Hwf Hz) as (top & -> & _).
    destruct Hwf as [Hx Hy]. split; [done|]. simpl. by rewrite set_ones_length.
  - by rewrite (fallback_idle d Hnz).
Qed.

Lemma fallback_count d :
  well_formed d → masked_positives d = 0%nat →
  masked_positives (fallback d) = Nat.min 3 (train_nodes d).
Proof.
  intros Hwf Hz. destruct (fallback_fires d Hwf Hz) as (top & -> & Hnd & Hlen & Hmask & _).
  unfold masked_positives in *. cbn [set_y data_y data_train_mask].
  rewrite mp_set_ones; [lia|done|].
  intros i Hi. specialize (Hmask i Hi). split; [done|]. split.
  - destruct Hwf as [_ ->]. by eapply lookup_lt_Some.
  - by eapply mp_zero.
Qed.

(** A second check finds nothing left to do. *)
Lemma fallback_idempotent d : well_formed d → fallback (fallback d) = fallback d.
Proof.
  intros Hwf. destruct (decide (masked_positives d = 0%nat)) as [Hz|Hnz].
  - destruct (decide (train_nodes d = 0%nat)) as [Hn|Hn].
    + destruct (fallback_fires d Hwf Hz) as (top & E & _ & Hlen & _).
      rewrite Hn in Hlen. destruct top; [|done].
      unfold set_ones in E. simpl in E. rewrite set_y_same in E. by rewrite !E.
    + apply fallback_idle. rewrite fallback_count by done. lia.
  - rewrite (fallback_idle d Hnz). apply (fallback_idle d Hnz).
Qed.

End Fallback.

(** ** The training loop *)

Section TrainerClaims.

Context {GNN : Type} `{!Scorer GNN}.
Implicit Types (d : Data) (m : GNN) (self : Detector GNN).

(** The loop changes the graph only through the positive-sample check. *)
Lemma iter_train_epoch_data k m d losses :
  (Nat.iter k train_epoch (m, d, losses)).1.2 = Nat.iter k fallback d.
Proof.
  induction k as [|k IH]; [done|]. simpl.
  destruct (Nat.iter k train_epoch (m, d, losses)) as [[m' d'] losses'].
  simpl in IH. subst d'. unfold train_epoch.
  by destruct (optimizer_step _ _ _).
Qed.

Lemma iter_fallback k d : well_formed d → Nat.iter (S k) fallback d = fallback d.
Proof.
  intros Hwf. induction k as [|k IH]; [done|].
  change (Nat.iter (S (S k)) fallback d) with (fallback (Nat.iter (S k) fallback d)).
  rewrite IH. by apply fallback_idempotent.
Qed.

Lemma data_after_succ k m d : well_formed d → data_after (S k) m d = fallback d.
Proof.
  intros Hwf. unfold data_after. rewrite iter_train_epoch_data. by apply iter_fallback.
Qed.

Lemma train_model_data self epochs d :
  data self = Some d →
  data (train_model self epochs).2 = Some (Nat.iter (Z.to_nat epochs) fallback d).
Proof.
  intros E. unfold train_model. rewrite E.
  pose proof (iter_train_epoch_data (Z.to_nat epochs) create_gnn_model d []) as H.
  destruct (Nat.iter (Z.to_nat epochs) train_epoch _) as [[m' d'] losses'].
  simpl in *. by subst.
Qed.

Lemma train_model_frame self epochs d :
  data self = Some d →
  node_id (train_model self epochs).2 = node_id self ∧
  node_type (train_model self epochs).2 = node_type self ∧
  malicious_users (train_model self epochs).2 = malicious_users self ∧
  ∃ m, model (train_model self epochs).2 = Some m.
Proof.
  intros E. unfold train_model. rewrite E.
  destruct (Nat.iter (Z.to_nat epochs) train_epoch _) as [[m' d'] losses'].
  simpl. eauto.
Qed.

Lemma fallback_no_train_nodes d :
  well_formed d → train_nodes d = 0%nat → fallback d = d.
Proof.
  intros Hwf Hn. destruct (decide (masked_positives d = 0%nat)) as [Hz|Hnz].
  - destruct (fallback_fires d Hwf Hz) as (top & E & _ & Hlen & _).
    rewrite Hn in Hlen. destruct top; [|done].
    unfold set_ones in E. simpl in E. by rewrite set_y_same in E.
  - by apply fallback_idle.
Qed.

(** C3. When an epoch starts without a masked positive, the check labels
    exactly [min 3 |trainNodes|] training nodes with 1, none of the others
    having a larger degree; the masked positive count is then that number,
    and the new labels are those of every later epoch and of the detector
    when training returns. *)
Theorem fallback_injects d :
  well_formed d → masked_positives d = 0%nat →
  ∃ top,
    NoDup top ∧ length top = Nat.min 3 (train_nodes d) ∧
    (∀ i, i ∈ top → data_train_mask d !! i = Some true) ∧
    (∀ i j, i ∈ top → data_train_mask d !! j = Some true → j ∉ top →
            data_x d !!! j ≤ data_x d !!! i) ∧
    (∀ j, data_y (fallback d) !! j
          = if bool_decide (j ∈ top) then Some 1 else data_y d !! j) ∧
    masked_positives (fallback d) = Nat.min 3 (train_nodes d) ∧
    (∀ m k, data_after (S k) m d = fallback d) ∧
    (∀ self epochs, data self = Some d → 1 ≤ epochs →
       data (train_model self epochs).2 = Some (fallback d)).
Proof.
  intros Hwf Hz.
  destruct (fallback_fires d Hwf Hz) as (top & E & Hnd & Hlen & Hmask & Htop).
  exists top. split; [done|]. split; [done|]. split; [done|]. split; [done|].
  split; [|split; [|split]].
  - intros j. rewrite E. simpl. rewrite set_ones_lookup.
    destruct (decide (j ∈ top)) as [Hj|Hj].
    + rewrite !bool_decide_eq_true_2; [done..|]. split; [done|].
      destruct Hwf as [_ ->]. eapply lookup_lt_Some, Hmask, Hj.
    + rewrite !bool_decide_eq_false_2; [done..|]. tauto.
  - by apply fallback_count.
  - intros m k. by apply data_after_succ.
  - intros self epochs Hd He. rewrite (train_model_data _ _ _ Hd).
    destruct (Z.to_nat epochs) as [|k] eqn:Ek; [lia|]. by rewrite iter_fallback.
Qed.

(** C10. Only the first pass of the loop can change the labels: the graph
    after any later pass is the graph after the pass before it.  When there
    are training nodes and no masked positive, the first pass leaves a
    positive count above zero; when there is no training node, no pass
    changes the graph at all. *)
Theorem fallback_at_most_once d m :
  well_formed d →
  (∀ k, data_after (S (S k)) m d = data_after (S k) m d) ∧
  ((0 < train_nodes d)%nat → masked_positives d = 0%nat →
     (0 < masked_positives (data_after 1 m d))%nat) ∧
  (train_nodes d = 0%nat → ∀ k, data_after k m d = d).
Proof.
  intros Hwf. split; [|split].
  - intros k. by rewrite !data_after_succ.
  - intros Hn Hz. rewrite data_after_succ, fallback_count by done. lia.
  - intros Hn k. unfold data_after. rewrite iter_train_epoch_data.
    induction k as [|k IH]; [done|]. simpl. rewrite IH.
    by apply fallback_no_train_nodes.
Qed.

End TrainerClaims.

(** ** The predictor *)

Section Clamp.

Open Scope Q_scope.

Lemma Qle_bool_false (a b : Q) : Qle_bool a b = false → b < a.
Proof.
  intros E. apply Qnot_le_lt. rewrite <- Qle_bool_iff. congruence.
Qed.

Lemma clamp_range (v : Q) : 0 <= clamp v 0 1 <= 1.
Proof.
  unfold clamp.
  destruct (Qle_bool 0 v) eqn:E0; [apply Qle_bool_iff in E0|apply Qle_bool_false in E0].
  - destruct (Qle_bool v 1) eqn:E1; [apply Qle_bool_iff in E1|]; lra.
  - destruct (Qle_bool 0 1) eqn:E1; lra.
Qed.

Lemma clamp_boost_ge (s : Q) : s <= 1 → s <= clamp (s + boost_amount) 0 1.
Proof.
  intros Hs. unfold clamp, boost_amount.
  destruct (Qle_bool 0 (s + (8 # 10))) eqn:E0;
    [apply Qle_bool_iff in E0|apply Qle_bool_false in E0].
  - destruct (Qle_bool (s + (8 # 10)) 1) eqn:E1; [apply Qle_bool_iff in E1|]; lra.
  - destruct (Qle_bool 0 1) eqn:E1; lra.
Qed.

End Clamp.

Section Predictor.

Context {GNN : Type} `{!Scorer GNN}.
Implicit Types (self : Detector GNN) (scores : list Q).

Lemma name_of_lookup (nid : gmap string nat) i name :
  name_of nid i = Some name → nid !! name = Some i.
Proof.
  unfold name_of. destruct (find _ _) as [[nm j]|] eqn:E; [|done].
  intros [= <-]. apply find_some in E as [Hin Hj].
  apply bool_decide_eq_true in Hj. simpl in Hj. subst j.
  by apply elem_of_map_to_list, list_elem_of_In.
Qed.

Lemma boost_step_ok self scores i ty s :
  node_type self !! i = Some ty → scores !! i = Some s →
  boost_step self scores i
  = Py.Ok (if is_boosted self i
           then <[i := clamp (s + boost_amount) 0 1]> scores else scores).
Proof.
  intros Hty Hs. unfold boost_step, is_boosted, Py.getitem, Py.index.
  rewrite Hty, Hs. simpl.
  destruct ty; simpl; try done.
  destruct (name_of _ _) as [nm|]; [|done].
  by destruct (Py.truthy nm && _).
Qed.

Lemma boost_ok self scores n :
  (∀ i, (i < n)%nat → is_Some (node_type self !! i)) → (n ≤ length scores)%nat →
  ∃ boosted,
    boost self scores n = Py.Ok boosted ∧ length boosted = length scores ∧
    ∀ i, boosted !! i
         = if bool_decide (i < n)%nat && is_boosted self i
           then (λ s, clamp (s + boost_amount) 0 1) <$> scores !! i
           else scores !! i.
Proof.
  unfold boost. induction n as [|n IH]; intros Hty Hlen.
  - exists scores. split; [done|]. split; [done|]. intros i.
    rewrite bool_decide_eq_false_2 by lia. done.
  - destruct IH as (b & E & Hl & Hb); [intros; apply Hty; lia|lia|].
    rewrite seq_S, foldl_snoc, E. simpl.
    destruct (Hty n ltac:(lia)) as [ty Hn].
    destruct (lookup_lt_is_Some_2 scores n ltac:(lia)) as [s Hs].
    assert (b !! n = Some s) as Hbn.
    { rewrite Hb, bool_decide_eq_false_2 by lia. done. }
    rewrite (boost_step_ok _ _ _ _ _ Hn Hbn).
    eexists. split; [done|]. split.
    + destruct (is_boosted self n); [rewrite length_insert|]; done.
    + intros i. destruct (decide (i = n)) as [->|Hne].
      * rewrite bool_decide_eq_true_2 by lia. simpl.
        destruct (is_boosted self n); [|by rewrite Hbn].
        rewrite list_lookup_insert_eq by (rewrite Hl; lia). by rewrite Hs.
      * assert ((if is_boosted self n
                 then <[n:=clamp (s + boost_amount) 0 1]> b else b) !! i = b !! i) as ->.
        { destruct (is_boosted self n); [|done]. by apply list_lookup_insert_ne. }
        rewrite Hb. by rewrite (bool_decide_ext (i < n)%nat (i < S n)%nat) by lia.
Qed.

Lemma entry_step_ok self scores top_users i ty s :
  node_type self !! i = Some ty → scores !! i = Some s →
  entry_step self scores top_users i
  = Py.Ok (top_users ++ option_list (entry_of self scores i)).
Proof.
  intros Hty Hs. unfold entry_step, entry_of, Py.getitem, Py.index.
  rewrite Hty, Hs. simpl.
  destruct ty; simpl; rewrite ?app_nil_r; try done.
  destruct (name_of _ _) as [nm|]; simpl; rewrite ?app_nil_r; [|done].
  destruct (Py.truthy nm); simpl; rewrite ?app_nil_r; done.
Qed.

Lemma entries_ok self scores n :
  (∀ i, (i < n)%nat → is_Some (node_type self !! i)) → (n ≤ length scores)%nat →
  entries self scores n = Py.Ok (omap (entry_of self scores) (seq 0 n)).
Proof.
  unfold entries. induction n as [|n IH]; intros Hty Hlen; [done|].
  rewrite seq_S, foldl_snoc, IH by (intros; (apply Hty || idtac); lia). simpl.
  destruct (Hty n ltac:(lia)) as [ty Hn].
  destruct (lookup_lt_is_Some_2 scores n ltac:(lia)) as [s Hs].
  rewrite (entry_step_ok _ _ _ _ _ _ Hn Hs), omap_app. simpl.
  by destruct (entry_of self scores n).
Qed.

End Predictor.

Section PredictorClaims.

Context {GNN : Type} `{!Scorer GNN}.
Implicit Types (self : Detector GNN) (scores : list Q).

Lemma truthy_nonempty (name : string) : Py.truthy name = true ↔ name ≠ "".
Proof. by destruct name. Qed.

Lemma is_boosted_true self i name :
  node_type self !! i = Some User → name_of (node_id self) i = Some name →
  name ≠ "" → name ∈ malicious_users self → is_boosted self i = true.
Proof.
  intros Hty Hname Hne Hm. unfold is_boosted. rewrite Hty, Hname.
  apply andb_true_intro. split; [by apply truthy_nonempty|by apply bool_decide_eq_true].
Qed.

(** C4, as the code has it.  The boosting loop runs to its end on scores
    produced by the sigmoid; it replaces the score of a user-type node whose
    name is known malicious and not the empty string by that score plus 0.8
    clamped to [0,1], leaves every other score as it is, and so lowers no
    score and leaves every score at most 1. *)
Theorem boost_raises self (logits : list Q) n :
  (∀ i, (i < n)%nat → is_Some (node_type self !! i)) → (n ≤ length logits)%nat →
  ∃ boosted,
    boost self (sigmoid <$> logits) n = Py.Ok boosted ∧
    length boosted = length logits ∧
    ∀ i s, (sigmoid <$> logits) !! i = Some s →
      ∃ s', boosted !! i = Some s' ∧ (s <= s')%Q ∧ (s' <= 1)%Q ∧
        (∀ name, (i < n)%nat → node_type self !! i = Some User →
           name_of (node_id self) i = Some name → name ≠ "" →
           name ∈ malicious_users self → s' = clamp (s + boost_amount) 0 1) ∧
        (is_boosted self i = false → s' = s).
Proof.
  intros Hty Hlen.
  destruct (boost_ok self (sigmoid <$> logits) n Hty) as (boosted & E & Hl & Hb).
  { by rewrite length_fmap. }
  exists boosted. split; [done|]. split; [by rewrite Hl, length_fmap|].
  intros i s Hs. rewrite Hb, Hs.
  assert (0 <= s <= 1)%Q as Hrange.
  { rewrite list_lookup_fmap in Hs. destruct (logits !! i); [|done].
    injection Hs as <-. apply sigmoid_range. }
  destruct (bool_decide (i < n)%nat && is_boosted self i) eqn:Eb.
  - apply andb_prop in Eb as [Hi Hbo]. simpl.
    eexists. split; [done|]. split; [apply clamp_boost_ge, Hrange|].
    split; [apply clamp_range|]. split; [done|]. congruence.
  - exists s. split; [done|]. split; [lra|]. split; [lra|]. split; [|done].
    intros name Hi Hu Hname Hne Hm.
    rewrite (is_boosted_true _ _ _ Hu Hname Hne Hm) in Eb.
    rewrite bool_decide_eq_true_2 in Eb by done. done.
Qed.

Lemma by_score_desc_total (a b : Prediction) :
  by_score_desc a b = true ∨ by_score_desc b a = true.
Proof.
  unfold by_score_desc. rewrite !Qle_bool_iff.
  destruct (Qlt_le_dec (p_score a) (p_score b)); [right|left]; lra.
Qed.

Lemma by_score_desc_trans (a b c : Prediction) :
  by_score_desc a b = true → by_score_desc b c = true → by_score_desc a c = true.
Proof. unfold by_score_desc. rewrite !Qle_bool_iff. lra. Qed.

Lemma slice_to_take {A} (k : Z) (l : list A) : ∃ j, Py.slice_to k l = take j l.
Proof. unfold Py.slice_to. case_bool_decide; eauto. Qed.

(** [get_predictions] on a trained detector whose node types cover the
    graph: boost, collect, sort, cut. *)
Lemma get_predictions_unfold self top_k m d :
  model self = Some m → data self = Some d →
  (∀ i, (i < num_nodes d)%nat → is_Some (node_type self !! i)) →
  ∃ boosted,
    boost self (sigmoid <$> forward m (data_x d) (data_edge_index d)) (num_nodes d)
    = Py.Ok boosted ∧
    get_predictions self top_k
    = Py.Ok (Py.slice_to (default default_top_k top_k)
               (Py.sort by_score_desc
                  (omap (entry_of self boosted) (seq 0 (num_nodes d))))).
Proof.
  intros Hm Hd Hty.
  set (scores := sigmoid <$> forward m (data_x d) (data_edge_index d)).
  assert (length scores = num_nodes d) as Hls.
  { unfold scores, num_nodes. by rewrite length_fmap, forward_length. }
  destruct (boost_ok self scores (num_nodes d) Hty ltac:(lia)) as (boosted & Eb & Hlb & _).
  pose proof (entries_ok self boosted (num_nodes d) Hty ltac:(lia)) as Ee.
  exists boosted. split; [done|].
  unfold get_predictions, rank. rewrite Hm, Hd. fold scores.
  rewrite Eb. simpl. rewrite Ee. done.
Qed.

(** C5, as the code has it.  On a trained detector whose node types cover
    the graph, [get_predictions] returns the first [top_k] entries of the
    ranking, [top_k] being 50 when the caller gives none.  The ranking has
    one entry per user-type node with a non-empty name, carrying the boosted
    score of that node and its ground-truth flag, in non-increasing order of
    score. *)
Theorem get_predictions_ranked self top_k m d :
  model self = Some m → data self = Some d →
  (∀ i, (i < num_nodes d)%nat → is_Some (node_type self !! i)) →
  let k := default default_top_k top_k in
  ∃ boosted ranked r,
    boost self (sigmoid <$> forward m (data_x d) (data_edge_index d)) (num_nodes d)
    = Py.Ok boosted ∧
    get_predictions self top_k = Py.Ok r ∧
    default_top_k = 50 ∧
    r = Py.slice_to k ranked ∧
    (0 ≤ k → r = take (Z.to_nat k) ranked) ∧
    (∀ i a b, ranked !! i = Some a → ranked !! S i = Some b →
       (p_score b <= p_score a)%Q) ∧
    (∀ i a b, r !! i = Some a → r !! S i = Some b → (p_score b <= p_score a)%Q) ∧
    (∀ e, e ∈ ranked ↔
       ∃ i s, (i < num_nodes d)%nat ∧ node_type self !! i = Some User ∧
         name_of (node_id self) i = Some (p_user e) ∧ p_user e ≠ "" ∧
         boosted !! i = Some s ∧ p_score e = s ∧
         p_is_known_malicious e = bool_decide (p_user e ∈ malicious_users self)).
Proof.
  intros Hm Hd Hty k.
  destruct (get_predictions_unfold self top_k m d Hm Hd Hty) as (boosted & Eb & Ep).
  set (top_users := omap (entry_of self boosted) (seq 0 (num_nodes d))) in *.
  set (ranked := Py.sort by_score_desc top_users).
  assert (StronglySorted (λ a b, by_score_desc a b = true) ranked) as Hsorted.
  { apply sort_sorted; [apply by_score_desc_total|apply by_score_desc_trans]. }
  assert (∀ i a b, ranked !! i = Some a → ranked !! S i = Some b →
            (p_score b <= p_score a)%Q) as Hcons.
  { intros i a b Ha Hb. apply Qle_bool_iff.
    exact (sorted_consecutive by_score_desc ranked i a b Hsorted Ha Hb). }
  exists boosted, ranked, (Py.slice_to k ranked).
  split; [done|]. split; [done|].
  split; [done|]. split; [done|]. split.
  { intros Hk. unfold Py.slice_to. by rewrite bool_decide_eq_false_2 by lia. }
  split; [done|]. split.
  { destruct (slice_to_take k ranked) as [j ->]. intros i a b Ha Hb.
    apply lookup_take_Some in Ha as [Ha _]. apply lookup_take_Some in Hb as [Hb _].
    by eapply Hcons. }
  intros e. unfold ranked. rewrite sort_perm. unfold top_users.
  rewrite list_elem_of_omap. split.
  - intros (i & Hi%elem_of_seq & He). unfold entry_of in He.
    destruct (node_type self !! i) as [[]|] eqn:Et; try done.
    destruct (name_of (node_id self) i) as [nm|] eqn:En; [|done].
    destruct (boosted !! i) as [s|] eqn:Es; [|done].
    destruct (Py.truthy nm) eqn:Etr; [|done]. injection He as <-. simpl.
    exists i, s. split; [lia|]. by rewrite <- truthy_nonempty.
  - intros (i & s & Hi & Et & En & Hne & Es & Hsc & Hkm). exists i.
    split; [apply elem_of_seq; lia|]. unfold entry_of. rewrite Et, En, Es.
    apply truthy_nonempty in Hne. rewrite Hne. destruct e. simpl in *. by subst.
Qed.

End PredictorClaims.

(** ** The visualization exporter *)

Section Exporter.

Context {GNN : Type} `{!Scorer GNN}.
Implicit Types (self : Detector GNN) (nid : gmap string nat) (d : Data).

Lemma endpoint_names_fold nid src_idx tgt_idx :
  endpoint_names nid src_idx tgt_idx
  = foldl (names_step src_idx tgt_idx) (None, None) (map_to_list nid).
Proof.
  unfold endpoint_names. generalize (@None string, @None string).
  induction (map_to_list nid) as [|[name idx] items IH]; intros [sn tn]; [done|].
  simpl. rewrite IH. unfold names_step. simpl. by repeat case_bool_decide.
Qed.

(** The scan over a list of items in which only [a] carries [s] and only
    [b] carries [t], for distinct [s] and [t]. *)
Lemma names_scan (items : list (string * nat)) s t a b acc :
  s ≠ t →
  (∀ name, (name, s) ∈ items → name = a) →
  (∀ name, (name, t) ∈ items → name = b) →
  foldl (names_step s t) acc items
  = (if bool_decide ((a, s) ∈ items) then Some a else acc.1,
     if bool_decide ((b, t) ∈ items) then Some b else acc.2).
Proof.
  intros Hst. revert acc. induction items as [|[name idx] items IH]; intros acc Ha Hb.
  - cbn [foldl]. rewrite !bool_decide_eq_false_2 by apply not_elem_of_nil.
    by destruct acc.
  - cbn [foldl]. rewrite IH by (intros; (apply Ha || apply Hb); by right).
    pose proof (Ha name) as Ha'. pose proof (Hb name) as Hb'.
    rewrite elem_of_cons in Ha', Hb'.
    unfold names_step. cbn [fst snd].
    repeat case_bool_decide; simplify_eq;
      repeat match goal with
             | H : _ ∈ _ :: _ |- _ => rewrite elem_of_cons in H
             | H : ¬ (_ ∈ _ :: _) |- _ => rewrite elem_of_cons in H
             end;
      try done; try (f_equal; naive_solver); try naive_solver.
Qed.

Lemma endpoint_names_resolved nid s t a b :
  (∀ x y i, nid !! x = Some i → nid !! y = Some i → x = y) →
  nid !! a = Some s → nid !! b = Some t → s ≠ t →
  endpoint_names nid s t = (Some a, Some b).
Proof.
  intros Hinj Ha Hb Hst. rewrite endpoint_names_fold.
  rewrite (names_scan _ s t a b) by
    (done || (intros name ?%elem_of_map_to_list; by eapply Hinj)).
  by rewrite !bool_decide_eq_true_2 by by apply elem_of_map_to_list.
Qed.

Lemma viz_edges_length self (edges : list (nat * nat)) acc :
  (∀ e, e ∈ edges → ∃ a b,
     endpoint_names (node_id self) e.1 e.2 = (Some a, Some b) ∧ a ≠ "" ∧ b ≠ "") →
  length (foldl (viz_edge self) acc edges) = (length acc + length edges)%nat.
Proof.
  revert acc. induction edges as [|e edges IH]; intros acc Hall; simpl; [lia|].
  rewrite IH by (intros; apply Hall; by right).
  destruct (Hall e ltac:(left)) as (a & b & E & Ha & Hb).
  unfold viz_edge. rewrite E.
  destruct a; [done|]. destruct b; [done|]. simpl. rewrite length_app. simpl. lia.
Qed.

Lemma viz_node_inv self d acc item nodes :
  viz_node self d acc item = Py.Ok nodes → length nodes = S (length acc).
Proof.
  destruct item as [name idx]. unfold viz_node, Py.getitem, Py.index.
  destruct (node_type self !! idx) as [ty|]; [|done].
  destruct (data_x d !! idx) as [deg|]; [|done].
  simpl. intros [= <-]. rewrite length_app. simpl. lia.
Qed.

Lemma viz_nodes_raise self d (items : list (string * nat)) e :
  foldl (λ acc item, nodes ← acc; viz_node self d nodes item) (Py.Raise e) items
  = Py.Raise e.
Proof. induction items as [|item items IH]; [done|]. exact IH. Qed.

Lemma viz_nodes_length self d (items : list (string * nat)) acc nodes :
  foldl (λ acc item, nodes ← acc; viz_node self d nodes item) (Py.Ok acc) items
  = Py.Ok nodes →
  length nodes = (length acc + length items)%nat.
Proof.
  revert acc. induction items as [|item items IH]; intros acc E.
  - injection E as <-. simpl. lia.
  - cbn [foldl] in E.
    change (nodes ← Py.Ok acc; viz_node self d nodes item)
      with (viz_node self d acc item) in E.
    destruct (viz_node self d acc item) as [nodes1|e] eqn:Ev.
    + apply IH in E. apply viz_node_inv in Ev. simpl. lia.
    + by rewrite viz_nodes_raise in E.
Qed.

Lemma viz_nodes_ok self d (items : list (string * nat)) acc :
  (∀ name idx, (name, idx) ∈ items →
     is_Some (node_type self !! idx) ∧ (idx < length (data_x d))%nat) →
  ∃ nodes,
    foldl (λ acc item, nodes ← acc; viz_node self d nodes item) (Py.Ok acc) items
    = Py.Ok nodes.
Proof.
  revert acc. induction items as [|[name idx] items IH]; intros acc Hall.
  - by eexists.
  - cbn [foldl].
    change (nodes ← Py.Ok acc; viz_node self d nodes (name, idx))
      with (viz_node self d acc (name, idx)).
    destruct (Hall name idx ltac:(left)) as [[ty Hty] Hlt].
    destruct (lookup_lt_is_Some_2 _ _ Hlt) as [deg Hdeg].
    unfold viz_node, Py.getitem, Py.index. rewrite Hty, Hdeg. simpl.
    apply IH. intros name' idx' Hin. apply (Hall name' idx'). by right.
Qed.

End Exporter.

Section ExporterClaims.

Context {GNN : Type} `{!Scorer GNN}.
Implicit Types (self : Detector GNN) (nid : gmap string nat) (d : Data).

Lemma fallback_frame d :
  data_x (fallback d) = data_x d ∧ data_edge_index (fallback d) = data_edge_index d.
Proof. unfold fallback. by repeat case_bool_decide. Qed.

Lemma iter_fallback_frame k d :
  data_x (Nat.iter k fallback d) = data_x d ∧
  data_edge_index (Nat.iter k fallback d) = data_edge_index d.
Proof.
  induction k as [|k [IHx IHe]]; [done|]. simpl.
  destruct (fallback_frame (Nat.iter k fallback d)) as [-> ->]. done.
Qed.

Lemma names_apart (X Y Z : gset string) (a b : string) :
  X ## Y → "" ∉ Z → X ⊆ Z → Y ⊆ Z → a ∈ X → b ∈ Y → a ≠ b ∧ a ≠ "" ∧ b ≠ "".
Proof. set_solver. Qed.

Lemma elem_of_users_logon (logon_day : list LogonRow) (device_day : list DeviceRow)
    (http_day : list HttpRow) r :
  r ∈ logon_day → l_user r ∈ users_of logon_day device_day http_day.
Proof.
  intros. unfold users_of.
  rewrite !elem_of_union, !elem_of_list_to_set, !list_elem_of_fmap. eauto 6.
Qed.

Lemma elem_of_users_device (logon_day : list LogonRow) (device_day : list DeviceRow)
    (http_day : list HttpRow) r :
  r ∈ device_day → d_user r ∈ users_of logon_day device_day http_day.
Proof.
  intros. unfold users_of.
  rewrite !elem_of_union, !elem_of_list_to_set, !list_elem_of_fmap. eauto 6.
Qed.

Lemma elem_of_users_http (logon_day : list LogonRow) (device_day : list DeviceRow)
    (http_day : list HttpRow) r :
  r ∈ http_day → h_user r ∈ users_of logon_day device_day http_day.
Proof.
  intros. unfold users_of.
  rewrite !elem_of_union, !elem_of_list_to_set, !list_elem_of_fmap. eauto 6.
Qed.

Lemma elem_of_pcs_logon (logon_day : list LogonRow) (device_day : list DeviceRow) r :
  r ∈ logon_day → l_pc r ∈ pcs_of logon_day device_day.
Proof.
  intros. unfold pcs_of.
  rewrite !elem_of_union, !elem_of_list_to_set, !list_elem_of_fmap. eauto 6.
Qed.

Lemma elem_of_pcs_device (logon_day : list LogonRow) (device_day : list DeviceRow) r :
  r ∈ device_day → d_pc r ∈ pcs_of logon_day device_day.
Proof.
  intros. unfold pcs_of.
  rewrite !elem_of_union, !elem_of_list_to_set, !list_elem_of_fmap. eauto 6.
Qed.

Lemma elem_of_domains_http (http_day : list HttpRow) r :
  r ∈ http_day → h_domain r ∈ domains_of http_day.
Proof.
  intros. unfold domains_of.
  rewrite !elem_of_list_to_set, !list_elem_of_fmap. eauto 6.
Qed.

(** The statistics count what is exported: one node per name of
    [node_id], and the edges that were not dropped. *)
Lemma visualization_stats self v :
  get_graph_data_for_visualization self = Py.Ok (Some v) →
  total_nodes (viz_stats v) = size (node_id self) ∧
  total_nodes (viz_stats v) = length (viz_nodes v) ∧
  total_edges (viz_stats v) = length (viz_edges v).
Proof.
  unfold get_graph_data_for_visualization.
  destruct (data self) as [d|]; [|done].
  destruct (foldl _ (mret []) (map_to_list (node_id self))) as [nodes|e] eqn:E;
    [|simpl; discriminate].
  simpl. intros [= <-]. simpl. split; [|done].
  apply viz_nodes_length in E. simpl in E. rewrite E. apply length_map_to_list.
Qed.

(** The exporter on a detector that holds the index maps of a build and a
    graph with the degrees and edges of that build. *)
Lemma visualization_of_build self d (logon_day : list LogonRow)
    (device_day : list DeviceRow) (http_day : list HttpRow) :
  let users := users_of logon_day device_day http_day in
  let pcs := pcs_of logon_day device_day in
  let domains := domains_of http_day in
  numbering users pcs domains (node_id self) (node_type self) →
  data self = Some d →
  length (data_x d) = (size users + size pcs + size domains)%nat →
  data_edge_index d = (edge_rows (node_id self) logon_day device_day http_day).*1 →
  users ## pcs → users ## domains → pcs ## domains →
  "" ∉ users ∪ pcs ∪ domains →
  ∃ v, get_graph_data_for_visualization self = Py.Ok (Some v) ∧
    total_nodes (viz_stats v) = num_nodes d ∧
    total_edges (viz_stats v) = num_edges d.
Proof.
  intros users pcs domains Hnum Hd Hx He H1 H2 H3 Hblank.
  unfold get_graph_data_for_visualization. rewrite Hd.
  destruct (viz_nodes_ok self d (map_to_list (node_id self)) []) as [nodes En].
  { intros name idx Hin%elem_of_map_to_list. split.
    - by eapply numbering_consistent.
    - rewrite Hx. by eapply numbering_bound. }
  change (@mret Py.result _ (list VizNode) []) with (@Py.Ok (list VizNode) []).
  rewrite En. simpl. eexists. split; [done|]. simpl. split.
  - apply viz_nodes_length in En. simpl in En. rewrite En, length_map_to_list.
    unfold num_nodes. rewrite Hx. by apply (numbering_size users pcs domains _ _ Hnum).
  - rewrite viz_edges_length; [done|].
    intros e Hin. rewrite He in Hin.
    apply list_elem_of_fmap in Hin as ([e' feat] & -> & Hin). simpl.
    assert (∃ a b, node_id self !! a = Some e'.1 ∧ node_id self !! b = Some e'.2 ∧
              a ≠ b ∧ a ≠ "" ∧ b ≠ "") as (a & b & Ha & Hb & Hab & Hae & Hbe).
    { unfold edge_rows in Hin.
      apply elem_of_app in Hin as [Hin|[Hin|Hin]%elem_of_app];
        apply elem_of_bind_edges in Hin as (r & Hr & Hs & Ht); simpl in Hs, Ht;
        eexists _, _; (split; [exact Hs|]); (split; [exact Ht|]).
      - apply (names_apart users pcs (users ∪ pcs ∪ domains));
          [done|done|intros x ?; rewrite !elem_of_union; tauto..| |].
        + by apply elem_of_users_logon.
        + by apply elem_of_pcs_logon.
      - apply (names_apart users pcs (users ∪ pcs ∪ domains));
          [done|done|intros x ?; rewrite !elem_of_union; tauto..| |].
        + by apply elem_of_users_device.
        + by apply elem_of_pcs_device.
      - apply (names_apart users domains (users ∪ pcs ∪ domains));
          [done|done|intros x ?; rewrite !elem_of_union; tauto..| |].
        + by apply elem_of_users_http.
        + by apply elem_of_domains_http. }
    exists a, b. split; [|done].
    apply endpoint_names_resolved; try done.
    + intros x y i. by apply (numbering_inj users pcs domains _ _ Hnum).
    + intros E. apply Hab. rewrite <- E in Hb.
      by apply (numbering_inj users pcs domains _ _ Hnum a b e'.1).
Qed.

(** C7, as the code has it.  For a graph built from a day on which no name
    is empty and no name is shared between users, devices and domains, the
    exporter, run after the build or after training, reports the node count
    and the edge count of the graph. *)
Theorem visualization_counts self logon device http day d self' epochs :
  build_graph self logon device http day = (Some d, self') →
  let logon_day := on_day l_day day logon in
  let device_day := on_day d_day day device in
  let http_day := on_day h_day day http in
  let users := users_of logon_day device_day http_day in
  let pcs := pcs_of logon_day device_day in
  let domains := domains_of http_day in
  users ## pcs → users ## domains → pcs ## domains →
  "" ∉ users ∪ pcs ∪ domains →
  ∃ v v',
    get_graph_data_for_visualization self' = Py.Ok (Some v) ∧
    get_graph_data_for_visualization (train_model self' epochs).2 = Py.Ok (Some v') ∧
    total_nodes (viz_stats v) = num_nodes d ∧
    total_edges (viz_stats v) = num_edges d ∧
    total_nodes (viz_stats v') = num_nodes d ∧
    total_edges (viz_stats v') = num_edges d.
Proof.
  intros E. intros logon_day device_day http_day users pcs domains H1 H2 H3 Hblank.
  destruct (build_graph_some_inv _ _ _ _ _ _ _ E)
    as (nid & nty & Hnum & -> & Hx & He & Hlab).
  fold logon_day device_day http_day in Hnum, Hx, He, Hlab.
  fold users pcs domains in Hnum, Hx, Hlab.
  assert (length (data_x d) = (size users + size pcs + size domains)%nat) as Hlx.
  { rewrite Hx. apply degree_features_length. }
  destruct (visualization_of_build (rebuilt self nid nty (Some d)) d
              logon_day device_day http_day) as (v & Ev & Hvn & Hve); try done.
  pose proof (train_model_data (rebuilt self nid nty (Some d)) epochs d eq_refl) as Ht.
  destruct (iter_fallback_frame (Z.to_nat epochs) d) as [Hfx Hfe].
  destruct (visualization_of_build (train_model (rebuilt self nid nty (Some d)) epochs).2
              (Nat.iter (Z.to_nat epochs) fallback d)
              logon_day device_day http_day) as (v' & Ev' & Hvn' & Hve'); try done.
  - destruct (train_model_frame (rebuilt self nid nty (Some d)) epochs d eq_refl)
      as (-> & -> & _). done.
  - by rewrite Hfx.
  - destruct (train_model_frame (rebuilt self nid nty (Some d)) epochs d eq_refl)
      as (-> & _). by rewrite Hfe, He.
  - exists v, v'. unfold num_nodes, num_edges in *. rewrite Hfx, Hfe in *. done.
Qed.

End ExporterClaims.

(** ** The pipeline on built graphs *)

Section Pipeline.

Context {GNN : Type} `{!Scorer GNN}.
Implicit Types (self : Detector GNN).

(** A built graph has one degree, one label and one mask bit per node, so
    the facts about the fallback apply to it. *)
Lemma build_graph_well_formed self logon device http day d self' :
  build_graph self logon device http day = (Some d, self') → well_formed d.
Proof.
  intros E.
  destruct (build_graph_some_inv _ _ _ _ _ _ _ E)
    as (nid & nty & Hnum & -> & Hx & He & Hlab).
  set (n := (size _ + size _ + size _)%nat) in *.
  destruct (labels_and_mask_spec n nid nty (malicious_users self))
    as (y & tm & E' & Hly & Hltm & _).
  rewrite Hlab in E'. injection E' as <- <-.
  unfold well_formed. rewrite Hx, degree_features_length. lia.
Qed.

(** After a build and training the predictor returns a ranking. *)
Lemma get_predictions_total self logon device http day d self' epochs top_k :
  build_graph self logon device http day = (Some d, self') →
  ∃ r, get_predictions (train_model self' epochs).2 top_k = Py.Ok r.
Proof.
  intros E.
  destruct (build_graph_some_inv _ _ _ _ _ _ _ E)
    as (nid & nty & Hnum & -> & Hx & He & Hlab).
  set (n := (size _ + size _ + size _)%nat) in *.
  set (built := rebuilt self nid nty (Some d)).
  destruct (train_model_frame built epochs d eq_refl) as (Hid & Hty & Hmu & m & Hm).
  pose proof (train_model_data built epochs d eq_refl) as Hd.
  destruct (iter_fallback_frame (Z.to_nat epochs) d) as [Hfx _].
  destruct (get_predictions_unfold (train_model built epochs).2 top_k m _ Hm Hd)
    as (boosted & _ & Er).
  - intros i Hi. rewrite Hty. simpl.
    apply (numbering_type_total _ _ _ _ _ Hnum).
    unfold num_nodes in Hi. rewrite Hfx, Hx, degree_features_length in Hi. done.
  - by eexists.
Qed.

End Pipeline.

(** * The properties on concrete days *)

Lemma build_graph_counts_witness :
  build_graph (knowing {["A"]}) scenario_logon [] scenario_http 7
  = (Some scenario_data, scenario_built) ∧
  num_nodes scenario_data = 5%nat ∧ num_edges scenario_data = 4%nat ∧
  data_edge_index scenario_data = [(1, 3); (2, 3); (1, 4); (0, 4)]%nat ∧
  (∀ a b i, node_id scenario_built !! a = Some i →
            node_id scenario_built !! b = Some i → a = b).
Proof.
  assert (build_graph (knowing {["A"]}) scenario_logon [] scenario_http 7
          = (Some scenario_data, scenario_built)) as E by (vm_compute; reflexivity).
  split; [exact E|].
  destruct (build_graph_counts (knowing {["A"]}) scenario_logon [] scenario_http 7
              scenario_data scenario_built E)
    as (Hn & _ & _ & _ & _ & Hinj & _ & _ & He & Hi).
  split; [rewrite Hn; vm_compute; reflexivity|].
  split; [rewrite He; vm_compute; reflexivity|].
  split; [rewrite Hi; vm_compute; reflexivity|exact Hinj].
Defined.

Lemma build_graph_labels_witness :
  ∃ l, data_y scenario_data !! 1%nat = Some l ∧ (l = 0 ∨ l = 1) ∧
    (l = 1 ↔ ∃ name, node_id scenario_built !! name = Some 1%nat
                     ∧ name ∈ malicious_users (knowing {["A"]})).
Proof.
  refine (build_graph_labels (knowing {["A"]}) scenario_logon [] scenario_http 7
            scenario_data scenario_built _ 1%nat _).
  - vm_compute. reflexivity.
  - vm_compute. lia.
Defined.

(** C2 refuted as stated: the device PC1 carries the name of a known
    malicious user and gets label 1 although it is not a user. *)
Lemma device_label_counterexample :
  ∃ d self',
    device_named_malicious = (Some d, self') ∧
    node_type self' !! 1%nat = Some PC ∧
    node_id self' !! "PC1" = Some 1%nat ∧
    "PC1" ∈ malicious_users self' ∧
    data_y d !! 1%nat = Some 1 ∧
    ¬ (data_y d !! 1%nat = Some 1 ↔
       node_type self' !! 1%nat = Some User ∧ "PC1" ∈ malicious_users self').
Proof.
  eexists _, _. split; [vm_compute; reflexivity|].
  split; [vm_compute; reflexivity|]. split; [vm_compute; reflexivity|].
  split; [vm_compute; reflexivity|]. split; [vm_compute; reflexivity|].
  intros [H _]. destruct (H ltac:(vm_compute; reflexivity)) as [Hu _].
  vm_compute in Hu. discriminate.
Qed.

Lemma fallback_injects_witness :
  masked_positives (fallback quiet_data) = 3%nat ∧
  data (train_model (GNN := unit) (rebuilt scenario_built ∅ ∅ (Some quiet_data)) 25).2
  = Some (fallback quiet_data).
Proof.
  destruct (fallback_injects (GNN := unit) quiet_data)
    as (top & _ & _ & _ & _ & _ & Hc & _ & Ht).
  - split; reflexivity.
  - reflexivity.
  - split; [rewrite Hc; reflexivity|]. apply Ht; [reflexivity|lia].
Defined.

Lemma fallback_at_most_once_witness :
  data_after 2 tt quiet_data = data_after 1 tt quiet_data ∧
  data_after 25 tt quiet_data = data_after 24 tt quiet_data ∧
  (0 < masked_positives (data_after 1 tt quiet_data))%nat.
Proof.
  destruct (fallback_at_most_once (GNN := unit) quiet_data tt) as (H & Hpos & _).
  - split; reflexivity.
  - split; [exact (H 0%nat)|]. split; [exact (H 23%nat)|].
    apply Hpos; [vm_compute; lia|reflexivity].
Defined.

Lemma scenario_types_total :
  ∀ i, (i < 5)%nat → is_Some (node_type scenario_built !! i).
Proof.
  intros i Hi. do 5 (destruct i as [|i]; [vm_compute; eauto|]). lia.
Defined.

Lemma boost_raises_witness :
  ∃ boosted,
    boost scenario_built (sigmoid <$> [0; 0; 0; 0; 0]%Q) 5 = Py.Ok boosted ∧
    length boosted = 5%nat.
Proof.
  destruct (boost_raises (GNN := unit) scenario_built [0; 0; 0; 0; 0]%Q 5)
    as (boosted & E & Hl & _).
  - exact scenario_types_total.
  - simpl. lia.
  - exists boosted. split; [exact E|exact Hl].
Defined.

(** C4 refuted as stated: the user with the empty name is of type user and
    known malicious, and its score stays at one half instead of becoming
    the clamped sum, which is 1. *)
Lemma blank_user_counterexample :
  node_type blank_user !! 0%nat = Some User ∧
  node_id blank_user !! "" = Some 0%nat ∧
  name_of (node_id blank_user) 0 = Some "" ∧
  "" ∈ malicious_users blank_user ∧
  boost blank_user [1 # 2; 1 # 2]%Q 2 = Py.Ok [1 # 2; 1 # 2]%Q ∧
  ¬ (1 # 2 == clamp ((1 # 2) + boost_amount) 0 1)%Q.
Proof.
  split; [vm_compute; reflexivity|]. split; [vm_compute; reflexivity|].
  split; [vm_compute; reflexivity|]. split; [vm_compute; reflexivity|].
  split; [vm_compute; reflexivity|]. vm_compute. discriminate.
Qed.

Lemma get_predictions_ranked_witness :
  ∃ r, get_predictions scenario_trained None = Py.Ok r ∧
    ∀ i a b, r !! i = Some a → r !! S i = Some b → (p_score b <= p_score a)%Q.
Proof.
  destruct (get_predictions_ranked (GNN := unit) scenario_trained None tt
              (set_y scenario_data [0; 1; 0; 0; 0]))
    as (boosted & ranked & r & _ & E & _ & _ & _ & _ & Hr & _).
  - vm_compute. reflexivity.
  - vm_compute. reflexivity.
  - exact scenario_types_total.
  - exists r. split; [exact E|exact Hr].
Defined.

(** C5 refuted as stated: with 51 users a call that gives no [top_k] returns
    50 entries, while [top_k = 100] returns all 51. *)
Lemma default_top_k_counterexample :
  (∃ r, get_predictions crowd None = Py.Ok r ∧ length r = 50%nat) ∧
  (∃ r, get_predictions crowd (Some 100) = Py.Ok r ∧ length r = 51%nat) ∧
  get_predictions crowd None ≠ get_predictions crowd (Some 100).
Proof.
  split; [|split].
  - eexists. split; [vm_compute; reflexivity|]. reflexivity.
  - eexists. split; [vm_compute; reflexivity|]. reflexivity.
  - vm_compute. discriminate.
Qed.

Lemma visualization_counts_witness :
  ∃ v, get_graph_data_for_visualization scenario_trained = Py.Ok (Some v) ∧
    total_nodes (viz_stats v) = 5%nat ∧ total_edges (viz_stats v) = 4%nat.
Proof.
  destruct (visualization_counts (GNN := unit) (knowing {["A"]}) scenario_logon []
              scenario_http 7 scenario_data scenario_built 25)
    as (v & v' & _ & E' & _ & _ & Hn & He).
  - vm_compute. reflexivity.
  - apply (bool_decide_unpack _). vm_compute. exact I.
  - apply (bool_decide_unpack _). vm_compute. exact I.
  - apply (bool_decide_unpack _). vm_compute. exact I.
  - apply (bool_decide_unpack _). vm_compute. exact I.
  - exists v'. split; [exact E'|]. split; [exact Hn|exact He].
Defined.

(** C7 refuted as stated: a user and a device share the name X; the graph
    has two nodes and one edge, the export one node and no edge. *)
Lemma name_clash_counterexample :
  ∃ d self' v,
    name_clash = (Some d, self') ∧
    get_graph_data_for_visualization self' = Py.Ok (Some v) ∧
    num_nodes d = 2%nat ∧ num_edges d = 1%nat ∧
    total_nodes (viz_stats v) = 1%nat ∧ total_edges (viz_stats v) = 0%nat.
Proof.
  eexists _, _, _. split; [vm_compute; reflexivity|].
  split; [vm_compute; reflexivity|]. repeat split.
Qed.



Lemma build_graph_failure_frame_witness :
  (build_graph scenario_built scenario_logon [] scenario_http 99).1 = None ∧
  data (build_graph scenario_built scenario_logon [] scenario_http 99).2
  = Some scenario_data ∧
  node_id scenario_built !! "A" = Some 1%nat ∧
  node_id (build_graph scenario_built scenario_logon [] scenario_http 99).2 !! "A" = None.
Proof.
  destruct (build_graph_failure_frame scenario_built scenario_logon [] scenario_http 99)
    as (Hnone & Hd & _ & _ & _ & Hmaps).
  - vm_compute. reflexivity.
  - split; [exact Hnone|]. split; [rewrite Hd; vm_compute; reflexivity|].
    split; [vm_compute; reflexivity|].
    apply (f_equal fst) in Hmaps. cbn [fst] in Hmaps. rewrite Hmaps.
    vm_compute. reflexivity.
Defined.

(** * Further properties of the pipeline

    ** The tensors of a built graph *)

Section BuilderTensors.

Context {GNN : Type}.
Implicit Types (self : Detector GNN) (nid : gmap string nat) (nty : gmap nat kind).

Lemma degree_fold_lookup (edges : list (nat * nat)) (x0 : list Z) i :
  foldl (λ x '(s, t), alter Z.succ t (alter Z.succ s x)) x0 edges !! i
  = (λ v, v + endpoint_count i edges) <$> x0 !! i.
Proof.
  revert x0. induction edges as [|[s t] edges IH]; intros x0.
  - simpl. unfold endpoint_count. simpl. destruct (x0 !! i); simpl; f_equal; lia.
  - cbn [foldl]. rewrite IH. rewrite !list_lookup_alter.
    unfold endpoint_count. rewrite !filter_cons. simpl.
    destruct (x0 !! i) as [v|] eqn:Ev;
      repeat case_decide; subst; rewrite ?Ev; simpl; try done; f_equal; lia.
Qed.

Lemma Zsum_alter_succ (l : list Z) j :
  (j < length l)%nat → Zsum (alter Z.succ j l) = Zsum l + 1.
Proof.
  revert j. induction l as [|v l IH]; intros j Hj; simpl in Hj; [lia|].
  destruct j as [|j].
  - unfold Zsum. simpl. lia.
  - pose proof (IH j ltac:(lia)) as H. unfold Zsum in *. simpl in *.
    change (list_alter Z.succ j l) with (alter Z.succ j l). lia.
Qed.

Lemma Zsum_replicate_0 n : Zsum (replicate n 0) = 0.
Proof. induction n as [|n IH]; [done|]. simpl. exact IH. Qed.

Lemma degree_fold_sum (edges : list (nat * nat)) (x0 : list Z) :
  (∀ e, e ∈ edges → (e.1 < length x0)%nat ∧ (e.2 < length x0)%nat) →
  Zsum (foldl (λ x '(s, t), alter Z.succ t (alter Z.succ s x)) x0 edges)
  = Zsum x0 + 2 * Z.of_nat (length edges).
Proof.
  revert x0. induction edges as [|[s t] edges IH]; intros x0 Hin.
  - simpl. lia.
  - cbn [foldl]. rewrite IH.
    + destruct (Hin (s, t) ltac:(left)) as [Hs Ht]. simpl in Hs, Ht.
      rewrite !Zsum_alter_succ by (rewrite ?length_alter; done).
      simpl length. lia.
    + intros e He. rewrite !length_alter. apply Hin. by right.
Qed.

(** The ends of every edge of a numbering are indices below the node count. *)
Lemma edge_rows_bound (users pcs domains : gset string) nid nty
    (logon_day : list LogonRow) (device_day : list DeviceRow)
    (http_day : list HttpRow) e :
  numbering users pcs domains nid nty →
  e ∈ (edge_rows nid logon_day device_day http_day).*1 →
  (e.1 < size users + size pcs + size domains)%nat ∧
  (e.2 < size users + size pcs + size domains)%nat.
Proof.
  intros Hnum ([e' feat] & -> & Hin)%list_elem_of_fmap. simpl.
  unfold edge_rows in Hin.
  apply elem_of_app in Hin as [Hin|[Hin|Hin]%elem_of_app];
    apply elem_of_bind_edges in Hin as (r & Hr & Hs & Ht); simpl in Hs, Ht;
    split; by eapply numbering_bound.
Qed.

(** X1. In a built graph the degree feature of every node is the number of
    edge ends that reference it, as source or as target, and the degrees add
    up to twice the number of edges. *)
Theorem build_graph_degrees self logon device http day d self' :
  build_graph self logon device http day = (Some d, self') →
  (∀ i, (i < num_nodes d)%nat →
        data_x d !! i = Some (endpoint_count i (data_edge_index d))) ∧
  Zsum (data_x d) = 2 * Z.of_nat (num_edges d).
Proof.
  intros E.
  destruct (build_graph_some_inv _ _ _ _ _ _ _ E)
    as (nid & nty & Hnum & -> & Hx & He & Hlab).
  set (n := (size _ + size _ + size _)%nat) in *.
  assert (num_nodes d = n) as Hn.
  { unfold num_nodes. rewrite Hx. apply degree_features_length. }
  split.
  - intros i Hi. rewrite Hx at 1. unfold degree_features.
    rewrite degree_fold_lookup, lookup_replicate_2 by lia. simpl. done.
  - rewrite Hx. unfold degree_features, num_edges.
    rewrite degree_fold_sum, Zsum_replicate_0; [lia|].
    intros e Hin. rewrite length_replicate. rewrite He in Hin.
    by eapply edge_rows_bound.
Qed.

Lemma bind_edges_features {R} nid (src tgt : R → string) (feat : R → list Z)
    (rows : list R) :
  (∀ r, r ∈ rows → resolved nid (src r) (tgt r)) →
  (rows ≫= (λ r, edge_of nid (src r) (tgt r) (feat r))).*2 = feat <$> rows.
Proof.
  induction rows as [|r rows IH]; intros Hall; [done|].
  rewrite bind_cons, fmap_app, IH by (intros; apply Hall; by right).
  destruct (Hall r ltac:(left)) as [[s Hs] [t Ht]].
  by rewrite (edge_of_resolved _ _ _ _ _ _ Hs Ht).
Qed.

(** X3. The feature tensor of a built graph has one row of five channels
    per edge, in the order of the edges: a logon row fills the first two
    channels, a device row the next two, an http row the last one, and all
    other channels are zero. *)
Theorem build_graph_edge_attr self logon device http day d self' :
  build_graph self logon device http day = (Some d, self') →
  data_edge_attr d
  = ((λ r, [l_logon r; l_logoff r; 0; 0; 0]) <$> on_day l_day day logon)
      ++ ((λ r, [0; 0; d_connect r; d_disconnect r; 0]) <$> on_day d_day day device)
      ++ ((λ r, [0; 0; 0; 0; h_request_count r]) <$> on_day h_day day http) ∧
  length (data_edge_attr d) = num_edges d ∧
  ∀ feat, feat ∈ data_edge_attr d → length feat = 5%nat.
Proof.
  intros E.
  destruct (build_graph_inv self logon device http day)
    as (nid & nty & y & tm & Hnum & Hlab & Hb).
  rewrite E in Hb.
  destruct (edge_rows_all _ _ _ _ _ Hnum) as (Hl & Hd & Hh).
  assert ((edge_rows nid (on_day l_day day logon) (on_day d_day day device)
             (on_day h_day day http)).*2
          = ((λ r, [l_logon r; l_logoff r; 0; 0; 0]) <$> on_day l_day day logon)
              ++ ((λ r, [0; 0; d_connect r; d_disconnect r; 0]) <$> on_day d_day day device)
              ++ ((λ r, [0; 0; 0; 0; h_request_count r]) <$> on_day h_day day http))
    as Hattr.
  { unfold edge_rows, logon_edges, device_edges, http_edges.
    rewrite !fmap_app. by rewrite !bind_edges_features. }
  assert (data_edge_attr d
          = (edge_rows nid (on_day l_day day logon) (on_day d_day day device)
               (on_day h_day day http)).*2 ∧
          data_edge_index d
          = (edge_rows nid (on_day l_day day logon) (on_day d_day day device)
               (on_day h_day day http)).*1) as [Ha Hi].
  { destruct (edge_rows nid _ _ _) as [|e rows]; [done|].
    cbv zeta in Hb. by injection Hb as -> _. }
  rewrite Ha, Hattr. split; [done|]. split.
  - unfold num_edges. rewrite Hi, <- Hattr. by rewrite !length_fmap.
  - intros feat.
    rewrite !elem_of_app, !list_elem_of_fmap.
    intros [(r & -> & _)|[(r & -> & _)|(r & -> & _)]]; done.
Qed.

End BuilderTensors.

Section BuilderGroups.

Context {GNN : Type}.
Implicit Types (self : Detector GNN) (nid : gmap string nat) (nty : gmap nat kind).

Context (users pcs domains : gset string) nid nty
        (Hnum : numbering users pcs domains nid nty).

(** A name that is only a user name has an index in the user range, and
    every index of that range belongs to such a name when users share no
    name with the other groups. *)
Lemma numbering_user_range name i :
  name ∉ pcs → name ∉ domains → nid !! name = Some i → (i < size users)%nat.
Proof.
  intros HP HD [(p & Hp & _)|[(_ & p & Hp & _)|(_ & _ & Hp)]]%(proj2 Hnum).
  - apply list_elem_of_lookup_2, elem_of_elements in Hp. done.
  - apply list_elem_of_lookup_2, elem_of_elements in Hp. done.
  - by apply lookup_lt_Some in Hp.
Qed.

Lemma numbering_other_range name i :
  name ∈ pcs ∪ domains → nid !! name = Some i → (size users ≤ i)%nat.
Proof.
  intros Hin [(p & Hp & ->)|[(_ & p & Hp & ->)|(HD & HP & _)]]%(proj2 Hnum);
    [lia|lia|]. apply elem_of_union in Hin as [?|?]; done.
Qed.

Lemma numbering_user_named i :
  users ## pcs → users ## domains → (i < size users)%nat →
  ∃ name, nid !! name = Some i ∧ name ∈ users.
Proof.
  intros H1 H2 Hi.
  destruct (lookup_lt_is_Some_2 (elements users) i Hi) as [name Hname].
  assert (name ∈ users) as HU by (eapply elem_of_elements, list_elem_of_lookup_2, Hname).
  exists name. split; [|done]. apply (proj2 Hnum). right; right.
  split; [|split; [|done]]; intros ?; [by apply (H2 name)|by apply (H1 name)].
Qed.

End BuilderGroups.

Section BuilderMask.

Context {GNN : Type}.
Implicit Types (self : Detector GNN) (nid : gmap string nat) (nty : gmap nat kind).

Lemma filter_below_length (u n : nat) :
  length (filter (λ i, i < u)%nat (seq 0 n)) = Nat.min u n.
Proof.
  induction n as [|n IH]; [simpl; lia|].
  rewrite seq_S, filter_app, length_app, IH. simpl.
  rewrite filter_cons, filter_nil. case_decide; simpl; lia.
Qed.

Lemma mask_count (mask : list bool) (u : nat) :
  (u ≤ length mask)%nat →
  (∀ i, (i < length mask)%nat → mask !! i = Some (bool_decide (i < u)%nat)) →
  length (filter (λ b, b = true) mask) = u.
Proof.
  intros Hu Hmask. rewrite <- masked_indices_length.
  rewrite (filter_ext_in _ (λ i, i < u)%nat).
  - rewrite filter_below_length. lia.
  - intros i Hi%elem_of_seq. rewrite Hmask by lia.
    split; [intros [= ?%bool_decide_eq_true]; done|].
    intros ?. by rewrite bool_decide_eq_true_2.
Qed.

(** The training mask when no user name is a device or domain name. *)
Lemma train_mask_users (users pcs domains : gset string) nid nty
    (malicious : gset string) (y : list Z) (tm : list bool) :
  numbering users pcs domains nid nty →
  labels_and_mask (size users + size pcs + size domains) nid nty malicious = (y, tm) →
  users ## pcs → users ## domains →
  (∀ i, (i < size users + size pcs + size domains)%nat →
     tm !! i = Some (bool_decide (i < size users)%nat)) ∧
  length (filter (λ b, b = true) tm) = size users.
Proof.
  intros Hnum Hlab H1 H2.
  set (n := (size users + size pcs + size domains)%nat) in *.
  destruct (labels_and_mask_spec n nid nty malicious)
    as (y' & tm' & E' & _ & Hltm & _ & _ & Ht1 & Ht0).
  rewrite Hlab in E'. injection E' as <- <-.
  assert (∀ i, (i < n)%nat →
     ∃ b, tm !! i = Some b ∧
       (b = true ↔ nty !! i = Some User ∧ ∃ name, nid !! name = Some i)) as Hmask.
  { intros i Hi.
    destruct (decide (nty !! i = Some User)) as [Hu|Hu].
    - destruct (named_dec (map_to_list nid) i) as [(name & Hin)|Hno].
      + apply elem_of_map_to_list in Hin. exists true.
        split; [apply Ht1; eauto|]. split; eauto.
      + exists false. split.
        * apply Ht0; [done|]. intros (_ & name & Hin). apply Hno. exists name.
          by apply elem_of_map_to_list.
        * split; [done|]. intros (_ & name & Hin). destruct Hno. exists name.
          by apply elem_of_map_to_list.
    - exists false. split; [apply Ht0; [done|tauto]|]. split; [done|tauto]. }
  assert (∀ i, (i < n)%nat → tm !! i = Some (bool_decide (i < size users)%nat))
    as Hrange.
  { intros i Hi. destruct (Hmask i Hi) as (b & -> & Hb). f_equal.
    case_bool_decide as Hlt.
    - apply Hb. split.
      + rewrite (proj1 Hnum). by rewrite bool_decide_eq_true_2.
      + destruct (numbering_user_named users pcs domains nid nty Hnum i H1 H2 Hlt)
          as (name & ? & _). eauto.
    - destruct b; [|done]. destruct Hb as [Hb _]. destruct (Hb eq_refl) as [Hty _].
      rewrite (proj1 Hnum), bool_decide_eq_false_2 in Hty by done.
      repeat case_bool_decide; done. }
  split; [exact Hrange|].
  apply mask_count.
  - rewrite Hltm. unfold n. lia.
  - intros i Hi. apply Hrange. lia.
Qed.

(** X2. In a built graph the training mask of a node is set exactly when the
    node is of type user and some name is mapped to it.  When no user name
    is also a device or domain name, these are the first [|users|] nodes,
    and the number of training nodes is the number of users of the day. *)
Theorem build_graph_train_mask self logon device http day d self' :
  build_graph self logon device http day = (Some d, self') →
  let logon_day := on_day l_day day logon in
  let device_day := on_day d_day day device in
  let http_day := on_day h_day day http in
  let users := users_of logon_day device_day http_day in
  let pcs := pcs_of logon_day device_day in
  let domains := domains_of http_day in
  (∀ i, (i < num_nodes d)%nat →
     ∃ b, data_train_mask d !! i = Some b ∧
       (b = true ↔ node_type self' !! i = Some User
                   ∧ ∃ name, node_id self' !! name = Some i)) ∧
  (users ## pcs → users ## domains →
     (∀ i, (i < num_nodes d)%nat →
        data_train_mask d !! i = Some (bool_decide (i < size users)%nat)) ∧
     train_nodes d = size users).
Proof.
  intros E. intros.
  destruct (build_graph_some_inv _ _ _ _ _ _ _ E)
    as (nid & nty & Hnum & -> & Hx & He & Hlab).
  fold logon_day device_day http_day in Hnum, Hx, He, Hlab.
  fold users pcs domains in Hnum, Hx, Hlab.
  set (n := (size users + size pcs + size domains)%nat) in *.
  assert (num_nodes d = n) as Hn.
  { unfold num_nodes. rewrite Hx. apply degree_features_length. }
  destruct (labels_and_mask_spec n nid nty (malicious_users self))
    as (y & tm & E' & _ & Hltm & _ & _ & Ht1 & Ht0).
  rewrite Hlab in E'. injection E' as <- <-. simpl node_type. simpl node_id.
  assert (∀ i, (i < n)%nat →
     ∃ b, data_train_mask d !! i = Some b ∧
       (b = true ↔ nty !! i = Some User ∧ ∃ name, nid !! name = Some i)) as Hmask.
  { intros i Hi.
    destruct (decide (nty !! i = Some User)) as [Hu|Hu].
    - destruct (named_dec (map_to_list nid) i) as [(name & Hin)|Hno].
      + apply elem_of_map_to_list in Hin. exists true.
        split; [apply Ht1; eauto|]. split; eauto.
      + exists false. split.
        * apply Ht0; [done|]. intros (_ & name & Hin). apply Hno. exists name.
          by apply elem_of_map_to_list.
        * split; [done|]. intros (_ & name & Hin). destruct Hno. exists name.
          by apply elem_of_map_to_list.
    - exists false. split; [apply Ht0; [done|tauto]|]. split; [done|tauto]. }
  split; [intros i Hi; apply Hmask; lia|].
  intros H1 H2.
  destruct (train_mask_users users pcs domains nid nty (malicious_users self)
              (data_y d) (data_train_mask d) Hnum Hlab H1 H2) as [Hrange Hcount].
  split; [intros i Hi; apply Hrange; fold n; lia|exact Hcount].
Qed.

(** X4. Both ends of every edge of a built graph are node indices of the
    graph.  When no user name is also a device or domain name, every edge
    leads from a user node to a device or domain node. *)
Theorem build_graph_edge_ends self logon device http day d self' :
  build_graph self logon device http day = (Some d, self') →
  let logon_day := on_day l_day day logon in
  let device_day := on_day d_day day device in
  let http_day := on_day h_day day http in
  let users := users_of logon_day device_day http_day in
  let pcs := pcs_of logon_day device_day in
  let domains := domains_of http_day in
  ∀ e, e ∈ data_edge_index d →
    (e.1 < num_nodes d)%nat ∧ (e.2 < num_nodes d)%nat ∧
    (users ## pcs → users ## domains →
       node_type self' !! e.1 = Some User ∧
       (node_type self' !! e.2 = Some PC ∨ node_type self' !! e.2 = Some Domain)).
Proof.
  intros E. intros logon_day device_day http_day users pcs domains e Hin.
  destruct (build_graph_some_inv _ _ _ _ _ _ _ E)
    as (nid & nty & Hnum & -> & Hx & He & Hlab).
  fold logon_day device_day http_day in Hnum, Hx, He, Hlab.
  fold users pcs domains in Hnum, Hx, Hlab.
  assert (num_nodes d = (size users + size pcs + size domains)%nat) as Hn.
  { unfold num_nodes. rewrite Hx. apply degree_features_length. }
  rewrite He in Hin.
  destruct (edge_rows_bound _ _ _ _ _ _ _ _ _ Hnum Hin) as [Hb1 Hb2].
  split; [lia|]. split; [lia|]. intros H1 H2. simpl node_type.
  apply list_elem_of_fmap in Hin as ([e' feat] & -> & Hin). simpl in *.
  assert (∃ a b, nid !! a = Some e'.1 ∧ nid !! b = Some e'.2 ∧
            a ∈ users ∧ b ∈ pcs ∪ domains) as (a & b & Ha & Hb & HaU & HbO).
  { unfold edge_rows in Hin.
    apply elem_of_app in Hin as [Hin|[Hin|Hin]%elem_of_app];
      apply elem_of_bind_edges in Hin as (r & Hr & Hs & Ht); simpl in Hs, Ht;
      eexists _, _; (split; [exact Hs|]); (split; [exact Ht|]).
    - split; [by apply elem_of_users_logon|].
      apply elem_of_union; left. by apply elem_of_pcs_logon.
    - split; [by apply elem_of_users_device|].
      apply elem_of_union; left. by apply elem_of_pcs_device.
    - split; [by apply elem_of_users_http|].
      apply elem_of_union; right. by apply elem_of_domains_http. }
  assert (e'.1 < size users)%nat as Hlt.
  { eapply (numbering_user_range users pcs domains nid nty Hnum a);
      [intros ?; by apply (H1 a)|intros ?; by apply (H2 a)|done]. }
  pose proof (numbering_other_range users pcs domains nid nty Hnum b _ HbO Hb) as Hge.
  rewrite !(proj1 Hnum). split.
  - by rewrite bool_decide_eq_true_2.
  - rewrite (bool_decide_eq_false_2 (e'.2 < size users)%nat) by lia.
    case_bool_decide; [by left|]. right. by rewrite bool_decide_eq_true_2 by lia.
Qed.

End BuilderMask.

(** ** Training *)

Section TrainerMore.

Context {GNN : Type} `{!Scorer GNN}.
Implicit Types (d : Data) (m : GNN) (self : Detector GNN).

Lemma iter_train_epoch_losses k m d losses :
  length (Nat.iter k train_epoch (m, d, losses)).2 = (length losses + k)%nat.
Proof.
  induction k as [|k IH]; [simpl; lia|]. simpl.
  destruct (Nat.iter k train_epoch (m, d, losses)) as [[m' d'] losses'].
  simpl in IH. unfold train_epoch. destruct (optimizer_step _ _ _) as [m'' loss].
  simpl. rewrite length_app, IH. simpl. lia.
Qed.

Lemma fallback_mask d : data_train_mask (fallback d) = data_train_mask d.
Proof. unfold fallback. by repeat case_bool_decide. Qed.

Lemma iter_fallback_mask k d :
  data_train_mask (Nat.iter k fallback d) = data_train_mask d.
Proof. induction k as [|k IH]; [done|]. simpl. by rewrite fallback_mask. Qed.

(** X5. [train_model] without a graph raises its ValueError and leaves the
    detector as it was.  With a graph it returns one loss per epoch (none
    for a non-positive epoch count), stores a model, and changes nothing of
    the detector but the model and the labels of the graph.  A graph of
    exactly one node is set aside: the network squeezes its output, which is
    then a scalar that the loss cannot index; no built graph is that small
    (lemma [build_graph_size]). *)
Theorem train_model_result self epochs :
  (data self = None →
     train_model self epochs
     = (Py.Raise (Py.ValueError "Graph data not available. Build graph first."), self)) ∧
  (∀ d, data self = Some d → num_nodes d ≠ 1%nat →
     ∃ losses m d',
       train_model self epochs
       = (Py.Ok losses,
          {| model := Some m; data := Some d'; node_id := node_id self;
             node_type := node_type self; malicious_users := malicious_users self;
             malicious_days := malicious_days self |}) ∧
       length losses = Z.to_nat epochs ∧
       data_x d' = data_x d ∧ data_edge_index d' = data_edge_index d ∧
       data_edge_attr d' = data_edge_attr d ∧
       data_train_mask d' = data_train_mask d ∧
       length (data_y d') = length (data_y d)).
Proof.
  split.
  - intros E. unfold train_model. by rewrite E.
  - intros d E _. unfold train_model. rewrite E.
    pose proof (iter_train_epoch_data (Z.to_nat epochs) create_gnn_model d []) as Hd.
    pose proof (iter_train_epoch_losses (Z.to_nat epochs) create_gnn_model d []) as Hl.
    destruct (Nat.iter (Z.to_nat epochs) train_epoch _) as [[m' d'] losses'].
    simpl in Hd, Hl. exists losses', m', d'. split; [done|]. split; [done|].
    subst d'. destruct (iter_fallback_frame (Z.to_nat epochs) d) as [-> ->].
    rewrite iter_fallback_mask. split; [done|]. split; [done|].
    split; [|split; [done|]].
    + clear. induction (Z.to_nat epochs) as [|k IH]; [done|]. simpl.
      rewrite <- IH. unfold fallback. by repeat case_bool_decide.
    + clear. induction (Z.to_nat epochs) as [|k IH]; [done|]. simpl.
      rewrite <- IH. unfold fallback. repeat case_bool_decide; try done.
      simpl. apply set_ones_length.
Qed.

Lemma iter_fallback_idle k d :
  masked_positives d ≠ 0%nat → Nat.iter k fallback d = d.
Proof.
  intros H. induction k as [|k IH]; [done|]. simpl. rewrite IH.
  by apply fallback_idle.
Qed.

(** X6. When a known malicious user is active on the day under a name that
    no device or domain shares, the built graph has a masked positive, the
    fallback never fires, and training returns the graph with the labels of
    the ground truth. *)
Theorem known_positive_keeps_labels self logon device http day d self' name epochs :
  build_graph self logon device http day = (Some d, self') →
  let logon_day := on_day l_day day logon in
  let device_day := on_day d_day day device in
  let http_day := on_day h_day day http in
  name ∈ users_of logon_day device_day http_day →
  name ∉ pcs_of logon_day device_day → name ∉ domains_of http_day →
  name ∈ malicious_users self →
  (0 < masked_positives d)%nat ∧ data (train_model self' epochs).2 = Some d.
Proof.
  intros E. intros logon_day device_day http_day HU HP HD Hm.
  destruct (build_graph_some_inv _ _ _ _ _ _ _ E)
    as (nid & nty & Hnum & -> & Hx & He & Hlab).
  fold logon_day device_day http_day in Hnum, Hx, He, Hlab.
  set (users := users_of logon_day device_day http_day) in *.
  set (pcs := pcs_of logon_day device_day) in *.
  set (domains := domains_of http_day) in *.
  set (n := (size users + size pcs + size domains)%nat) in *.
  destruct (labels_and_mask_spec n nid nty (malicious_users self))
    as (y & tm & E' & _ & _ & Hy1 & _ & Ht1 & _).
  rewrite Hlab in E'. injection E' as <- <-.
  destruct (proj2 (numbering_dom users pcs domains nid nty Hnum name)) as [i Hi].
  { apply elem_of_union; left. by apply elem_of_union; left. }
  pose proof (numbering_user_range users pcs domains nid nty Hnum name i HP HD Hi) as Hlt.
  assert (nty !! i = Some User) as Hty.
  { rewrite (proj1 Hnum). by rewrite bool_decide_eq_true_2. }
  assert (masked_positives d ≠ 0%nat) as Hpos.
  { intros Hz. eapply (mp_zero _ _ i Hz).
    - apply Ht1; [unfold n; lia|done|eauto].
    - apply Hy1; [unfold n; lia|eauto]. }
  split; [lia|].
  rewrite (train_model_data (rebuilt self nid nty (Some d)) epochs d eq_refl).
  by rewrite iter_fallback_idle.
Qed.

End TrainerMore.

(** ** Prediction *)

Section PredictorMore.

Context {GNN : Type} `{!Scorer GNN}.
Implicit Types (self : Detector GNN) (scores : list Q).

Lemma strongly_sorted_lookup {A} (R : A → A → Prop) (l : list A) a b x y :
  StronglySorted R l → l !! a = Some x → l !! b = Some y → (a < b)%nat → R x y.
Proof.
  intros S. revert a b. induction S as [|c l S IH Hc]; intros a b Ha Hb Hab; [done|].
  destruct b as [|b]; [lia|]. destruct a as [|a]; simpl in *.
  - injection Ha as ->. eapply Forall_forall in Hc; [done|].
    by eapply list_elem_of_lookup_2.
  - eapply IH; [done..|lia].
Qed.

Lemma name_of_complete (nid : gmap string nat) i name :
  nid !! name = Some i → ∃ name', name_of nid i = Some name'.
Proof.
  intros Hi. unfold name_of.
  destruct (find _ _) as [[nm j]|] eqn:E; [by eexists|]. exfalso.
  eapply find_none in E; [|apply list_elem_of_In, elem_of_map_to_list, Hi].
  simpl in E. by rewrite bool_decide_eq_true_2 in E.
Qed.

(** The reverse scan returns one name per index. *)
Lemma name_of_inj (nid : gmap string nat) i j name :
  name_of nid i = Some name → name_of nid j = Some name → i = j.
Proof. intros Hi%name_of_lookup Hj%name_of_lookup. congruence. Qed.

Lemma entry_of_listed self scores i :
  (i < length scores)%nat →
  is_Some (entry_of self scores i) ↔ is_listed self i = true.
Proof.
  intros Hi. destruct (lookup_lt_is_Some_2 scores i Hi) as [s Hs].
  unfold entry_of, is_listed. rewrite Hs.
  destruct (node_type self !! i) as [[]|]; try (split; [by intros [? ?]|done]).
  destruct (name_of _ _) as [nm|]; [|split; [by intros [? ?]|done]].
  destruct (Py.truthy nm); split; try done; by intros [? ?].
Qed.

Lemma omap_length_filter {A B} (f : A → option B) (l : list A) :
  length (omap f l) = length (filter (λ x, is_Some (f x)) l).
Proof.
  induction l as [|a l IH]; [done|]. rewrite filter_cons.
  change (omap f (a :: l))
    with (match f a with Some y => y :: omap f l | None => omap f l end).
  destruct (f a) eqn:E; case_decide as H; simpl; rewrite ?IH; try done.
  destruct H. by eexists.
Qed.

Lemma clamp_boost_floor (s : Q) :
  (0 <= s)%Q → (8 # 10 <= clamp (s + boost_amount) 0 1)%Q.
Proof.
  intros Hs. unfold clamp, boost_amount.
  destruct (Qle_bool 0 (s + (8 # 10))) eqn:E0;
    [apply Qle_bool_iff in E0|apply Qle_bool_false in E0].
  - destruct (Qle_bool (s + (8 # 10)) 1) eqn:E1; [apply Qle_bool_iff in E1|]; lra.
  - destruct (Qle_bool 0 1) eqn:E1; lra.
Qed.

(** The ranking before the cut, with the facts about the boosted scores. *)
Lemma ranking_facts self top_k m d :
  model self = Some m → data self = Some d →
  (∀ i, (i < num_nodes d)%nat → is_Some (node_type self !! i)) →
  ∃ boosted ranked,
    get_predictions self top_k
    = Py.Ok (Py.slice_to (default default_top_k top_k) ranked) ∧
    length boosted = num_nodes d ∧
    ranked ≡ₚ omap (entry_of self boosted) (seq 0 (num_nodes d)) ∧
    StronglySorted (λ a b, by_score_desc a b = true) ranked ∧
    (∀ i s, boosted !! i = Some s → (0 <= s <= 1)%Q) ∧
    (∀ i s, boosted !! i = Some s → is_boosted self i = true → (8 # 10 <= s)%Q).
Proof.
  intros Hm Hd Hty.
  destruct (get_predictions_unfold self top_k m d Hm Hd Hty) as (boosted & Eb & Ep).
  set (scores := sigmoid <$> forward m (data_x d) (data_edge_index d)) in *.
  assert (length scores = num_nodes d) as Hls.
  { unfold scores, num_nodes. by rewrite length_fmap, forward_length. }
  destruct (boost_ok self scores (num_nodes d) Hty ltac:(lia)) as (b' & Eb' & Hlb & Hb).
  rewrite Eb in Eb'. injection Eb' as <-.
  assert (∀ i s, scores !! i = Some s → (0 <= s <= 1)%Q) as Hrange.
  { intros i s Hs. unfold scores in Hs. rewrite list_lookup_fmap in Hs.
    destruct (forward _ _ _ !! i); [|done]. injection Hs as <-. apply sigmoid_range. }
  eexists boosted, _. split; [exact Ep|]. split; [lia|].
  split; [apply sort_perm|]. split.
  { apply sort_sorted; [apply by_score_desc_total|apply by_score_desc_trans]. }
  split.
  - intros i s. rewrite Hb.
    destruct (scores !! i) as [s0|] eqn:Es; [|by destruct (_ && _)].
    pose proof (Hrange i s0 Es).
    destruct (_ && _); simpl; intros [= <-]; [apply clamp_range|done].
  - intros i s. rewrite Hb. intros Hs Hbo. rewrite Hbo, andb_true_r in Hs.
    destruct (scores !! i) as [s0|] eqn:Es; [|by case_bool_decide].
    pose proof (Hrange i s0 Es).
    case_bool_decide as Hi.
    + simpl in Hs. injection Hs as <-. apply clamp_boost_floor. lra.
    + apply lookup_lt_Some in Es. lia.
Qed.

Lemma entry_of_inv self scores i e :
  entry_of self scores i = Some e →
  node_type self !! i = Some User ∧ name_of (node_id self) i = Some (p_user e) ∧
  scores !! i = Some (p_score e) ∧
  (p_is_known_malicious e = true → is_boosted self i = true).
Proof.
  unfold entry_of, is_boosted.
  destruct (node_type self !! i) as [[]|]; try done.
  destruct (name_of _ _) as [nm|]; [|done].
  destruct (scores !! i) as [s|]; [|done].
  destruct (Py.truthy nm) eqn:Et; [|done]. intros [= <-]. simpl.
  repeat split. intros ->. done.
Qed.

(** X7. On a trained detector whose node types cover the graph, every
    returned score lies in [0,1], every entry flagged as known malicious has
    a score of at least 0.8, and such an entry stands in front of every
    entry whose score is below 0.8.  (Here and below a graph of exactly one
    node is set aside, because the network's squeezed output is then a
    scalar that cannot be indexed.) *)
Theorem known_malicious_rank_high self top_k m d :
  model self = Some m → data self = Some d → num_nodes d ≠ 1%nat →
  (∀ i, (i < num_nodes d)%nat → is_Some (node_type self !! i)) →
  ∃ r, get_predictions self top_k = Py.Ok r ∧
    (∀ e, e ∈ r → (0 <= p_score e <= 1)%Q) ∧
    (∀ e, e ∈ r → p_is_known_malicious e = true → (8 # 10 <= p_score e)%Q) ∧
    (∀ i j e u, r !! i = Some e → r !! j = Some u →
       p_is_known_malicious e = true → (p_score u < 8 # 10)%Q → (i < j)%nat).
Proof.
  intros Hm Hd _ Hty.
  destruct (ranking_facts self top_k m d Hm Hd Hty)
    as (boosted & ranked & E & Hlb & Hperm & Hsorted & Hrange & Hfloor).
  eexists. split; [exact E|].
  destruct (slice_to_take (default default_top_k top_k) ranked) as [c ->].
  assert (∀ e, e ∈ ranked → ∃ i, entry_of self boosted i = Some e) as Hent.
  { intros e He. rewrite Hperm in He.
    apply list_elem_of_omap in He as (i & _ & He). eauto. }
  assert (∀ e, e ∈ ranked → (0 <= p_score e <= 1)%Q) as H01.
  { intros e (i & (_ & _ & Hs & _)%entry_of_inv)%Hent. by eapply Hrange. }
  assert (∀ e, e ∈ ranked → p_is_known_malicious e = true → (8 # 10 <= p_score e)%Q)
    as H08.
  { intros e (i & (_ & _ & Hs & Hb)%entry_of_inv)%Hent Hk. eapply Hfloor; eauto. }
  assert (∀ e, e ∈ take c ranked → e ∈ ranked) as Hsub.
  { intros e He. rewrite <- (take_drop c ranked). apply elem_of_app. by left. }
  split; [intros e He; by apply H01, Hsub|].
  split; [intros e He; by apply H08, Hsub|].
  intros i j e u [Hi _]%lookup_take_Some [Hj _]%lookup_take_Some Hk Hu.
  pose proof (H08 e (list_elem_of_lookup_2 _ _ _ Hi) Hk) as He.
  destruct (decide (i < j)%nat) as [|Hge]; [done|]. exfalso.
  destruct (decide (i = j)) as [->|Hne].
  - rewrite Hi in Hj. injection Hj as ->. lra.
  - pose proof (strongly_sorted_lookup _ _ j i u e Hsorted Hj Hi ltac:(lia)) as Hord.
    unfold by_score_desc in Hord. apply Qle_bool_iff in Hord. lra.
Qed.

Lemma entries_names_nodup self scores (l : list nat) :
  NoDup l → NoDup (p_user <$> omap (entry_of self scores) l).
Proof.
  induction 1 as [|i l Hi ND IH]; [apply NoDup_nil_2|].
  change (omap (entry_of self scores) (i :: l))
    with (match entry_of self scores i with
          | Some y => y :: omap (entry_of self scores) l
          | None => omap (entry_of self scores) l
          end).
  destruct (entry_of self scores i) as [e|] eqn:Ee; [|exact IH].
  rewrite fmap_cons. apply NoDup_cons. split; [|exact IH].
  intros (e' & Hname & (j & Hj & Ee')%list_elem_of_omap)%list_elem_of_fmap.
  apply entry_of_inv in Ee as (_ & Hn & _). apply entry_of_inv in Ee' as (_ & Hn' & _).
  rewrite Hname in Hn. rewrite (name_of_inj _ _ _ _ Hn Hn') in Hi. done.
Qed.

(** X8. No user is listed twice: the names of the returned entries are
    pairwise distinct. *)
Theorem get_predictions_distinct self top_k m d :
  model self = Some m → data self = Some d → num_nodes d ≠ 1%nat →
  (∀ i, (i < num_nodes d)%nat → is_Some (node_type self !! i)) →
  ∃ r, get_predictions self top_k = Py.Ok r ∧ NoDup (p_user <$> r).
Proof.
  intros Hm Hd _ Hty.
  destruct (ranking_facts self top_k m d Hm Hd Hty)
    as (boosted & ranked & E & Hlb & Hperm & _).
  eexists. split; [exact E|].
  destruct (slice_to_take (default default_top_k top_k) ranked) as [c ->].
  eapply sublist_NoDup; [|apply fmap_sublist, sublist_take].
  rewrite Hperm. apply entries_names_nodup, NoDup_seq.
Qed.

End PredictorMore.

Section PredictorLength.

Context {GNN : Type} `{!Scorer GNN}.
Implicit Types (self : Detector GNN) (scores : list Q).

(** The length of a slice [l[:k]]. *)
Lemma slice_to_length_eq {A} (k : Z) (l : list A) :
  length (Py.slice_to k l)
  = if bool_decide (k < 0) then Z.to_nat (Z.of_nat (length l) + k)
    else Nat.min (Z.to_nat k) (length l).
Proof.
  unfold Py.slice_to. case_bool_decide; rewrite length_take; lia.
Qed.

(** The ranking before the cut has one entry per user when every user node
    has a non-empty name of its own. *)
Lemma ranking_size self top_k m d (users pcs domains : gset string) :
  numbering users pcs domains (node_id self) (node_type self) →
  model self = Some m → data self = Some d →
  num_nodes d = (size users + size pcs + size domains)%nat →
  users ## pcs → users ## domains → "" ∉ users →
  ∃ ranked,
    get_predictions self top_k
    = Py.Ok (Py.slice_to (default default_top_k top_k) ranked) ∧
    length ranked = size users.
Proof.
  intros Hnum Hm Hd Hn H1 H2 Hblank.
  destruct (ranking_facts self top_k m d Hm Hd)
    as (boosted & ranked & Er & Hlb & Hperm & _).
  { intros i Hi. apply (numbering_type_total _ _ _ _ _ Hnum). lia. }
  exists ranked. split; [exact Er|].
  rewrite Hperm, omap_length_filter.
  rewrite (filter_ext_in _ (λ i, i < size users)%nat).
  { rewrite filter_below_length, Hn. lia. }
  intros i Hi%elem_of_seq. rewrite entry_of_listed by lia.
  unfold is_listed. rewrite (proj1 Hnum).
  case_bool_decide as Hlt.
  - destruct (numbering_user_named users pcs domains _ _ Hnum i H1 H2 Hlt)
      as (name & Hname & HU).
    destruct (name_of_complete (node_id self) i name Hname) as [name' Hn'].
    rewrite Hn'. apply name_of_lookup in Hn'.
    rewrite (numbering_inj users pcs domains _ _ Hnum name' name i Hn' Hname).
    split; [done|]. intros _. apply truthy_nonempty. by intros ->.
  - split; [|done]. repeat case_bool_decide; done.
Qed.

(** X9. After a build and training on a day on which no user name is empty
    or shared with a device or a domain, [get_predictions] returns
    [min top_k |users|] entries for a non-negative [top_k], the default
    being 50; for a negative [top_k] it returns the ranking without its last
    [-top_k] entries, which is nothing when there are no more users than
    that. *)
Theorem get_predictions_length self logon device http day d self' epochs top_k :
  build_graph self logon device http day = (Some d, self') →
  let logon_day := on_day l_day day logon in
  let device_day := on_day d_day day device in
  let http_day := on_day h_day day http in
  let users := users_of logon_day device_day http_day in
  let pcs := pcs_of logon_day device_day in
  let domains := domains_of http_day in
  let k := default default_top_k top_k in
  users ## pcs → users ## domains → "" ∉ users →
  ∃ r, get_predictions (train_model self' epochs).2 top_k = Py.Ok r ∧
    length r = if bool_decide (k < 0) then Z.to_nat (Z.of_nat (size users) + k)
               else Nat.min (Z.to_nat k) (size users).
Proof.
  intros E. intros logon_day device_day http_day users pcs domains k H1 H2 Hblank.
  destruct (build_graph_some_inv _ _ _ _ _ _ _ E)
    as (nid & nty & Hnum & -> & Hx & He & Hlab).
  fold logon_day device_day http_day in Hnum, Hx, He, Hlab.
  fold users pcs domains in Hnum, Hx, Hlab.
  set (built := rebuilt self nid nty (Some d)).
  destruct (train_model_frame built epochs d eq_refl) as (Hid & Hty & Hmu & m & Hm).
  pose proof (train_model_data built epochs d eq_refl) as Hd.
  destruct (iter_fallback_frame (Z.to_nat epochs) d) as [Hfx _].
  destruct (ranking_size (train_model built epochs).2 top_k m
              (Nat.iter (Z.to_nat epochs) fallback d) users pcs domains)
    as (ranked & Er & Hlr); try done.
  - rewrite Hid, Hty. exact Hnum.
  - unfold num_nodes. rewrite Hfx, Hx. apply degree_features_length.
  - eexists. split; [exact Er|]. rewrite slice_to_length_eq, Hlr. done.
Qed.

End PredictorLength.

Section PredictorErrors.

Context {GNN : Type} `{!Scorer GNN}.
Implicit Types (self : Detector GNN) (scores : list Q).

Lemma cover_dec (nty : gmap nat kind) n :
  (∀ i, (i < n)%nat → is_Some (nty !! i)) ∨ (∃ i, (i < n)%nat ∧ nty !! i = None).
Proof.
  induction n as [|n [IH|(i & Hi & Hnone)]].
  - left. intros i Hi. lia.
  - destruct (nty !! n) as [ty|] eqn:En.
    + left. intros i Hi. destruct (decide (i = n)) as [->|]; [by eexists|].
      apply IH. lia.
    + right. exists n. split; [lia|done].
  - right. exists i. split; [lia|done].
Qed.

Lemma boost_missing self scores n :
  (n ≤ length scores)%nat →
  (∃ i, (i < n)%nat ∧ node_type self !! i = None) →
  boost self scores n = Py.Raise Py.KeyError.
Proof.
  unfold boost. induction n as [|n IH]; intros Hlen (i & Hi & Hnone); [lia|].
  rewrite seq_S, foldl_snoc. simpl.
  destruct (cover_dec (node_type self) n) as [Hcov|Hmiss].
  - destruct (boost_ok self scores n Hcov ltac:(lia)) as (b & E & _).
    unfold boost in E. rewrite E. simpl.
    assert (i = n) as ->.
    { destruct (decide (i = n)); [done|]. destruct (Hcov i ltac:(lia)) as [? ?].
      congruence. }
    unfold boost_step, Py.getitem. by rewrite Hnone.
  - rewrite IH by (lia || done). done.
Qed.

(** X10. [get_predictions] fails in two ways only.  It raises its ValueError
    exactly when the model or the graph is missing; with both present, and
    a graph of other than one node, it raises KeyError exactly when some
    node index of the graph has no entry in [node_type], and returns a list
    otherwise. *)
Theorem get_predictions_errors self top_k :
  (get_predictions self top_k
   = Py.Raise (Py.ValueError "Model not trained or data not available")
   ↔ model self = None ∨ data self = None) ∧
  (∀ m d, model self = Some m → data self = Some d → num_nodes d ≠ 1%nat →
     (get_predictions self top_k = Py.Raise Py.KeyError
      ↔ ∃ i, (i < num_nodes d)%nat ∧ node_type self !! i = None) ∧
     ((∃ r, get_predictions self top_k = Py.Ok r)
      ↔ ∀ i, (i < num_nodes d)%nat → is_Some (node_type self !! i))).
Proof.
  assert (∀ m d, model self = Some m → data self = Some d →
            (∀ i, (i < num_nodes d)%nat → is_Some (node_type self !! i)) →
            ∃ r, get_predictions self top_k = Py.Ok r) as Hok.
  { intros m d Hm Hd Hcov.
    destruct (get_predictions_unfold self top_k m d Hm Hd Hcov) as (b & _ & E).
    by eexists. }
  assert (∀ m d, model self = Some m → data self = Some d →
            (∃ i, (i < num_nodes d)%nat ∧ node_type self !! i = None) →
            get_predictions self top_k = Py.Raise Py.KeyError) as Hkey.
  { intros m d Hm Hd Hmiss. unfold get_predictions, rank. rewrite Hm, Hd.
    rewrite boost_missing; [done| |done].
    unfold num_nodes. by rewrite length_fmap, forward_length. }
  split.
  - split.
    + intros E. destruct (model self) as [m|] eqn:Hm; [|by left].
      destruct (data self) as [d|] eqn:Hd; [|by right]. exfalso.
      destruct (cover_dec (node_type self) (num_nodes d)) as [Hcov|Hmiss].
      * destruct (Hok m d eq_refl eq_refl Hcov) as [r Er]. congruence.
      * rewrite (Hkey m d eq_refl eq_refl Hmiss) in E. done.
    + unfold get_predictions. intros [->| ->]; [done|]. by destruct (model self).
  - intros m d Hm Hd _. split; split.
    + intros E. destruct (cover_dec (node_type self) (num_nodes d)) as [Hcov|Hmiss];
        [|done]. destruct (Hok m d Hm Hd Hcov) as [r Er]. congruence.
    + by apply (Hkey m d).
    + intros [r Er] i Hi.
      destruct (cover_dec (node_type self) (num_nodes d)) as [Hcov|Hmiss];
        [by apply Hcov|]. rewrite (Hkey m d Hm Hd Hmiss) in Er. done.
    + by apply (Hok m d).
Qed.

End PredictorErrors.

(** ** Export *)

Section ExporterMore.

Context {GNN : Type} `{!Scorer GNN}.
Implicit Types (self : Detector GNN) (nid : gmap string nat) (d : Data).

(** The names found by the scan are names of the two indices, and a target
    name is only ever found for an index other than the source index. *)
Lemma names_scan_sound (items : list (string * nat)) s t acc :
  (∀ a, acc.1 = Some a → (a, s) ∈ items) →
  (∀ b, acc.2 = Some b → (b, t) ∈ items ∧ t ≠ s) →
  ∀ (rest : list (string * nat)), (∀ p, p ∈ rest → p ∈ items) →
  let r := foldl (names_step s t) acc rest in
  (∀ a, r.1 = Some a → (a, s) ∈ items) ∧
  (∀ b, r.2 = Some b → (b, t) ∈ items ∧ t ≠ s).
Proof.
  intros H1 H2 rest. revert acc H1 H2.
  induction rest as [|[name idx] rest IH]; intros acc H1 H2 Hsub; [done|].
  cbn [foldl]. apply IH.
  - unfold names_step. cbn [fst snd]. repeat case_bool_decide; simpl; try done.
    intros a [= <-]. subst. apply Hsub. left.
  - unfold names_step. cbn [fst snd]. repeat case_bool_decide; simpl; try done.
    intros b [= <-]. subst. split; [apply Hsub; left|done].
  - intros p Hp. apply Hsub. by right.
Qed.

Lemma endpoint_names_sound nid s t a b :
  endpoint_names nid s t = (Some a, Some b) →
  nid !! a = Some s ∧ nid !! b = Some t ∧ s ≠ t.
Proof.
  rewrite endpoint_names_fold. intros E.
  destruct (names_scan_sound (map_to_list nid) s t (None, None)
              ltac:(done) ltac:(done) (map_to_list nid) ltac:(done)) as [H1 H2].
  rewrite E in H1, H2. simpl in H1, H2.
  destruct (H2 b eq_refl) as [Hb Hne]. specialize (H1 a eq_refl).
  apply elem_of_map_to_list in H1, Hb. done.
Qed.

Lemma viz_edges_sound self (edges : list (nat * nat)) acc e :
  e ∈ foldl (viz_edge self) acc edges →
  e ∈ acc ∨
  ∃ s t, (s, t) ∈ edges ∧ s ≠ t ∧ ve_weight e = 1 ∧
    ve_source e ≠ "" ∧ ve_target e ≠ "" ∧
    node_id self !! ve_source e = Some s ∧ node_id self !! ve_target e = Some t.
Proof.
  revert acc. induction edges as [|[s t] edges IH]; intros acc He; [by left|].
  cbn [foldl] in He. apply IH in He as [He|(s' & t' & Hin & ?)].
  - unfold viz_edge in He. simpl in He.
    destruct (endpoint_names (node_id self) s t) as [[a|] [b|]] eqn:En;
      try (by left).
    destruct (Py.truthy a && Py.truthy b) eqn:Et; [|by left].
    apply elem_of_app in He as [He|He]; [by left|].
    apply list_elem_of_singleton in He as ->. right.
    apply endpoint_names_sound in En as (Ha & Hb & Hne).
    apply andb_prop in Et as [Ha'%truthy_nonempty Hb'%truthy_nonempty].
    exists s, t. split; [left|]. done.
  - right. exists s', t'. split; [by right|done].
Qed.

Lemma viz_nodes_content self d (items : list (string * nat)) acc nodes :
  foldl (λ acc item, nodes ← acc; viz_node self d nodes item) (Py.Ok acc) items
  = Py.Ok nodes →
  ∃ nodes', nodes = acc ++ nodes' ∧
    Forall2 (λ item node,
      ∃ ty deg, node_type self !! item.2 = Some ty ∧ data_x d !! item.2 = Some deg ∧
        node = {| vn_id := item.1; vn_type := ty;
                  vn_is_malicious := bool_decide (item.1 ∈ malicious_users self);
                  vn_degree := deg |}) items nodes'.
Proof.
  revert acc. induction items as [|[name idx] items IH]; intros acc E.
  - injection E as <-. exists []. split; [by rewrite app_nil_r|constructor].
  - cbn [foldl] in E.
    change (nodes ← Py.Ok acc; viz_node self d nodes (name, idx))
      with (viz_node self d acc (name, idx)) in E.
    destruct (viz_node self d acc (name, idx)) as [nodes1|e] eqn:Ev.
    2: { by rewrite viz_nodes_raise in E. }
    apply IH in E as (nodes' & -> & HF).
    unfold viz_node, Py.getitem, Py.index in Ev.
    destruct (node_type self !! idx) as [ty|] eqn:Ety; [|done].
    destruct (data_x d !! idx) as [deg|] eqn:Edeg; [|done].
    simpl in Ev. injection Ev as <-.
    eexists (_ :: nodes'). split; [by rewrite <- app_assoc|].
    constructor; [|done]. by exists ty, deg.
Qed.

(** X11. The exporter returns [None] exactly when there is no graph.  When
    it returns an export, the nodes are the names of [node_id], each once,
    with the type and degree stored for its index and its ground-truth
    flag; every exported edge has weight 1 and joins the non-empty names of
    two distinct indices that some edge of the graph connects, so self-loops
    are never exported. *)
Theorem visualization_export self :
  (get_graph_data_for_visualization self = Py.Ok None ↔ data self = None) ∧
  ∀ d v, data self = Some d →
    get_graph_data_for_visualization self = Py.Ok (Some v) →
    (∀ node, node ∈ viz_nodes v ↔
       ∃ idx ty deg, node_id self !! vn_id node = Some idx ∧
         node_type self !! idx = Some ty ∧ data_x d !! idx = Some deg ∧
         vn_type node = ty ∧ vn_degree node = deg ∧
         vn_is_malicious node = bool_decide (vn_id node ∈ malicious_users self)) ∧
    NoDup (vn_id <$> viz_nodes v) ∧
    (∀ e, e ∈ viz_edges v →
       ∃ s t, (s, t) ∈ data_edge_index d ∧ s ≠ t ∧ ve_weight e = 1 ∧
         ve_source e ≠ "" ∧ ve_target e ≠ "" ∧
         node_id self !! ve_source e = Some s ∧
         node_id self !! ve_target e = Some t).
Proof.
  unfold get_graph_data_for_visualization. split.
  - destruct (data self) as [d|]; [|done]. split; [|done].
    destruct (foldl _ (mret []) (map_to_list (node_id self))) as [nodes|e]; done.
  - intros d v ->.
    destruct (foldl _ (mret []) (map_to_list (node_id self))) as [nodes|e] eqn:E;
      [|simpl; discriminate].
    simpl. intros [= <-]. simpl.
    apply viz_nodes_content in E as (nodes' & -> & HF). simpl.
    split; [|split].
    + intros node. split.
      * intros Hin. apply list_elem_of_lookup in Hin as [k Hk].
        destruct (Forall2_lookup_r _ _ _ _ _ HF Hk)
          as ([name idx] & Hitem & ty & deg & Hty & Hdeg & ->).
        apply list_elem_of_lookup_2, elem_of_map_to_list in Hitem.
        exists idx, ty, deg. done.
      * intros (idx & ty & deg & Hid & Hty & Hdeg & <- & <- & Hm).
        apply elem_of_map_to_list, list_elem_of_lookup in Hid as [k Hk].
        destruct (Forall2_lookup_l _ _ _ _ _ HF Hk)
          as (node' & Hnode & ty' & deg' & Hty' & Hdeg' & ->).
        simpl in *. rewrite Hty in Hty'. rewrite Hdeg in Hdeg'.
        injection Hty' as <-. injection Hdeg' as <-.
        destruct node. simpl in *. subst. by eapply list_elem_of_lookup_2.
    + assert (vn_id <$> nodes' = (map_to_list (node_id self)).*1) as ->.
      { clear -HF. induction HF as [|item node items nodes Hh HF IH]; [done|].
        destruct Hh as (ty & deg & _ & _ & ->). rewrite !fmap_cons. simpl.
        by f_equal. }
      apply NoDup_fst_map_to_list.
    + intros e He. apply viz_edges_sound in He as [He|He]; [|done].
      by apply elem_of_nil in He.
Qed.

End ExporterMore.

(** ** A failed build after a successful one *)

Section StaleMaps.

Context {GNN : Type} `{!Scorer GNN}.
Implicit Types (self : Detector GNN) (nid : gmap string nat) (d : Data).

Lemma build_graph_failed_state self logon device http day :
  (build_graph self logon device http day).1 = None →
  (build_graph self logon device http day).2 = rebuilt self ∅ ∅ (data self).
Proof.
  intros (El & Ed & Eh)%build_graph_none.
  unfold build_graph. rewrite El, Ed, Eh.
  change (users_of [] [] []) with (∅ ∪ ∅ ∪ ∅ : gset string).
  change (pcs_of [] []) with (∅ ∪ ∅ : gset string).
  change (domains_of []) with (∅ : gset string).
  rewrite !(left_id_L ∅ (∪)). rewrite number_nodes_empty. done.
Qed.

(** A built graph has a user node and a device or domain node. *)
Lemma frames_size (logon_day : list LogonRow) (device_day : list DeviceRow)
    (http_day : list HttpRow) :
  ¬ (logon_day = [] ∧ device_day = [] ∧ http_day = []) →
  (2 ≤ size (users_of logon_day device_day http_day)
       + size (pcs_of logon_day device_day) + size (domains_of http_day))%nat.
Proof.
  intros Hne.
  assert (∀ (X : gset string) x, x ∈ X → (1 ≤ size X)%nat) as Hpos.
  { intros X x Hx. destruct (decide (size X = 0%nat)) as [H0|]; [|lia].
    apply size_empty_inv in H0. set_solver. }
  destruct logon_day as [|r l].
  - destruct device_day as [|r l].
    + destruct http_day as [|r l]; [tauto|].
      pose proof (Hpos _ _ (elem_of_users_http [] [] (r :: l) r ltac:(left))).
      pose proof (Hpos _ _ (elem_of_domains_http (r :: l) r ltac:(left))). lia.
    + pose proof (Hpos _ _ (elem_of_users_device [] (r :: l) http_day r ltac:(left))).
      pose proof (Hpos _ _ (elem_of_pcs_device [] (r :: l) r ltac:(left))). lia.
  - pose proof (Hpos _ _ (elem_of_users_logon (r :: l) device_day http_day r
                            ltac:(left))).
    pose proof (Hpos _ _ (elem_of_pcs_logon (r :: l) device_day r ltac:(left))). lia.
Qed.

Lemma build_graph_size self logon device http day d self' :
  build_graph self logon device http day = (Some d, self') →
  (2 ≤ num_nodes d)%nat ∧ (1 ≤ num_edges d)%nat.
Proof.
  intros E.
  assert ((build_graph self logon device http day).1 ≠ None) as Hsome
    by (by rewrite E).
  rewrite build_graph_none in Hsome.
  destruct (build_graph_some_inv _ _ _ _ _ _ _ E)
    as (nid & nty & Hnum & _ & Hx & He & _).
  split.
  - unfold num_nodes. rewrite Hx, degree_features_length. by apply frames_size.
  - unfold num_edges. rewrite He, length_fmap.
    rewrite <- (edge_rows_nil _ _ _ _ _ Hnum) in Hsome.
    destruct (edge_rows nid _ _ _); [done|]. simpl. lia.
Qed.

Lemma viz_edges_unnamed self (edges : list (nat * nat)) :
  node_id self = ∅ → foldl (viz_edge self) [] edges = [].
Proof.
  intros Hid. induction edges as [|e edges IH]; [done|].
  cbn [foldl]. unfold viz_edge at 2. rewrite Hid.
  unfold endpoint_names. rewrite map_to_list_empty. simpl. exact IH.
Qed.

(** X12. When a build has succeeded, the model has been trained, and a
    later build for another day then finds no edge, the detector keeps the
    graph and the model but has no index maps: [get_predictions] raises
    KeyError and the exporter returns an export without nodes and edges,
    although the stored graph has at least two nodes and one edge. *)
Theorem failed_rebuild_leaves_stale_graph self logon device http day d self1 epochs
    logon' device' http' day' top_k :
  build_graph self logon device http day = (Some d, self1) →
  (build_graph (train_model self1 epochs).2 logon' device' http' day').1 = None →
  let self3 := (build_graph (train_model self1 epochs).2 logon' device' http' day').2 in
  (∃ d', data self3 = Some d' ∧ num_nodes d' = num_nodes d ∧
     num_edges d' = num_edges d ∧ (2 ≤ num_nodes d')%nat ∧ (1 ≤ num_edges d')%nat) ∧
  node_id self3 = ∅ ∧ node_type self3 = ∅ ∧
  get_predictions self3 top_k = Py.Raise Py.KeyError ∧
  ∃ v, get_graph_data_for_visualization self3 = Py.Ok (Some v) ∧
    viz_nodes v = [] ∧ viz_edges v = [] ∧
    total_nodes (viz_stats v) = 0%nat ∧ total_edges (viz_stats v) = 0%nat.
Proof.
  intros E Hnone self3. subst self3.
  rewrite (build_graph_failed_state _ _ _ _ _ Hnone).
  destruct (build_graph_size _ _ _ _ _ _ _ E) as [Hn2 He1].
  destruct (build_graph_some_inv _ _ _ _ _ _ _ E)
    as (nid & nty & Hnum & -> & Hx & He & Hlab).
  set (built := rebuilt self nid nty (Some d)) in *.
  destruct (train_model_frame built epochs d eq_refl) as (Hid & Hty & Hmu & m & Hm).
  pose proof (train_model_data built epochs d eq_refl) as Hd.
  destruct (iter_fallback_frame (Z.to_nat epochs) d) as [Hfx Hfe].
  set (d' := Nat.iter (Z.to_nat epochs) fallback d) in *.
  set (trained := (train_model built epochs).2) in *.
  assert (num_nodes d' = num_nodes d) as Hn by (unfold num_nodes; by rewrite Hfx).
  assert (num_edges d' = num_edges d) as Hne by (unfold num_edges; by rewrite Hfe).
  unfold rebuilt. cbn [data node_id node_type].
  split; [|split; [done|split; [done|split]]].
  - exists d'. split; [done|]. split; [done|]. split; [done|]. lia.
  - unfold get_predictions, rank. cbn [data model]. rewrite Hm, Hd.
    rewrite boost_missing; [done|..].
    + unfold num_nodes. by rewrite length_fmap, forward_length.
    + exists 0%nat. split; [lia|]. apply lookup_empty.
  - unfold get_graph_data_for_visualization. cbn [data node_id]. rewrite Hd.
    rewrite map_to_list_empty. cbn [foldl].
    rewrite viz_edges_unnamed by done. eexists. split; [done|]. done.
Qed.

End StaleMaps.

(** ** The whole run *)

Section RunMore.

Context {GNN : Type} `{!Scorer GNN}.
Implicit Types (self : Detector GNN).

Lemma min_scan (l : list Z) (a : Z) :
  let r := foldl (λ best c, if bool_decide (id c < id best) then c else best) a l in
  r ∈ a :: l ∧ ∀ c, c ∈ a :: l → r ≤ c.
Proof.
  revert a. induction l as [|c0 l IH]; intros a; cbn [foldl].
  - split; [left|]. intros c ->%list_elem_of_singleton. lia.
  - case_bool_decide as Hlt; unfold id in Hlt.
    + destruct (IH c0) as [Hin Hmin]. split; [by right|].
      intros c [->|Hc]%elem_of_cons; [|by apply Hmin].
      specialize (Hmin c0 ltac:(left)). lia.
    + destruct (IH a) as [Hin Hmin]. split.
      * apply elem_of_cons in Hin as [->|Hin]; [left|right; by right].
      * intros c [->|[->|Hc]%elem_of_cons]%elem_of_cons.
        -- apply Hmin. left.
        -- specialize (Hmin a ltac:(left)). lia.
        -- apply Hmin. by right.
Qed.

Lemma min_elements (s : gset Z) :
  s ≠ ∅ → ∃ d, Py.min_key id (elements s) = Some d ∧ d ∈ s ∧ ∀ c, c ∈ s → d ≤ c.
Proof.
  intros Hne. destruct (elements s) as [|a l] eqn:E.
  - apply elements_empty_inv, leibniz_equiv in E. done.
  - eexists; split; [done|]. destruct (min_scan l a) as [Hin Hmin].
    rewrite <- E in Hin, Hmin. setoid_rewrite elem_of_elements in Hmin.
    apply elem_of_elements in Hin. done.
Qed.

(** The selector finds a day of the logs whenever the logs have a day. *)
Lemma select_day_member (all_days malicious_days : gset Z) :
  all_days ≠ ∅ → ∃ d, select_day all_days malicious_days = Some d ∧ d ∈ all_days.
Proof.
  intros Hall. unfold select_day.
  rewrite (bool_decide_eq_true_2 (all_days ≠ ∅)) by done.
  case_bool_decide as Hmal.
  - destruct (Py.sorted (all_days ∩ malicious_days)) as [|d cand] eqn:Ecand.
    + simpl. destruct (Py.sorted malicious_days) as [|t ml] eqn:Eml.
      { by apply sorted_nil in Eml. }
      destruct (Py.sorted all_days) as [|a al] eqn:Eal.
      { by apply sorted_nil in Eal. }
      pose proof (sorted_strongly all_days) as S. rewrite Eal in S.
      destruct (min_key_scan (λ x, Z.abs (x - t)) al a S) as [Hin _].
      simpl. eexists; split; [done|]. rewrite <- Eal in Hin.
      by apply elem_of_sorted in Hin.
    + apply sorted_head in Ecand as [Hd _]. exists d. split; [done|].
      by apply elem_of_intersection in Hd as [? _].
  - destruct (max_elements all_days Hall) as (d & -> & Hd & _). by exists d.
Qed.

(** X13. The selector returns no day exactly when the logs have no day. *)
Theorem select_day_none (all_days malicious_days : gset Z) :
  select_day all_days malicious_days = None ↔ all_days = ∅.
Proof.
  split.
  - intros E. destruct (decide (all_days = ∅)) as [|Hne]; [done|].
    destruct (select_day_member all_days malicious_days Hne) as (d & Hd & _).
    congruence.
  - intros ->. unfold select_day.
    rewrite (bool_decide_eq_false_2 (∅ ≠ ∅)) by (intros H'; by apply H').
    case_bool_decide; [|done].
    rewrite (left_id_L ∅ (∩)) || rewrite (left_absorb_L ∅ (∩)).
    assert (Py.sorted ∅ = []) as -> by by apply sorted_nil. done.
Qed.

Lemma elem_of_days_of logon device http day :
  day ∈ days_of logon device http →
  ¬ (on_day l_day day logon = [] ∧ on_day d_day day device = []
     ∧ on_day h_day day http = []).
Proof.
  unfold days_of, on_day.
  rewrite !elem_of_union, !elem_of_list_to_set, !list_elem_of_fmap.
  intros [[(r & -> & Hr)|(r & -> & Hr)]|(r & -> & Hr)] (El & Ed & Eh).
  - assert (r ∈ filter (λ r0, l_day r0 = l_day r) logon) as Hin
      by by apply list_elem_of_filter.
    rewrite El in Hin. by apply elem_of_nil in Hin.
  - assert (r ∈ filter (λ r0, d_day r0 = d_day r) device) as Hin
      by by apply list_elem_of_filter.
    rewrite Ed in Hin. by apply elem_of_nil in Hin.
  - assert (r ∈ filter (λ r0, h_day r0 = h_day r) http) as Hin
      by by apply list_elem_of_filter.
    rewrite Eh in Hin. by apply elem_of_nil in Hin.
Qed.

Lemma train_model_ok self epochs d :
  data self = Some d →
  ∃ losses, train_model self epochs = (Py.Ok losses, (train_model self epochs).2) ∧
    length losses = Z.to_nat epochs.
Proof.
  intros E. unfold train_model. rewrite E.
  pose proof (iter_train_epoch_losses (Z.to_nat epochs) create_gnn_model d []) as Hl.
  destruct (Nat.iter (Z.to_nat epochs) train_epoch _) as [[m' d'] losses'].
  simpl in *. by exists losses'.
Qed.

Lemma slice_to_length {A} (k : Z) (l : list A) :
  0 ≤ k → (length (Py.slice_to k l) ≤ Z.to_nat k)%nat.
Proof.
  intros Hk. unfold Py.slice_to. rewrite bool_decide_eq_false_2 by lia.
  rewrite length_take. lia.
Qed.

(** The exporter after a build and training, whatever the names. *)
Lemma visualization_total self logon device http day d self' epochs :
  build_graph self logon device http day = (Some d, self') →
  ∃ v, get_graph_data_for_visualization (train_model self' epochs).2 = Py.Ok (Some v).
Proof.
  intros E.
  destruct (build_graph_some_inv _ _ _ _ _ _ _ E)
    as (nid & nty & Hnum & -> & Hx & He & Hlab).
  set (built := rebuilt self nid nty (Some d)) in *.
  destruct (train_model_frame built epochs d eq_refl) as (Hid & Hty & Hmu & m & Hm).
  pose proof (train_model_data built epochs d eq_refl) as Hd.
  destruct (iter_fallback_frame (Z.to_nat epochs) d) as [Hfx Hfe].
  set (d' := Nat.iter (Z.to_nat epochs) fallback d) in *.
  set (trained := (train_model built epochs).2) in *.
  unfold get_graph_data_for_visualization. rewrite Hd.
  destruct (viz_nodes_ok trained d' (map_to_list (node_id trained)) []) as [nodes En].
  { intros name idx Hin%elem_of_map_to_list. rewrite Hid in Hin. rewrite Hty.
    simpl in Hin |- *. split.
    - by eapply numbering_consistent.
    - rewrite Hfx, Hx, degree_features_length. by eapply numbering_bound. }
  change (@mret Py.result _ (list VizNode) []) with (@Py.Ok (list VizNode) []).
  rewrite En. simpl. by eexists.
Qed.

Lemma build_graph_sizes self logon device http day d self' :
  build_graph self logon device http day = (Some d, self') →
  let logon_day := on_day l_day day logon in
  let device_day := on_day d_day day device in
  let http_day := on_day h_day day http in
  num_nodes d = (size (users_of logon_day device_day http_day)
                 + size (pcs_of logon_day device_day)
                 + size (domains_of http_day))%nat ∧
  num_edges d = (length logon_day + length device_day + length http_day)%nat.
Proof.
  intros E. intros.
  destruct (build_graph_some_inv _ _ _ _ _ _ _ E)
    as (nid & nty & Hnum & _ & Hx & He & _).
  destruct (edge_rows_all _ _ _ _ _ Hnum) as (Hl & Hd & Hh).
  split.
  - unfold num_nodes. by rewrite Hx, degree_features_length.
  - unfold num_edges. rewrite He, length_fmap, edge_rows_length.
    by rewrite !filter_all.
Qed.

End RunMore.

(** ** Shared names, bounds and ground-truth counts *)

Section SharedNames.

Context {GNN : Type} `{!Scorer GNN}.
Implicit Types (self : Detector GNN) (nid : gmap string nat) (nty : gmap nat kind).

Lemma size_union3_lt (X Y Z : gset string) (x : string) :
  x ∈ X → x ∈ Y ∪ Z → (size (X ∪ Y ∪ Z) < size X + size Y + size Z)%nat.
Proof.
  intros HX HYZ.
  assert (X ∪ Y ∪ Z = (Y ∪ Z) ∪ X) as -> by set_solver.
  rewrite size_union_alt, (size_union_alt Y Z).
  assert (size (Z ∖ Y) ≤ size Z)%nat by (apply subseteq_size; set_solver).
  assert (size (X ∖ (Y ∪ Z)) < size X)%nat by (apply subset_size; set_solver).
  lia.
Qed.

Lemma size_elements_lookup (X : gset string) p name :
  elements X !! p = Some name → (p < size X)%nat.
Proof. intros Hp. by apply lookup_lt_Some in Hp. Qed.

(** X21. When a user name of the day is also a device or domain name of the
    day, the name is mapped to its device or domain node, and the user node
    that was numbered for it is left without a name: that node is of type
    user but is not a training node, and the index map has fewer names than
    the graph has nodes. *)
Theorem build_graph_shared_name self logon device http day d self' name :
  build_graph self logon device http day = (Some d, self') →
  let logon_day := on_day l_day day logon in
  let device_day := on_day d_day day device in
  let http_day := on_day h_day day http in
  let users := users_of logon_day device_day http_day in
  let pcs := pcs_of logon_day device_day in
  let domains := domains_of http_day in
  name ∈ users → name ∈ pcs ∪ domains →
  (∃ i, node_id self' !! name = Some i ∧ (size users ≤ i)%nat ∧
     (node_type self' !! i = Some PC ∨ node_type self' !! i = Some Domain)) ∧
  (∃ j, (j < size users)%nat ∧ node_type self' !! j = Some User ∧
     (∀ name', node_id self' !! name' ≠ Some j) ∧
     data_train_mask d !! j = Some false) ∧
  (size (node_id self') < num_nodes d)%nat.
Proof.
  intros E. intros logon_day device_day http_day users pcs domains Hu Hshared.
  destruct (build_graph_some_inv _ _ _ _ _ _ _ E)
    as (nid & nty & Hnum & -> & Hx & He & Hlab).
  fold logon_day device_day http_day in Hnum, Hx, He, Hlab.
  fold users pcs domains in Hnum, Hx, Hlab.
  set (n := (size users + size pcs + size domains)%nat) in *.
  assert (num_nodes d = n) as Hn.
  { unfold num_nodes. rewrite Hx. apply degree_features_length. }
  destruct (labels_and_mask_spec n nid nty (malicious_users self))
    as (y & tm & E' & _ & _ & _ & _ & _ & Ht0).
  rewrite Hlab in E'. injection E' as <- <-.
  cbn [rebuilt node_id node_type].
  split; [|split].
  - destruct (proj2 (numbering_dom users pcs domains nid nty Hnum name)) as [i Hi].
    { apply elem_of_union in Hshared as [?|?]; set_solver. }
    exists i. split; [exact Hi|].
    apply (proj2 Hnum) in Hi as [(p & Hp & ->)|[(_ & p & Hp & ->)|(Hnd & Hnp & _)]].
    + apply size_elements_lookup in Hp. split; [lia|]. right.
      rewrite (proj1 Hnum). repeat case_bool_decide; first [lia|done].
    + apply size_elements_lookup in Hp. split; [lia|]. left.
      rewrite (proj1 Hnum). repeat case_bool_decide; first [lia|done].
    + apply elem_of_union in Hshared as [?|?]; done.
  - apply elem_of_elements, list_elem_of_lookup in Hu as [j Hj].
    pose proof (size_elements_lookup _ _ _ Hj) as Hlt.
    assert (∀ name', nid !! name' ≠ Some j) as Hnone.
    { intros name' H.
      apply (proj2 Hnum) in H as [(p & Hp & ?)|[(_ & p & Hp & ?)|(Hnd & Hnp & Hp)]];
        [lia|lia|].
      rewrite Hj in Hp. injection Hp as <-.
      apply elem_of_union in Hshared as [?|?]; done. }
    exists j. split; [exact Hlt|]. split.
    { rewrite (proj1 Hnum). by rewrite bool_decide_eq_true_2. }
    split; [exact Hnone|].
    apply Ht0; [unfold n; lia|]. intros (_ & name' & H). exact (Hnone name' H).
  - rewrite Hn. rewrite <- size_dom.
    assert (dom nid = users ∪ pcs ∪ domains) as ->.
    { apply set_eq. intros x. rewrite elem_of_dom.
      apply (numbering_dom users pcs domains nid nty Hnum). }
    by apply (size_union3_lt users pcs domains name).
Qed.

End SharedNames.

Section Bounds.

Context {GNN : Type} `{!Scorer GNN}.
Implicit Types (self : Detector GNN) (nid : gmap string nat) (nty : gmap nat kind).

Lemma filter_length_mono {A} (P Q : A → Prop) `{∀ a, Decision (P a)}
    `{∀ a, Decision (Q a)} (l : list A) :
  (∀ a, a ∈ l → P a → Q a) → (length (filter P l) ≤ length (filter Q l))%nat.
Proof.
  induction l as [|a l IH]; intros HPQ; [done|].
  rewrite !filter_cons.
  assert (length (filter P l) ≤ length (filter Q l))%nat as Hle
    by (apply IH; intros b Hb; apply HPQ; by right).
  destruct (decide (P a)) as [HP|HP].
  - rewrite decide_True by (apply HPQ; [left|done]). simpl. lia.
  - case_decide; simpl; lia.
Qed.

(** The ranking never has more entries than the mask has training nodes. *)
Lemma ranking_at_most_masked self top_k m d (users pcs domains : gset string)
    (malicious : gset string) (y : list Z) (tm : list bool) :
  numbering users pcs domains (node_id self) (node_type self) →
  model self = Some m → data self = Some d →
  num_nodes d = (size users + size pcs + size domains)%nat →
  labels_and_mask (size users + size pcs + size domains) (node_id self)
    (node_type self) malicious = (y, tm) →
  ∃ r, get_predictions self top_k = Py.Ok r ∧
    (length r ≤ length (filter (λ b, b = true) tm))%nat.
Proof.
  intros Hnum Hm Hd Hn Hlab.
  set (n := (size users + size pcs + size domains)%nat) in *.
  destruct (labels_and_mask_spec n (node_id self) (node_type self) malicious)
    as (y' & tm' & E' & _ & Hltm & _ & _ & Ht1 & _).
  rewrite Hlab in E'. injection E' as <- <-.
  destruct (ranking_facts self top_k m d Hm Hd)
    as (boosted & ranked & Er & Hlb & Hperm & _).
  { intros i Hi. apply (numbering_type_total _ _ _ _ _ Hnum). fold n. lia. }
  eexists. split; [exact Er|].
  assert (length (Py.slice_to (default default_top_k top_k) ranked) ≤ length ranked)%nat
    as Hcut by (rewrite slice_to_length_eq; case_bool_decide; lia).
  etrans; [exact Hcut|].
  rewrite Hperm, omap_length_filter, <- masked_indices_length, Hltm, Hn.
  apply filter_length_mono. intros i Hi%elem_of_seq Hsome.
  apply entry_of_listed in Hsome; [|lia].
  unfold is_listed in Hsome.
  destruct (node_type self !! i) as [[]|] eqn:Hty; try done.
  destruct (name_of (node_id self) i) as [nm|] eqn:Hnm; [|done].
  apply Ht1; [lia|done|]. exists nm. by apply name_of_lookup.
Qed.

(** X22. After a build and training [get_predictions] never returns more
    entries than the graph has training nodes, whatever the names of the
    day and whatever [top_k]. *)
Theorem get_predictions_bounded self logon device http day d self' epochs top_k :
  build_graph self logon device http day = (Some d, self') →
  ∃ r, get_predictions (train_model self' epochs).2 top_k = Py.Ok r ∧
    (length r ≤ train_nodes d)%nat.
Proof.
  intros E.
  destruct (build_graph_some_inv _ _ _ _ _ _ _ E)
    as (nid & nty & Hnum & -> & Hx & He & Hlab).
  set (built := rebuilt self nid nty (Some d)).
  destruct (train_model_frame built epochs d eq_refl) as (Hid & Hty & Hmu & m & Hm).
  pose proof (train_model_data built epochs d eq_refl) as Hd.
  destruct (iter_fallback_frame (Z.to_nat epochs) d) as [Hfx _].
  unfold train_nodes.
  eapply (ranking_at_most_masked _ top_k m (Nat.iter (Z.to_nat epochs) fallback d));
    [|exact Hm|exact Hd| |].
  - rewrite Hid, Hty. exact Hnum.
  - unfold num_nodes. rewrite Hfx, Hx. apply degree_features_length.
  - rewrite Hid, Hty. exact Hlab.
Qed.

End Bounds.

Section ExportCounts.

Context {GNN : Type} `{!Scorer GNN}.
Implicit Types (self : Detector GNN) (nid : gmap string nat) (nty : gmap nat kind).

Lemma length_filter_map_to_list (P : string * nat → Prop) `{∀ x, Decision (P x)} nid :
  length (filter P (map_to_list nid)) = size (filter P nid).
Proof.
  rewrite map_filter_alt, <- length_map_to_list.
  rewrite map_to_list_to_map; [done|].
  apply (sublist_NoDup _ (map_to_list nid).*1).
  - apply NoDup_fst_map_to_list.
  - apply (fmap_sublist fst). apply sublist_filter.
Qed.

Lemma filter_forall2_length {A B} (R : A → B → Prop) (P : A → Prop) (Q : B → Prop)
    `{∀ a, Decision (P a)} `{∀ b, Decision (Q b)} (l : list A) (k : list B) :
  Forall2 R l k → (∀ a b, R a b → P a ↔ Q b) →
  length (filter P l) = length (filter Q k).
Proof.
  intros HR HPQ. induction HR as [|a b l k Hab HR IH]; [done|].
  rewrite !filter_cons. destruct (decide (P a)) as [HP|HP].
  - rewrite decide_True by (by apply (HPQ a b)). simpl. by rewrite IH.
  - rewrite decide_False by (by rewrite <- (HPQ a b)). exact IH.
Qed.

(** The count of malicious users in the export of a detector that holds
    the index maps of a build. *)
Lemma export_malicious_count self d (users pcs domains : gset string) v :
  numbering users pcs domains (node_id self) (node_type self) →
  data self = Some d →
  users ## pcs → users ## domains →
  get_graph_data_for_visualization self = Py.Ok (Some v) →
  stats_malicious_users (viz_stats v) = size (users ∩ malicious_users self).
Proof.
  intros Hnum Hd H1 H2. unfold get_graph_data_for_visualization. rewrite Hd.
  destruct (foldl _ (mret []) (map_to_list (node_id self))) as [nodes|e] eqn:En;
    [|simpl; discriminate].
  simpl. intros [= <-]. simpl.
  change (@mret Py.result _ (list VizNode) []) with (@Py.Ok (list VizNode) []) in En.
  apply viz_nodes_content in En as (nodes' & -> & HF). simpl.
  set (Q := λ item : string * nat,
              item.1 ∈ malicious_users self ∧ node_type self !! item.2 = Some User).
  rewrite <- (filter_forall2_length _ Q _ _ _ HF).
  2: { intros [nm idx] node (ty & deg & Hty & _ & ->). unfold Q.
       cbn [fst snd vn_is_malicious vn_type] in Hty |- *.
       rewrite bool_decide_eq_true, Hty. split; intros [? ?]; split; congruence. }
  rewrite length_filter_map_to_list, <- size_dom. f_equal.
  apply dom_filter_L. intros nm. unfold Q. simpl.
  rewrite elem_of_intersection. split.
  - intros [Hu Hmal].
    destruct (proj2 (numbering_dom users pcs domains _ _ Hnum nm)) as [i Hi];
      [set_solver|].
    exists i. split; [exact Hi|]. split; [exact Hmal|].
    assert (i < size users)%nat as Hlt.
    { apply (numbering_user_range users pcs domains _ _ Hnum nm i); [| |exact Hi].
      - intros Hp. by apply (H1 nm).
      - intros Hp. by apply (H2 nm). }
    rewrite (proj1 Hnum). by rewrite bool_decide_eq_true_2.
  - intros (i & Hi & Hmal & Hty). split; [|exact Hmal].
    rewrite (proj1 Hnum) in Hty.
    apply (proj2 Hnum) in Hi as [(p & Hp & ->)|[(_ & p & Hp & ->)|(_ & _ & Hp)]].
    + repeat case_bool_decide; first [lia|done].
    + repeat case_bool_decide; first [lia|done].
    + apply list_elem_of_lookup_2 in Hp. by apply elem_of_elements in Hp.
Qed.

(** X23. When no user name of the day is also a device or domain name, the
    export made after a build and training counts as malicious users the
    users of the day that are in the ground truth; the labels that the
    positive-sample fallback injects are not counted. *)
Theorem export_counts_known_users self logon device http day d self' epochs :
  build_graph self logon device http day = (Some d, self') →
  let logon_day := on_day l_day day logon in
  let device_day := on_day d_day day device in
  let http_day := on_day h_day day http in
  let users := users_of logon_day device_day http_day in
  let pcs := pcs_of logon_day device_day in
  let domains := domains_of http_day in
  users ## pcs → users ## domains →
  ∃ v, get_graph_data_for_visualization (train_model self' epochs).2 = Py.Ok (Some v) ∧
    stats_malicious_users (viz_stats v) = size (users ∩ malicious_users self).
Proof.
  intros E. intros logon_day device_day http_day users pcs domains H1 H2.
  destruct (visualization_total _ _ _ _ _ _ _ epochs E) as [v Ev].
  destruct (build_graph_some_inv _ _ _ _ _ _ _ E)
    as (nid & nty & Hnum & -> & Hx & He & Hlab).
  fold logon_day device_day http_day in Hnum. fold users pcs domains in Hnum.
  set (built := rebuilt self nid nty (Some d)) in *.
  destruct (train_model_frame built epochs d eq_refl) as (Hid & Hty & Hmu & m & Hm).
  pose proof (train_model_data built epochs d eq_refl) as Hd.
  exists v. split; [exact Ev|].
  rewrite (export_malicious_count _ _ users pcs domains v) with (2 := Hd); try done.
  - by rewrite Hmu.
  - rewrite Hid, Hty. exact Hnum.
Qed.

End ExportCounts.

(** ** The whole run, with its loaders *)

Section Counts.

Context {GNN : Type} `{!Scorer GNN}.
Implicit Types (self : Detector GNN) (nid : gmap string nat) (nty : gmap nat kind).

Lemma train_model_days self epochs :
  malicious_days (train_model self epochs).2 = malicious_days self.
Proof.
  unfold train_model. destruct (data self); [|done].
  by destruct (Nat.iter _ _ _) as [[? ?] ?].
Qed.

(** On a day of the logs every stage of the pipeline succeeds. *)
Lemma analyse_day_total self logon device http all_days date_range day :
  day ∈ days_of logon device http →
  let logon_day := on_day l_day day logon in
  let device_day := on_day d_day day device in
  let http_day := on_day h_day day http in
  let users := users_of logon_day device_day http_day in
  let pcs := pcs_of logon_day device_day in
  let domains := domains_of http_day in
  ∃ a self',
    analyse_day self logon device http all_days date_range day = (Py.Ok a, self') ∧
    analysis_date a = day ∧
    length (training_losses a) = 25%nat ∧
    (length (suspicious_users a) ≤ 100)%nat ∧
    is_Some (graph_data a) ∧
    sum_total_nodes (summary a) = (size users + size pcs + size domains)%nat ∧
    sum_total_edges (summary a)
    = (length logon_day + length device_day + length http_day)%nat ∧
    sum_date_range (summary a) = date_range ∧
    sum_total_days_available (summary a) = size all_days ∧
    sum_known_malicious (summary a) = size (malicious_users self) ∧
    malicious_users self' = malicious_users self ∧
    malicious_days self' = malicious_days self ∧
    is_Some (data self') ∧ is_Some (model self') ∧
    (users ## pcs → users ## domains →
       sum_users_analyzed (summary a) = size users ∧
       ("" ∉ users → length (suspicious_users a) = Nat.min 100 (size users))) ∧
    (users ## pcs → users ## domains → pcs ## domains →
       "" ∉ users ∪ pcs ∪ domains →
       ∃ v, graph_data a = Some v ∧
         total_nodes (viz_stats v) = sum_total_nodes (summary a) ∧
         total_edges (viz_stats v) = sum_total_edges (summary a)) ∧
    (length (suspicious_users a) ≤ sum_users_analyzed (summary a))%nat ∧
    numbering users pcs domains (node_id self') (node_type self') ∧
    (∃ d, data self' = Some d ∧ sum_total_nodes (summary a) = num_nodes d ∧
       sum_total_edges (summary a) = num_edges d).
Proof.
  intros Hday logon_day device_day http_day users pcs domains. unfold analyse_day.
  destruct (build_graph self logon device http day) as [[d|] self1] eqn:Eb.
  2: { exfalso. apply (elem_of_days_of _ _ _ _ Hday).
       apply (build_graph_none self). by rewrite Eb. }
  destruct (build_graph_some_inv _ _ _ _ _ _ _ Eb)
    as (nid & nty & Hnum & Hself1 & Hx & He & Hlab).
  destruct (build_graph_sizes _ _ _ _ _ _ _ Eb) as [Hn Hne].
  fold logon_day device_day http_day in Hnum, Hx, He, Hlab, Hn, Hne.
  fold users pcs domains in Hnum, Hx, Hlab, Hn.
  assert (data self1 = Some d) as Hd1 by (by rewrite Hself1).
  assert (malicious_users self1 = malicious_users self) as Hmu1
    by (by rewrite Hself1).
  assert (malicious_days self1 = malicious_days self) as Hmd1
    by (by rewrite Hself1).
  assert (node_type self1 = nty) as Hty1 by (by rewrite Hself1).
  assert (node_id self1 = nid) as Hid1 by (by rewrite Hself1).
  destruct (train_model_ok self1 25 d Hd1) as (losses & Et & Hl).
  destruct (train_model_frame self1 25 d Hd1) as (Hid & Hty & Hmu & m & Hm).
  pose proof (train_model_days self1 25) as Hmd.
  pose proof (train_model_data self1 25 d Hd1) as Hd2.
  destruct (visualization_total _ _ _ _ _ _ _ 25 Eb) as [v Ev].
  destruct (iter_fallback_frame (Z.to_nat 25) d) as [Hfx Hfe].
  pose proof (iter_fallback_mask (Z.to_nat 25) d) as Hfm.
  rewrite Et. clear Et.
  revert Hid Hty Hmu Hmd Hm Hd2 Ev Hfx Hfe Hfm.
  generalize (Nat.iter (Z.to_nat 25) fallback d). intros d'.
  generalize (train_model self1 25).2. intros self2.
  intros Hid Hty Hmu Hmd Hm Hd2 Ev Hfx Hfe Hfm.
  rewrite Hid1 in Hid. rewrite Hty1 in Hty.
  assert (numbering users pcs domains (node_id self2) (node_type self2)) as Hnum2.
  { rewrite Hid, Hty. exact Hnum. }
  assert (num_nodes d' = (size users + size pcs + size domains)%nat) as Hn'.
  { unfold num_nodes in *. rewrite Hfx. exact Hn. }
  assert (num_edges d'
          = (length logon_day + length device_day + length http_day)%nat) as Hne'.
  { unfold num_edges in *. rewrite Hfe. exact Hne. }
  destruct (ranking_facts self2 (Some 100) m d' Hm Hd2)
    as (boosted & ranked & Er & _).
  { intros i Hi. apply (numbering_type_total _ _ _ _ _ Hnum2). lia. }
  cbn [mbind Py.result_bind]. rewrite Er, Ev. cbn [mbind Py.result_bind].
  rewrite Hd2. cbn [mret Py.result_ret].
  eexists _, self2. split; [reflexivity|].
  cbn [analysis_date training_losses suspicious_users graph_data summary
       sum_total_nodes sum_total_edges sum_date_range sum_total_days_available
       sum_known_malicious sum_users_analyzed].
  split; [reflexivity|]. split; [exact Hl|].
  split; [apply (slice_to_length 100); lia|].
  split; [exists v; reflexivity|].
  split; [exact Hn'|]. split; [exact Hne'|].
  split; [reflexivity|]. split; [reflexivity|].
  rewrite Hmu, Hmu1, Hmd, Hmd1.
  split; [reflexivity|]. split; [reflexivity|]. split; [reflexivity|].
  split; [exists d'; exact Hd2|]. split; [exists m; exact Hm|].
  split; [|split; [|split; [|split]]].
  - intros H1 H2.
    destruct (train_mask_users users pcs domains nid nty (malicious_users self)
                (data_y d) (data_train_mask d) Hnum Hlab H1 H2) as [_ Hcount].
    split; [rewrite Hfm; exact Hcount|].
    intros Hblank.
    destruct (ranking_size self2 (Some 100) m d' users pcs domains
                Hnum2 Hm Hd2 Hn' H1 H2 Hblank) as (ranked' & Er' & Hlr).
    rewrite Er in Er'. injection Er' as Er'.
    change (length (Py.slice_to 100 ranked) = Nat.min 100 (size users)).
    rewrite Er', slice_to_length_eq, Hlr. reflexivity.
  - intros H1 H2 H3 Hblank.
    destruct (visualization_of_build self2 d' logon_day device_day http_day
                Hnum2 Hd2) as (v' & Ev' & Hvn & Hve); try done.
    { rewrite Hfe, He, Hid. reflexivity. }
    rewrite Ev in Ev'. injection Ev' as <-.
    exists v. split; [reflexivity|]. split; [exact Hvn|exact Hve].
  - destruct (ranking_at_most_masked self2 (Some 100) m d' users pcs domains
                (malicious_users self) (data_y d) (data_train_mask d)
                Hnum2 Hm Hd2 Hn') as (r & Er' & Hle).
    { rewrite Hid, Hty. exact Hlab. }
    rewrite Er in Er'. injection Er' as Er'.
    change (length (Py.slice_to 100 ranked)
            ≤ length (filter (λ b, b = true) (data_train_mask d')))%nat.
    rewrite Er', Hfm. exact Hle.
  - exact Hnum2.
  - exists d'. split; [exact Hd2|]. split; reflexivity.
Qed.

(** On logs with a row the part of [run_analysis] after the loaders picks a
    day of the logs and analyses it. *)
Lemma analyse_logs_total self logon device http :
  days_of logon device http ≠ ∅ →
  ∃ lo hi day,
    select_day (days_of logon device http) (malicious_days self) = Some day ∧
    day ∈ days_of logon device http ∧
    (∀ c, c ∈ days_of logon device http → lo ≤ c ≤ hi) ∧
    ∀ a self',
      analyse_day self logon device http (days_of logon device http) (lo, hi) day
      = (Py.Ok a, self') →
      analyse_logs self logon device http = (Success a, self').
Proof.
  intros Hdays. unfold analyse_logs.
  destruct (min_elements _ Hdays) as (lo & -> & _ & Hlo).
  destruct (max_elements _ Hdays) as (hi & -> & _ & Hhi).
  destruct (select_day_member (days_of logon device http) (malicious_days self) Hdays)
    as (day & Eday & Hday).
  exists lo, hi, day. split; [exact Eday|]. split; [exact Hday|].
  split; [intros c Hc; split; [exact (Hlo c Hc)|exact (Hhi c Hc)]|].
  intros a self' E. rewrite Eday, E. reflexivity.
Qed.

Lemma days_of_empty logon device http :
  days_of logon device http = ∅ ↔ logon = [] ∧ device = [] ∧ http = [].
Proof.
  split.
  - intros E.
    assert (∀ day, day ∉ days_of logon device http) as Hno
      by (intros day; rewrite E; apply not_elem_of_empty).
    unfold days_of in Hno.
    setoid_rewrite elem_of_union in Hno. setoid_rewrite elem_of_union in Hno.
    setoid_rewrite elem_of_list_to_set in Hno.
    setoid_rewrite list_elem_of_fmap in Hno.
    split; [|split].
    + destruct logon as [|r l]; [done|]. destruct (Hno (l_day r)).
      left; left. exists r. split; [done|left].
    + destruct device as [|r l]; [done|]. destruct (Hno (d_day r)).
      left; right. exists r. split; [done|left].
    + destruct http as [|r l]; [done|]. destruct (Hno (h_day r)).
      right. exists r. split; [done|left].
  - intros (-> & -> & ->). unfold days_of. simpl.
    by rewrite !(left_id_L ∅ (∪)).
Qed.

End Counts.

(** ** Mock data *)

Section MockFacts.

Context (draw : nat → Z).

Lemma randint_range call lo hi : lo < hi → lo ≤ randint draw call lo hi < hi.
Proof.
  intros Hlt. unfold randint.
  pose proof (Z.mod_pos_bound (draw call) (hi - lo)). lia.
Qed.

Lemma pick_elem (l : list string) call : l ≠ [] → pick draw l call ∈ l.
Proof.
  intros Hl. unfold pick. apply list_elem_of_lookup_total_2.
  assert (0 < Z.of_nat (length l)) as Hpos by (destruct l; [done|simpl; lia]).
  pose proof (randint_range call 0 (Z.of_nat (length l)) Hpos). lia.
Qed.

Lemma mock_logon_rows r :
  r ∈ mock_logon draw →
  l_user r ∈ mock_users ∧ l_pc r ∈ mock_pcs ∧
  base_date ≤ l_day r ≤ base_date + 364 ∧
  1 ≤ l_logon r ≤ 9 ∧ 1 ≤ l_logoff r ≤ 9.
Proof.
  unfold mock_logon. intros (k & -> & _)%list_elem_of_fmap.
  cbn [l_user l_pc l_day l_logon l_logoff].
  split; [by apply pick_elem|]. split; [by apply pick_elem|].
  pose proof (randint_range (5 * k + 2) 0 365).
  pose proof (randint_range (5 * k + 3) 1 10).
  pose proof (randint_range (5 * k + 4) 1 10). lia.
Qed.

Lemma mock_device_rows r :
  r ∈ mock_device draw →
  d_user r ∈ mock_users ∧ d_pc r ∈ mock_pcs ∧
  base_date ≤ d_day r ≤ base_date + 364 ∧
  1 ≤ d_connect r ≤ 4 ∧ 1 ≤ d_disconnect r ≤ 4.
Proof.
  unfold mock_device. intros (k & -> & _)%list_elem_of_fmap.
  cbn [d_user d_pc d_day d_connect d_disconnect].
  split; [by apply pick_elem|]. split; [by apply pick_elem|].
  pose proof (randint_range (1000 + 5 * k + 2) 0 365).
  pose proof (randint_range (1000 + 5 * k + 3) 1 5).
  pose proof (randint_range (1000 + 5 * k + 4) 1 5). lia.
Qed.

Lemma mock_http_rows r :
  r ∈ mock_http draw →
  h_user r ∈ mock_users ∧ h_domain r ∈ mock_domains ∧
  base_date ≤ h_day r ≤ base_date + 364 ∧
  1 ≤ h_request_count r ≤ 49.
Proof.
  unfold mock_http. intros (k & -> & _)%list_elem_of_fmap.
  cbn [h_user h_domain h_day h_request_count].
  split; [by apply pick_elem|]. split; [by apply pick_elem|].
  pose proof (randint_range (1750 + 4 * k + 2) 0 365).
  pose proof (randint_range (1750 + 4 * k + 3) 1 50). lia.
Qed.

(** The three name lists of the mock data share no name, hold no empty
    name and no name twice. *)
Lemma mock_names :
  Forall (λ x, (x ∉ mock_pcs) ∧ (x ∉ mock_domains) ∧ (x ≠ "")) mock_users ∧
  Forall (λ x, (x ∉ mock_domains) ∧ (x ≠ "")) mock_pcs ∧
  Forall (λ x, x ≠ "") mock_domains ∧
  NoDup mock_users.
Proof.
  split; [|split; [|split]]; apply (bool_decide_unpack _); vm_compute; exact I.
Qed.


Lemma mock_frames_length :
  length (mock_logon draw) = 200%nat ∧ length (mock_device draw) = 150%nat ∧
  length (mock_http draw) = 300%nat.
Proof.
  unfold mock_logon, mock_device, mock_http.
  rewrite !length_fmap, !length_seq. done.
Qed.

Lemma mock_days_nonempty :
  days_of (mock_logon draw) (mock_device draw) (mock_http draw) ≠ ∅.
Proof.
  intros (E & _)%days_of_empty. apply (f_equal length) in E.
  rewrite (proj1 mock_frames_length) in E. discriminate.
Qed.

Lemma mock_days_range c :
  c ∈ days_of (mock_logon draw) (mock_device draw) (mock_http draw) →
  base_date ≤ c ≤ base_date + 364.
Proof.
  unfold days_of.
  rewrite !elem_of_union, !elem_of_list_to_set, !list_elem_of_fmap.
  intros [[(r & -> & Hr)|(r & -> & Hr)]|(r & -> & Hr)].
  - by destruct (mock_logon_rows r Hr) as (_ & _ & ? & _).
  - by destruct (mock_device_rows r Hr) as (_ & _ & ? & _).
  - by destruct (mock_http_rows r Hr) as (_ & _ & ? & _).
Qed.

(** On every day the names of the mock data are non-empty and apart. *)
Lemma mock_day_names day :
  let logon_day := on_day l_day day (mock_logon draw) in
  let device_day := on_day d_day day (mock_device draw) in
  let http_day := on_day h_day day (mock_http draw) in
  let users := users_of logon_day device_day http_day in
  let pcs := pcs_of logon_day device_day in
  let domains := domains_of http_day in
  users ## pcs ∧ users ## domains ∧ pcs ## domains ∧
  ("" ∉ users ∪ pcs ∪ domains) ∧ (size users ≤ 50)%nat.
Proof.
  intros logon_day device_day http_day users pcs domains.
  destruct mock_names as (HU & HP & HD & Hnd).
  rewrite Forall_forall in HU, HP, HD.
  assert (∀ x, x ∈ users → x ∈ mock_users) as Husers.
  { intros x. unfold users, users_of.
    rewrite !elem_of_union, !elem_of_list_to_set, !list_elem_of_fmap.
    intros [[(r & -> & Hr)|(r & -> & Hr)]|(r & -> & Hr)];
      apply list_elem_of_filter in Hr as [_ Hr].
    - by destruct (mock_logon_rows r Hr) as (? & _).
    - by destruct (mock_device_rows r Hr) as (? & _).
    - by destruct (mock_http_rows r Hr) as (? & _). }
  assert (∀ x, x ∈ pcs → x ∈ mock_pcs) as Hpcs.
  { intros x. unfold pcs, pcs_of.
    rewrite !elem_of_union, !elem_of_list_to_set, !list_elem_of_fmap.
    intros [(r & -> & Hr)|(r & -> & Hr)];
      apply list_elem_of_filter in Hr as [_ Hr].
    - by destruct (mock_logon_rows r Hr) as (_ & ? & _).
    - by destruct (mock_device_rows r Hr) as (_ & ? & _). }
  assert (∀ x, x ∈ domains → x ∈ mock_domains) as Hdomains.
  { intros x. unfold domains, domains_of.
    rewrite elem_of_list_to_set, list_elem_of_fmap.
    intros (r & -> & Hr). apply list_elem_of_filter in Hr as [_ Hr].
    by destruct (mock_http_rows r Hr) as (_ & ? & _). }
  split; [|split; [|split; [|split]]].
  - apply elem_of_disjoint. intros x Hx Hy.
    destruct (HU x (Husers x Hx)) as (Hno & _). exact (Hno (Hpcs x Hy)).
  - apply elem_of_disjoint. intros x Hx Hy.
    destruct (HU x (Husers x Hx)) as (_ & Hno & _). exact (Hno (Hdomains x Hy)).
  - apply elem_of_disjoint. intros x Hx Hy.
    destruct (HP x (Hpcs x Hx)) as (Hno & _). exact (Hno (Hdomains x Hy)).
  - rewrite !elem_of_union. intros [[Hx|Hx]|Hx].
    + by destruct (HU _ (Husers _ Hx)) as (_ & _ & ?).
    + by destruct (HP _ (Hpcs _ Hx)) as (_ & ?).
    + by apply (HD _ (Hdomains _ Hx)).
  - assert (users ⊆ list_to_set mock_users) as Hsub.
    { intros x Hx. apply elem_of_list_to_set. by apply Husers. }
    apply subseteq_size in Hsub.
    rewrite (size_list_to_set mock_users Hnd) in Hsub.
    change (length mock_users) with 50%nat in Hsub. exact Hsub.
Qed.

End MockFacts.

Section SelectorFacts.

(** A day of the logs that is the only malicious day is the selected day. *)
Lemma select_day_hit (all_days : gset Z) (d : Z) :
  d ∈ all_days → select_day all_days {[ d ]} = Some d.
Proof.
  intros Hd. unfold select_day.
  rewrite bool_decide_eq_true_2 by apply non_empty_singleton_L.
  destruct (Py.sorted (all_days ∩ {[ d ]})) as [|x l] eqn:Es.
  - apply sorted_nil in Es.
    assert (d ∈ all_days ∩ {[ d ]}) as Hin
      by (apply elem_of_intersection; split; [done|by apply elem_of_singleton]).
    rewrite Es in Hin. by apply not_elem_of_empty in Hin.
  - apply sorted_head in Es as [Hx _].
    apply elem_of_intersection in Hx as [_ Hx%elem_of_singleton]. by subst.
Qed.

End SelectorFacts.

Section RunTheorems.

Context (draw : nat → Z) {GNN : Type} `{!Scorer GNN}.
Implicit Types (self detector : Detector GNN).

(** With readable log files the run is [run_analysis] on their frames. *)
Lemma run_analysis_readable detector answer_users answer_days logon device http :
  run_insider_threat_analysis draw detector answer_users answer_days
    (Readable logon device http)
  = run_analysis detector answer_users answer_days logon device http.
Proof. reflexivity. Qed.

(** X14. A success response of a run on readable log files describes the
    day chosen by the selector, which is a day of the logs: it carries 25
    losses, at most 100 suspicious users and never more than it reports as
    analysed, and an export; the summary reports one node per entity of
    that day, one edge per row of that day whose two names are keys of
    [node_id], which are the counts of the graph that the detector keeps,
    the earliest and latest day and the number of days of the logs, and the
    size of the ground truth merged from the answer files. *)
Theorem run_analysis_success_response detector answer_users answer_days
    logon device http a self' :
  run_insider_threat_analysis draw detector answer_users answer_days
    (Readable logon device http) = (Success a, self') →
  select_day (days_of logon device http) (malicious_days detector ∪ answer_days)
  = Some (analysis_date a) ∧
  analysis_date a ∈ days_of logon device http ∧
  length (training_losses a) = 25%nat ∧
  (length (suspicious_users a) ≤ 100)%nat ∧
  (length (suspicious_users a) ≤ sum_users_analyzed (summary a))%nat ∧
  is_Some (graph_data a) ∧
  (let logon_day := on_day l_day (analysis_date a) logon in
   let device_day := on_day d_day (analysis_date a) device in
   let http_day := on_day h_day (analysis_date a) http in
   let nid := node_id self' in
   sum_total_nodes (summary a)
   = (size (users_of logon_day device_day http_day)
      + size (pcs_of logon_day device_day) + size (domains_of http_day))%nat ∧
   sum_total_edges (summary a)
   = (length (filter (λ r, resolved nid (l_user r) (l_pc r)) logon_day)
      + length (filter (λ r, resolved nid (d_user r) (d_pc r)) device_day)
      + length (filter (λ r, resolved nid (h_user r) (h_domain r)) http_day))%nat) ∧
  (∃ d, data self' = Some d ∧ sum_total_nodes (summary a) = num_nodes d ∧
     sum_total_edges (summary a) = num_edges d) ∧
  (∀ c, c ∈ days_of logon device http →
     (sum_date_range (summary a)).1 ≤ c ≤ (sum_date_range (summary a)).2) ∧
  sum_total_days_available (summary a) = size (days_of logon device http) ∧
  sum_known_malicious (summary a) = size (malicious_users detector ∪ answer_users) ∧
  malicious_users self' = malicious_users detector ∪ answer_users ∧
  malicious_days self' = malicious_days detector ∪ answer_days ∧
  is_Some (model self').
Proof.
  unfold run_insider_threat_analysis. cbn [load_background_logs].
  set (self := load_malicious_data detector answer_users answer_days).
  intros Erun.
  assert (days_of logon device http ≠ ∅) as Hdays.
  { intros E. unfold analyse_logs in Erun. rewrite E, elements_empty in Erun.
    discriminate Erun. }
  destruct (analyse_logs_total self logon device http Hdays)
    as (lo & hi & day & Eday & Hday & Hrange & Hrun).
  destruct (analyse_day_total self logon device http (days_of logon device http)
              (lo, hi) day Hday)
    as (a' & self'' & E & Ea & Hl & Hs & Hg & Hn & He & Hr & Hda & Hk & Hmu & Hmd
        & _ & Hm & _ & _ & Hb & Hnum & Hst).
  rewrite (Hrun a' self'' E) in Erun. injection Erun as -> ->. subst day.
  rewrite Hr.
  split; [exact Eday|]. split; [exact Hday|]. split; [exact Hl|].
  split; [exact Hs|]. split; [exact Hb|]. split; [exact Hg|].
  split.
  { cbn zeta. split; [exact Hn|]. rewrite He.
    destruct (edge_rows_all _ _ _ _ _ Hnum) as (Hrl & Hrd & Hrh).
    by rewrite !filter_all. }
  split; [exact Hst|].
  split; [exact Hrange|]. split; [exact Hda|]. split; [exact Hk|].
  split; [exact Hmu|]. split; [exact Hmd|exact Hm].
Qed.

(** X15. A run on readable log files that hold no row at all ends in the
    error response: [min(all_days)] at line 557 raises a ValueError on the
    empty set of days, and the ["error"] entry of the response is its
    message.  Nothing was selected, built or trained: the detector has only
    gained the users and days of the answer files. *)
Theorem run_analysis_error detector answer_users answer_days :
  let r :=
    run_insider_threat_analysis draw detector answer_users answer_days
      (Readable [] [] []) in
  (∃ msg, r.1 = Error (Py.ValueError msg) ∧ response_error r.1 = Some msg) ∧
  r.2 = load_malicious_data detector answer_users answer_days.
Proof.
  intros r. subst r. unfold run_insider_threat_analysis.
  cbn [load_background_logs]. unfold analyse_logs.
  rewrite (proj2 (days_of_empty [] [] []) (conj eq_refl (conj eq_refl eq_refl))).
  rewrite elements_empty. cbn [Py.min_key fst snd].
  split; [|reflexivity]. eexists. split; reflexivity.
Qed.

(** X16. When the run succeeds on readable log files and no user name of the
    analysed day is also a device or domain name of that day, the summary
    counts the users of the day as analysed; when none of these names is
    empty either, the run lists every user of the day up to 100; and when no
    name of the day is empty or shared between users, devices and domains,
    the export has the node and edge counts of the summary. *)
Theorem run_analysis_clean_day detector answer_users answer_days logon device http
    a self' :
  run_insider_threat_analysis draw detector answer_users answer_days
    (Readable logon device http) = (Success a, self') →
  let logon_day := on_day l_day (analysis_date a) logon in
  let device_day := on_day d_day (analysis_date a) device in
  let http_day := on_day h_day (analysis_date a) http in
  let users := users_of logon_day device_day http_day in
  let pcs := pcs_of logon_day device_day in
  let domains := domains_of http_day in
  users ## pcs → users ## domains →
  sum_users_analyzed (summary a) = size users ∧
  ("" ∉ users → length (suspicious_users a) = Nat.min 100 (size users)) ∧
  (pcs ## domains → "" ∉ users ∪ pcs ∪ domains →
     ∃ v, graph_data a = Some v ∧
       total_nodes (viz_stats v) = sum_total_nodes (summary a) ∧
       total_edges (viz_stats v) = sum_total_edges (summary a)).
Proof.
  unfold run_insider_threat_analysis. cbn [load_background_logs].
  set (self := load_malicious_data detector answer_users answer_days).
  intros Erun.
  assert (days_of logon device http ≠ ∅) as Hdays.
  { intros E. unfold analyse_logs in Erun. rewrite E, elements_empty in Erun.
    discriminate Erun. }
  destruct (analyse_logs_total self logon device http Hdays)
    as (lo & hi & day & _ & Hday & _ & Hrun).
  destruct (analyse_day_total self logon device http (days_of logon device http)
              (lo, hi) day Hday)
    as (a' & self'' & E & Ea & _ & _ & _ & _ & _ & _ & _ & _ & _ & _ & _ & _
        & Hcount & Hexport & _).
  rewrite (Hrun a' self'' E) in Erun. injection Erun as -> ->. subst day.
  intros H1 H2.
  destruct (Hcount H1 H2) as [Hu Hs].
  split; [exact Hu|]. split; [exact Hs|].
  intros H3 Hblank. exact (Hexport H1 H2 H3 Hblank).
Qed.

(** X17. The mock data are 200 logon rows, 150 device rows and 300 http
    rows, whatever the random generator draws: every row joins a name of the
    user list with a name of the device list or of the domain list, on one
    of the 365 days from 2010-01-04 on, with activity counts in the ranges
    of the code.  [create_mock_data] replaces the ground truth of the
    detector by three fixed users and the day 2010-02-03 and keeps its other
    fields. *)
Theorem create_mock_data_frames self :
  ∃ self',
    create_mock_data draw self
    = ((mock_logon draw, mock_device draw, mock_http draw), self') ∧
    length (mock_logon draw) = 200%nat ∧ length (mock_device draw) = 150%nat ∧
    length (mock_http draw) = 300%nat ∧
    (∀ r, r ∈ mock_logon draw →
       l_user r ∈ mock_users ∧ l_pc r ∈ mock_pcs ∧
       base_date ≤ l_day r ≤ base_date + 364 ∧
       1 ≤ l_logon r ≤ 9 ∧ 1 ≤ l_logoff r ≤ 9) ∧
    (∀ r, r ∈ mock_device draw →
       d_user r ∈ mock_users ∧ d_pc r ∈ mock_pcs ∧
       base_date ≤ d_day r ≤ base_date + 364 ∧
       1 ≤ d_connect r ≤ 4 ∧ 1 ≤ d_disconnect r ≤ 4) ∧
    (∀ r, r ∈ mock_http draw →
       h_user r ∈ mock_users ∧ h_domain r ∈ mock_domains ∧
       base_date ≤ h_day r ≤ base_date + 364 ∧
       1 ≤ h_request_count r ≤ 49) ∧
    malicious_users self' = {[ "RCW0822"; "JCE0258"; "AAB0754" ]} ∧
    malicious_days self' = {[ base_date + 30 ]} ∧
    (∀ x, x ∈ malicious_users self' → x ∈ mock_users) ∧
    model self' = model self ∧ data self' = data self ∧
    node_id self' = node_id self ∧ node_type self' = node_type self.
Proof.
  eexists. split; [reflexivity|].
  destruct (mock_frames_length draw) as (Hl & Hd & Hh).
  split; [exact Hl|]. split; [exact Hd|]. split; [exact Hh|].
  split; [apply mock_logon_rows|]. split; [apply mock_device_rows|].
  split; [apply mock_http_rows|]. cbn [malicious_users malicious_days model data
                                       node_id node_type].
  split; [reflexivity|]. split; [reflexivity|]. split; [|done].
  intros x. unfold mock_malicious_users.
  rewrite !elem_of_union, !elem_of_singleton.
  intros [[->| ->]| ->]; apply (bool_decide_unpack _); vm_compute; exact I.
Qed.

(** X18. When the log files are unusable the run works on mock data and
    always succeeds.  The ground truth of the answer files is then
    discarded: the detector and the summary know the three mock users and
    the one mock day only.  The analysed day is one of the 365 mock days,
    and it is 2010-02-03 whenever a mock row falls on that day.  Every user
    of the analysed day is listed, at most 50 of them, and the export has
    the node and edge counts of the summary. *)
Theorem run_on_mock_data detector answer_users answer_days :
  ∃ a self',
    run_insider_threat_analysis draw detector answer_users answer_days Unusable
    = (Success a, self') ∧
    malicious_users self' = mock_malicious_users ∧
    malicious_days self' = mock_malicious_days ∧
    sum_known_malicious (summary a) = 3%nat ∧
    analysis_date a ∈ days_of (mock_logon draw) (mock_device draw) (mock_http draw) ∧
    base_date ≤ analysis_date a ≤ base_date + 364 ∧
    (base_date + 30 ∈ days_of (mock_logon draw) (mock_device draw) (mock_http draw) →
       analysis_date a = base_date + 30) ∧
    length (suspicious_users a) = sum_users_analyzed (summary a) ∧
    (sum_users_analyzed (summary a) ≤ 50)%nat ∧
    ∃ v, graph_data a = Some v ∧
      total_nodes (viz_stats v) = sum_total_nodes (summary a) ∧
      total_edges (viz_stats v) = sum_total_edges (summary a).
Proof.
  unfold run_insider_threat_analysis. cbn [load_background_logs create_mock_data].
  set (self := {| model := _ |}).
  destruct (analyse_logs_total self (mock_logon draw) (mock_device draw)
              (mock_http draw) (mock_days_nonempty draw))
    as (lo & hi & day & Eday & Hday & _ & Hrun).
  destruct (analyse_day_total self (mock_logon draw) (mock_device draw)
              (mock_http draw)
              (days_of (mock_logon draw) (mock_device draw) (mock_http draw))
              (lo, hi) day Hday)
    as (a & self' & E & Ea & _ & _ & _ & _ & _ & _ & _ & Hk & Hmu & Hmd & _ & _
        & Hcount & Hexport & _).
  destruct (mock_day_names draw day) as (H1 & H2 & H3 & Hblank & H50).
  destruct (Hcount H1 H2) as [Hu Hs].
  exists a, self'. split; [exact (Hrun a self' E)|]. rewrite Ea.
  split; [exact Hmu|]. split; [exact Hmd|].
  split; [rewrite Hk; vm_compute; reflexivity|].
  split; [exact Hday|]. split; [exact (mock_days_range draw day Hday)|].
  split.
  { intros H30. pose proof (select_day_hit _ _ H30) as Ehit.
    change (malicious_days self) with ({[ base_date + 30 ]} : gset Z) in Eday.
    rewrite Ehit in Eday. by injection Eday. }
  split.
  { rewrite Hu, Hs; [lia|]. intros Hin. apply Hblank.
    apply elem_of_union; left. apply elem_of_union; left. exact Hin. }
  split; [rewrite Hu; exact H50|].
  exact (Hexport H1 H2 H3 Hblank).
Qed.

End RunTheorems.

Section AcrossRuns.

Context (draw : nat → Z) {GNN : Type} `{!Scorer GNN}.
Implicit Types (self detector : Detector GNN).

(** Whatever its outcome, the part of the run after the loaders leaves the
    ground truth alone. *)
Lemma analyse_logs_ground_truth self logon device http :
  malicious_users (analyse_logs self logon device http).2 = malicious_users self.
Proof.
  destruct (decide (days_of logon device http = ∅)) as [E|Hdays].
  - unfold analyse_logs. by rewrite E, elements_empty.
  - destruct (analyse_logs_total self logon device http Hdays)
      as (lo & hi & day & _ & Hday & _ & Hrun).
    destruct (analyse_day_total self logon device http (days_of logon device http)
                (lo, hi) day Hday)
      as (a & self' & E & _ & _ & _ & _ & _ & _ & _ & _ & _ & Hmu & _).
    rewrite (Hrun a self' E). exact Hmu.
Qed.

(** X19. The detector carries its ground truth from one run to the next,
    whatever the outcome of the runs.  After a run with readable logs it
    knows the users it knew before and those of the answer files; after a
    run on mock data it knows the three mock users only.  After the next
    run with readable logs it knows all of these together with the users of
    the answer files read then, so users once known, the mock users
    included, are never forgotten. *)
Theorem ground_truth_across_runs detector answer_users answer_days files
    answer_users' answer_days' logon device http :
  let self1 :=
    (run_insider_threat_analysis draw detector answer_users answer_days files).2 in
  let known :=
    match files with
    | Readable _ _ _ => malicious_users detector ∪ answer_users
    | Unusable => mock_malicious_users
    end in
  let self2 :=
    (run_insider_threat_analysis draw self1 answer_users' answer_days'
       (Readable logon device http)).2 in
  malicious_users self1 = known ∧
  malicious_users self2 = known ∪ answer_users'.
Proof.
  intros self1 known self2.
  assert (malicious_users self1 = known) as Hknown.
  { unfold self1, known, run_insider_threat_analysis.
    destruct files as [l1 d1 h1|]; cbn [load_background_logs create_mock_data];
      by rewrite analyse_logs_ground_truth. }
  split; [exact Hknown|].
  unfold self2, run_insider_threat_analysis. cbn [load_background_logs].
  rewrite analyse_logs_ground_truth.
  cbn [load_malicious_data malicious_users]. by rewrite Hknown.
Qed.

End AcrossRuns.

(** ** The order of equal scores *)

Section Stability.

Context {A : Type} (before : A → A → bool) (P : A → Prop) `{∀ a, Decision (P a)}.
Hypothesis before_same : ∀ a b, P a → P b → before a b = true.
Implicit Types (l : list A).

(** The sort is stable: elements that may stand either way keep their
    order. *)
Lemma insert_filter a l : filter P (Py.insert before a l) = filter P (a :: l).
Proof.
  induction l as [|b l IH]; [done|]. cbn [Py.insert].
  destruct (before a b) eqn:E; [done|].
  rewrite (filter_cons _ b), IH, !filter_cons.
  repeat case_decide; try done.
  rewrite before_same in E; done.
Qed.

Lemma sort_filter l : filter P (Py.sort before l) = filter P l.
Proof.
  induction l as [|a l IH]; [done|]. cbn [Py.sort].
  rewrite insert_filter, !filter_cons, IH. done.
Qed.

Lemma lookup_filter_order l i j x y :
  l !! i = Some x → l !! j = Some y → (i < j)%nat → P x → P y →
  ∃ i' j', (i' < j')%nat ∧ filter P l !! i' = Some x ∧ filter P l !! j' = Some y.
Proof.
  revert i j. induction l as [|a l IH]; intros i j Hi Hj Hij Hx Hy; [done|].
  destruct j as [|j]; [lia|]. simpl in Hj. rewrite filter_cons.
  destruct i as [|i].
  - injection Hi as ->. rewrite decide_True by done.
    assert (y ∈ filter P l) as [q Hq]%list_elem_of_lookup_1.
    { apply list_elem_of_filter. split; [done|]. by eapply list_elem_of_lookup_2. }
    exists 0%nat, (S q). split; [lia|]. split; [done|exact Hq].
  - simpl in Hi. destruct (IH i j Hi Hj ltac:(lia) Hx Hy) as (i' & j' & ? & ? & ?).
    case_decide.
    + exists (S i'), (S j'). split; [lia|]. split; done.
    + exists i', j'. split; [lia|]. split; done.
Qed.

End Stability.

Section OmapOrder.

Context {A B : Type} (f : A → option B).
Implicit Types (l : list A).

Lemma omap_cons_eq a l :
  omap f (a :: l) = match f a with Some y => y :: omap f l | None => omap f l end.
Proof. done. Qed.

Lemma lookup_omap_order l i j x y :
  omap f l !! i = Some x → omap f l !! j = Some y → (i < j)%nat →
  ∃ i' j' a b, (i' < j')%nat ∧ l !! i' = Some a ∧ l !! j' = Some b ∧
    f a = Some x ∧ f b = Some y.
Proof.
  revert i j. induction l as [|a l IH]; intros i j Hi Hj Hij; [done|].
  rewrite omap_cons_eq in Hi, Hj. destruct (f a) as [z|] eqn:Ea.
  - destruct j as [|j]; [lia|]. simpl in Hj. destruct i as [|i].
    + injection Hi as ->.
      assert (y ∈ omap f l) as Hy by by eapply list_elem_of_lookup_2.
      apply list_elem_of_omap in Hy as (b & [q Hq]%list_elem_of_lookup_1 & Hb).
      exists 0%nat, (S q), a, b. split; [lia|]. done.
    + simpl in Hi.
      destruct (IH i j Hi Hj ltac:(lia)) as (i' & j' & a' & b' & ? & ? & ? & ? & ?).
      exists (S i'), (S j'), a', b'. split; [lia|]. done.
  - destruct (IH i j Hi Hj Hij) as (i' & j' & a' & b' & ? & ? & ? & ? & ?).
    exists (S i'), (S j'), a', b'. split; [lia|]. done.
Qed.

End OmapOrder.

Section PredictorTies.

Context {GNN : Type} `{!Scorer GNN}.
Implicit Types (self : Detector GNN) (scores : list Q).

Lemma filter_as_omap {A} (P : A → Prop) `{∀ a, Decision (P a)} (l : list A) :
  filter P l = omap (λ a, if decide (P a) then Some a else None) l.
Proof.
  induction l as [|a l IH]; [done|].
  rewrite filter_cons, omap_cons_eq, IH. by case_decide.
Qed.

(** X20. Entries with equal scores are returned in the order of their node
    indices: the sort of [get_predictions] is stable, so among equal scores,
    such as the scores clamped to 1, the node numbering decides. *)
Theorem get_predictions_ties self top_k m d :
  model self = Some m → data self = Some d → num_nodes d ≠ 1%nat →
  (∀ i, (i < num_nodes d)%nat → is_Some (node_type self !! i)) →
  ∃ r, get_predictions self top_k = Py.Ok r ∧
    ∀ i j e u, r !! i = Some e → r !! j = Some u → (i < j)%nat →
      (p_score e == p_score u)%Q →
      ∃ ie iu, node_id self !! p_user e = Some ie ∧
        node_id self !! p_user u = Some iu ∧ (ie < iu)%nat.
Proof.
  intros Hm Hd _ Hty.
  destruct (get_predictions_unfold self top_k m d Hm Hd Hty) as (boosted & _ & Ep).
  set (l := omap (entry_of self boosted) (seq 0 (num_nodes d))) in *.
  destruct (slice_to_take (default default_top_k top_k) (Py.sort by_score_desc l))
    as [t Et].
  eexists. split; [exact Ep|]. rewrite Et.
  intros i j e u [Hi _]%lookup_take_Some [Hj _]%lookup_take_Some Hij Heq.
  set (P := λ x : Prediction, (p_score x == p_score u)%Q).
  assert (∀ x, Decision (P x)) as Hdec by (intros x; apply Qeq_dec).
  assert (∀ a b, P a → P b → by_score_desc a b = true) as Hsame.
  { unfold P, by_score_desc. intros a b Ha Hb. apply Qle_bool_iff. lra. }
  destruct (lookup_filter_order P (Py.sort by_score_desc l) i j e u Hi Hj Hij)
    as (i1 & j1 & Hij1 & Hi1 & Hj1); [exact Heq|unfold P; lra|].
  rewrite (sort_filter by_score_desc P Hsame), filter_as_omap in Hi1, Hj1.
  destruct (lookup_omap_order _ l i1 j1 e u Hi1 Hj1 Hij1)
    as (i2 & j2 & a & b & Hij2 & Hi2 & Hj2 & Ha & Hb).
  case_decide; [|done]. case_decide; [|done].
  injection Ha as ->. injection Hb as ->.
  destruct (lookup_omap_order _ (seq 0 (num_nodes d)) i2 j2 e u Hi2 Hj2 Hij2)
    as (i3 & j3 & ie & iu & Hij3 & Hi3 & Hj3 & He & Hu).
  apply lookup_seq in Hi3 as [-> _]. apply lookup_seq in Hj3 as [-> _].
  simpl in He, Hu.
  apply entry_of_inv in He as (_ & He%name_of_lookup & _).
  apply entry_of_inv in Hu as (_ & Hu%name_of_lookup & _).
  exists i3, j3. split; [exact He|]. split; [exact Hu|exact Hij3].
Qed.

End PredictorTies.

(** * The further properties on concrete days *)

Lemma build_graph_degrees_witness :
  data_x scenario_data !! 3%nat
  = Some (endpoint_count 3 (data_edge_index scenario_data)) ∧
  Zsum (data_x scenario_data) = 8.
Proof.
  destruct (build_graph_degrees (knowing {["A"]}) scenario_logon [] scenario_http 7
              scenario_data scenario_built) as [Hd Hs].
  - vm_compute. reflexivity.
  - split; [apply Hd; vm_compute; lia|rewrite Hs; reflexivity].
Defined.

Lemma build_graph_edge_attr_witness :
  data_edge_attr scenario_data
  = [[1; 1; 0; 0; 0]; [1; 1; 0; 0; 0]; [0; 0; 0; 0; 1]; [0; 0; 0; 0; 1]] ∧
  length (data_edge_attr scenario_data) = num_edges scenario_data.
Proof.
  destruct (build_graph_edge_attr (knowing {["A"]}) scenario_logon [] scenario_http 7
              scenario_data scenario_built) as (Ha & Hl & _).
  - vm_compute. reflexivity.
  - split; [rewrite Ha; vm_compute; reflexivity|exact Hl].
Defined.

Lemma build_graph_train_mask_witness :
  data_train_mask scenario_data !! 3%nat = Some false ∧
  train_nodes scenario_data = 3%nat.
Proof.
  destruct (build_graph_train_mask (knowing {["A"]}) scenario_logon [] scenario_http 7
              scenario_data scenario_built) as [_ H].
  - vm_compute. reflexivity.
  - destruct H as [Hm Hn].
    + apply (bool_decide_unpack _). vm_compute. exact I.
    + apply (bool_decide_unpack _). vm_compute. exact I.
    + split.
      * rewrite Hm by (vm_compute; lia). vm_compute. reflexivity.
      * rewrite Hn. vm_compute. reflexivity.
Defined.

Lemma build_graph_edge_ends_witness :
  (1 < num_nodes scenario_data)%nat ∧ (3 < num_nodes scenario_data)%nat ∧
  node_type scenario_built !! 1%nat = Some User.
Proof.
  destruct (build_graph_edge_ends (knowing {["A"]}) scenario_logon [] scenario_http 7
              scenario_data scenario_built) with (e := (1%nat, 3%nat))
    as (H1 & H2 & H3).
  - vm_compute. reflexivity.
  - simpl. left.
  - split; [exact H1|]. split; [exact H2|].
    destruct H3 as [Hu _].
    + apply (bool_decide_unpack _). vm_compute. exact I.
    + apply (bool_decide_unpack _). vm_compute. exact I.
    + exact Hu.
Defined.

Lemma train_model_result_witness :
  train_model (knowing {["A"]}) 25
  = (Py.Raise (Py.ValueError "Graph data not available. Build graph first."),
     knowing {["A"]}) ∧
  ∃ losses, (train_model scenario_built 25).1 = Py.Ok losses ∧ length losses = 25%nat.
Proof.
  split.
  - destruct (train_model_result (GNN := unit) (knowing {["A"]}) 25) as [H _].
    apply H. reflexivity.
  - destruct (train_model_result (GNN := unit) scenario_built 25) as [_ H].
    destruct (H scenario_data) as (losses & m & d' & E & Hl & _).
    + vm_compute. reflexivity.
    + vm_compute. lia.
    + exists losses. rewrite E. split; [reflexivity|exact Hl].
Defined.

Lemma known_positive_keeps_labels_witness :
  (0 < masked_positives scenario_data)%nat ∧
  data (train_model scenario_built 25).2 = Some scenario_data.
Proof.
  apply (known_positive_keeps_labels (GNN := unit) (knowing {["A"]}) scenario_logon []
           scenario_http 7 scenario_data scenario_built "A" 25).
  - vm_compute. reflexivity.
  - apply (bool_decide_unpack _). vm_compute. exact I.
  - apply (bool_decide_unpack _). vm_compute. exact I.
  - apply (bool_decide_unpack _). vm_compute. exact I.
  - apply (bool_decide_unpack _). vm_compute. exact I.
Defined.

Lemma known_malicious_rank_high_witness :
  ∃ r, get_predictions scenario_trained None = Py.Ok r ∧
    ∀ e, e ∈ r → p_is_known_malicious e = true → (8 # 10 <= p_score e)%Q.
Proof.
  destruct (known_malicious_rank_high (GNN := unit) scenario_trained None tt
              (set_y scenario_data [0; 1; 0; 0; 0])) as (r & E & _ & H & _).
  - vm_compute. reflexivity.
  - vm_compute. reflexivity.
  - vm_compute. lia.
  - exact scenario_types_total.
  - exists r. split; [exact E|exact H].
Defined.

Lemma get_predictions_distinct_witness :
  ∃ r, get_predictions scenario_trained None = Py.Ok r ∧ NoDup (p_user <$> r).
Proof.
  apply (get_predictions_distinct (GNN := unit) scenario_trained None tt
           (set_y scenario_data [0; 1; 0; 0; 0])).
  - vm_compute. reflexivity.
  - vm_compute. reflexivity.
  - vm_compute. lia.
  - exact scenario_types_total.
Defined.

Lemma get_predictions_length_witness :
  ∃ r, get_predictions scenario_trained (Some (-1)) = Py.Ok r ∧ length r = 2%nat.
Proof.
  destruct (get_predictions_length (GNN := unit) (knowing {["A"]}) scenario_logon []
              scenario_http 7 scenario_data scenario_built 25 (Some (-1)))
    as (r & E & Hl).
  - vm_compute. reflexivity.
  - apply (bool_decide_unpack _). vm_compute. exact I.
  - apply (bool_decide_unpack _). vm_compute. exact I.
  - apply (bool_decide_unpack _). vm_compute. exact I.
  - exists r. split; [exact E|]. rewrite Hl. vm_compute. reflexivity.
Defined.

Lemma get_predictions_errors_witness :
  get_predictions (knowing {["A"]}) None
  = Py.Raise (Py.ValueError "Model not trained or data not available") ∧
  ∃ r, get_predictions scenario_trained None = Py.Ok r.
Proof.
  split.
  - destruct (get_predictions_errors (GNN := unit) (knowing {["A"]}) None) as [[_ H] _].
    apply H. left. reflexivity.
  - destruct (get_predictions_errors (GNN := unit) scenario_trained None) as [_ H].
    destruct (H tt (set_y scenario_data [0; 1; 0; 0; 0])) as [_ [_ Hok]].
    + vm_compute. reflexivity.
    + vm_compute. reflexivity.
    + vm_compute. lia.
    + apply Hok. exact scenario_types_total.
Defined.

Lemma visualization_export_witness :
  get_graph_data_for_visualization (knowing {["A"]}) = Py.Ok None ∧
  ∃ v, get_graph_data_for_visualization scenario_trained = Py.Ok (Some v) ∧
    NoDup (vn_id <$> viz_nodes v).
Proof.
  split.
  - destruct (visualization_export (knowing {["A"]})) as [[_ H] _].
    apply H. reflexivity.
  - destruct (visualization_export scenario_trained) as [_ H].
    assert (∃ v, get_graph_data_for_visualization scenario_trained = Py.Ok (Some v))
      as [v Ev] by (vm_compute; eexists; reflexivity).
    exists v. split; [exact Ev|].
    destruct (H (set_y scenario_data [0; 1; 0; 0; 0]) v) as (_ & Hnd & _).
    + vm_compute. reflexivity.
    + exact Ev.
    + exact Hnd.
Defined.

Lemma failed_rebuild_leaves_stale_graph_witness :
  get_predictions (build_graph scenario_trained scenario_logon [] scenario_http 99).2 None
  = Py.Raise Py.KeyError.
Proof.
  destruct (failed_rebuild_leaves_stale_graph (GNN := unit) (knowing {["A"]})
              scenario_logon [] scenario_http 7 scenario_data scenario_built 25
              scenario_logon [] scenario_http 99 None) as (_ & _ & _ & H & _).
  - vm_compute. reflexivity.
  - vm_compute. reflexivity.
  - exact H.
Defined.

Lemma select_day_none_witness : select_day ∅ {[ 7 ]} = None.
Proof. apply select_day_none. reflexivity. Defined.

Lemma run_analysis_success_response_witness :
  ∃ a self',
    run_insider_threat_analysis Z.of_nat (knowing {["A"]}) ∅ {[ 7 ]}
      (Readable scenario_logon [] scenario_http) = (Success a, self') ∧
    analysis_date a = 7 ∧
    length (training_losses a) = 25%nat ∧
    sum_total_days_available (summary a) = 2%nat.
Proof.
  assert (∃ a self',
            run_insider_threat_analysis Z.of_nat (knowing {["A"]}) ∅ {[ 7 ]}
              (Readable scenario_logon [] scenario_http) = (Success a, self') ∧
            analysis_date a = 7) as (a & self' & E & Ea)
    by (vm_compute; eexists _, _; split; reflexivity).
  destruct (run_analysis_success_response (GNN := unit) Z.of_nat (knowing {["A"]})
              ∅ {[ 7 ]} scenario_logon [] scenario_http a self' E)
    as (_ & _ & Hl & _ & _ & _ & _ & _ & _ & Hd & _).
  exists a, self'. split; [exact E|]. split; [exact Ea|]. split; [exact Hl|].
  rewrite Hd. vm_compute. reflexivity.
Defined.

Lemma run_analysis_error_witness :
  ∃ msg,
    response_error
      (run_insider_threat_analysis Z.of_nat (knowing {["A"]}) {["B"]} {[ 7 ]}
         (Readable [] [] [])).1 = Some msg ∧
    malicious_users
      (run_insider_threat_analysis Z.of_nat (knowing {["A"]}) {["B"]} {[ 7 ]}
         (Readable [] [] [])).2 = {["A"]} ∪ {["B"]}.
Proof.
  destruct (run_analysis_error (GNN := unit) Z.of_nat (knowing {["A"]}) {["B"]} {[ 7 ]})
    as [(msg & _ & Hmsg) Hself].
  exists msg. split; [exact Hmsg|]. rewrite Hself. reflexivity.
Defined.

Lemma run_analysis_clean_day_witness :
  ∃ a self',
    run_insider_threat_analysis Z.of_nat (knowing {["A"]}) ∅ {[ 7 ]}
      (Readable scenario_logon [] scenario_http) = (Success a, self') ∧
    sum_users_analyzed (summary a) = 3%nat.
Proof.
  assert (∃ a self',
            run_insider_threat_analysis Z.of_nat (knowing {["A"]}) ∅ {[ 7 ]}
              (Readable scenario_logon [] scenario_http) = (Success a, self') ∧
            analysis_date a = 7) as (a & self' & E & Ea)
    by (vm_compute; eexists _, _; split; reflexivity).
  destruct (run_analysis_clean_day (GNN := unit) Z.of_nat (knowing {["A"]}) ∅ {[ 7 ]}
              scenario_logon [] scenario_http a self' E) as (Hu & _).
  - rewrite Ea. apply (bool_decide_unpack _). vm_compute. exact I.
  - rewrite Ea. apply (bool_decide_unpack _). vm_compute. exact I.
  - exists a, self'. split; [exact E|]. rewrite Hu, Ea. vm_compute. reflexivity.
Defined.

Lemma create_mock_data_frames_witness :
  "AAB0754" ∈ mock_users ∧ "PC-5948" ∈ mock_pcs ∧
  base_date ≤ base_date + 2 ≤ base_date + 364.
Proof.
  destruct (create_mock_data_frames Z.of_nat (knowing {["A"]}))
    as (self' & _ & _ & _ & _ & H & _).
  destruct (H {| l_user := "AAB0754"; l_pc := "PC-5948"; l_day := base_date + 2;
                 l_logon := 4; l_logoff := 5 |}) as (Hu & Hp & Hd & _).
  - vm_compute. left.
  - split; [exact Hu|]. split; [exact Hp|exact Hd].
Defined.

Lemma run_on_mock_data_witness :
  ∃ a self',
    run_insider_threat_analysis Z.of_nat (knowing {["A"]}) {["A"]} {[ 7 ]} Unusable
    = (Success a, self') ∧
    sum_known_malicious (summary a) = 3%nat ∧
    length (suspicious_users a) = sum_users_analyzed (summary a).
Proof.
  destruct (run_on_mock_data (GNN := unit) Z.of_nat (knowing {["A"]}) {["A"]} {[ 7 ]})
    as (a & self' & E & _ & _ & Hk & _ & _ & _ & Hs & _).
  exists a, self'. split; [exact E|]. split; [exact Hk|exact Hs].
Defined.

Lemma ground_truth_across_runs_witness :
  malicious_users
    (run_insider_threat_analysis Z.of_nat (knowing {["A"]}) {["B"]} ∅ Unusable).2
  = mock_malicious_users ∧
  malicious_users
    (run_insider_threat_analysis Z.of_nat
       (run_insider_threat_analysis Z.of_nat (knowing {["A"]}) {["B"]} ∅ Unusable).2
       {["C"]} ∅ (Readable scenario_logon [] scenario_http)).2
  = mock_malicious_users ∪ {["C"]}.
Proof.
  exact (ground_truth_across_runs (GNN := unit) Z.of_nat (knowing {["A"]}) {["B"]} ∅
           Unusable {["C"]} ∅ scenario_logon [] scenario_http).
Defined.

Lemma get_predictions_ties_witness :
  ∃ r, get_predictions scenario_trained None = Py.Ok r ∧
    ∀ i j e u, r !! i = Some e → r !! j = Some u → (i < j)%nat →
      (p_score e == p_score u)%Q →
      ∃ ie iu, node_id scenario_trained !! p_user e = Some ie ∧
        node_id scenario_trained !! p_user u = Some iu ∧ (ie < iu)%nat.
Proof.
  apply (get_predictions_ties (GNN := unit) scenario_trained None tt
           (set_y scenario_data [0; 1; 0; 0; 0])).
  - vm_compute. reflexivity.
  - vm_compute. reflexivity.
  - vm_compute. lia.
  - exact scenario_types_total.
Defined.

Lemma build_graph_shared_name_witness :
  ∃ d self',
    build_graph (knowing ∅) [logon_row "X" "X" 7] [] [] 7 = (Some d, self') ∧
    (size (node_id self') < num_nodes d)%nat.
Proof.
  assert (∃ d self',
            build_graph (knowing ∅) [logon_row "X" "X" 7] [] [] 7 = (Some d, self'))
    as (d & self' & E) by (vm_compute; eexists _, _; reflexivity).
  exists d, self'. split; [exact E|].
  destruct (build_graph_shared_name (GNN := unit) (knowing ∅) [logon_row "X" "X" 7]
              [] [] 7 d self' "X" E) as (_ & _ & H).
  - apply (bool_decide_unpack _). vm_compute. exact I.
  - apply (bool_decide_unpack _). vm_compute. exact I.
  - exact H.
Defined.

Lemma get_predictions_bounded_witness :
  ∃ r, get_predictions scenario_trained None = Py.Ok r ∧ (length r ≤ 3)%nat.
Proof.
  destruct (get_predictions_bounded (GNN := unit) (knowing {["A"]}) scenario_logon []
              scenario_http 7 scenario_data scenario_built 25 None) as (r & E & Hle).
  - vm_compute. reflexivity.
  - exists r. split; [exact E|exact Hle].
Defined.

Lemma export_counts_known_users_witness :
  ∃ v, get_graph_data_for_visualization scenario_trained = Py.Ok (Some v) ∧
    stats_malicious_users (viz_stats v) = 1%nat.
Proof.
  destruct (export_counts_known_users (GNN := unit) (knowing {["A"]}) scenario_logon []
              scenario_http 7 scenario_data scenario_built 25) as (v & E & H).
  - vm_compute. reflexivity.
  - apply (bool_decide_unpack _). vm_compute. exact I.
  - apply (bool_decide_unpack _). vm_compute. exact I.
  - exists v. split; [exact E|]. rewrite H. vm_compute. reflexivity.
Defined.
